(** * The aggregation layer of the city-statistics dashboard

    A shallow embedding of [dashboard_complete.py] ([DataLoader],
    [DataProcessor], [DashboardApp]) and [data_handler.py]
    ([DataHandler]), and the properties of their query methods; then of
    their callers ([app.py], [main.py], [pages.py], [pages_complete.py]),
    of the creator of the unified datasets and of the loader of
    [indore_dashboard.py].

    Conventions of the embedding.
    - A Python exception is a value of [exn]; code that can raise returns a
      [result].  [try_except] is the [try: ... except: ...] statement.
    - Methods of the two application classes run in the monad [M]: they
      read, and may update, the dictionary of cached tables of their object.
    - A [float] is an exact rational, [NaN] or a signed infinity: the
      special values of binary64 are kept, its rounding error, overflow and
      signed zero are not modelled.  So [round] rounds the exact value,
      where Python rounds the binary64 value and numpy multiplies, rounds
      and divides in binary64: a rounded figure can differ from that of the
      code in its last digit.  And a quotient or product beyond the range
      of a float is a rational here, where Python raises [OverflowError] or
      gives an infinity: the properties that need it bound their numbers.
    - An int64 cell is a [Z]; the wrap-around of a column sum is written
      out ([wrap64]).
    - A DataFrame is its list of named columns, each of one of the three
      dtypes that [read_csv] produces from numeric and text files (int64,
      float64, object).  The row index labels are not modelled.
    - A string is a sequence of bytes; case mapping, white space and digits
      are those of ASCII. *)

From Stdlib Require Import ZArith QArith Qround Lia Ascii String.
From stdpp Require Import base option list sorting gmap strings.

Local Open Scope Z_scope.
Local Open Scope string_scope.
Local Open Scope list_scope.

(** ** Exceptions *)

Inductive exn : Type :=
| KeyError | TypeError | ValueError | IndexError
| ZeroDivisionError | OverflowError.

Inductive result (A : Type) : Type :=
| Ok (a : A)
| Raise (e : exn).
Arguments Ok {A} a.
Arguments Raise {A} e.

#[global] Instance result_ret : MRet result := @Ok.
#[global] Instance result_bind : MBind result := fun A B k r =>
  match r with
  | Ok a => k a
  | Raise e => Raise e
  end.
#[global] Instance result_fmap : FMap result := fun A B f r =>
  match r with
  | Ok a => Ok (f a)
  | Raise e => Raise e
  end.

(** [try: body except: handler] with a bare [except] clause (or
    [except Exception], every [exn] being a subclass of [Exception]). *)
Definition try_except {A} (body : result A) (handler : result A) : result A :=
  match body with
  | Ok a => Ok a
  | Raise _ => handler
  end.

Fixpoint rmapM {A B} (f : A → result B) (l : list A) : result (list B) :=
  match l with
  | [] => Ok []
  | a :: l' => b ← f a; bs ← rmapM f l'; Ok (b :: bs)
  end.

(** ** Floats and Python scalars *)

Module Float.

Inductive float : Type :=
| Fin (q : Q)
| NaN
| Inf (neg : bool).

Definition fin (q : Q) : float := Fin (Qred q).

Definition of_Z (z : Z) : float := Fin (inject_Z z).

Definition isnan (x : float) : bool :=
  match x with NaN => true | _ => false end.

Definition Qsign_neg (q : Q) : bool := (Qnum q <? 0)%Z.
Definition Qis_zero (q : Q) : bool := (Qnum q =? 0)%Z.

Definition add (x y : float) : float :=
  match x, y with
  | NaN, _ | _, NaN => NaN
  | Fin a, Fin b => fin (a + b)
  | Inf s, Fin _ | Fin _, Inf s => Inf s
  | Inf s, Inf t => if Bool.eqb s t then Inf s else NaN
  end.

Definition mul (x y : float) : float :=
  match x, y with
  | NaN, _ | _, NaN => NaN
  | Fin a, Fin b => fin (a * b)
  | Inf s, Fin q | Fin q, Inf s =>
      if Qis_zero q then NaN else Inf (xorb s (Qsign_neg q))
  | Inf s, Inf t => Inf (xorb s t)
  end.

(** IEEE division, as numpy scalars divide: a zero divisor gives an
    infinity, or [NaN] for [0/0]. *)
Definition div (x y : float) : float :=
  match x, y with
  | NaN, _ | _, NaN => NaN
  | Fin a, Fin b =>
      if Qis_zero b then
        if Qis_zero a then NaN else Inf (Qsign_neg a)
      else fin (a / b)
  | Fin _, Inf _ => Fin 0
  | Inf s, Fin b => Inf (xorb s (Qsign_neg b))
  | Inf _, Inf _ => NaN
  end.

(** [x == y] *)
Definition eqb (x y : float) : bool :=
  match x, y with
  | Fin a, Fin b => Qeq_bool a b
  | Inf s, Inf t => Bool.eqb s t
  | _, _ => false
  end.

(** [x <= y]; false as soon as one side is [NaN]. *)
Definition leb (x y : float) : bool :=
  match x, y with
  | NaN, _ | _, NaN => false
  | Fin a, Fin b => Qle_bool a b
  | Inf true, _ => true
  | _, Inf false => true
  | _, _ => false
  end.

Definition ltb (x y : float) : bool := leb x y && negb (eqb x y).

(** Rounding to the nearest integer, ties to even. *)
Definition round_half_even (q : Q) : Z :=
  let f := Qfloor q in
  match Qcompare (q - inject_Z f) (1 # 2) with
  | Lt => f
  | Gt => f + 1
  | Eq => if Z.even f then f else f + 1
  end.

(** [round(x, ndigits)] of a float, for [ndigits >= 0]: the nearest
    multiple of [10^-ndigits], ties to even. *)
Definition round (x : float) (ndigits : nat) : float :=
  match x with
  | Fin q =>
      let p := inject_Z (10 ^ Z.of_nat ndigits) in
      fin (inject_Z (round_half_even (q * p)) / p)
  | _ => x
  end.

(** Rounding to the nearest integer, ties to even, as a float ([rint]). *)
Definition rint (x : float) : float :=
  match x with
  | Fin q => fin (inject_Z (round_half_even q))
  | _ => x
  end.

(** Truncation toward zero, [int(x)] of a finite float. *)
Definition trunc (q : Q) : Z := Z.quot (Qnum q) (Z.pos (Qden q)).

End Float.
Export Float.

(** A Python object held in a cell or passed as a scalar. *)
Inductive value : Type :=
| VNone
| VInt (z : Z)
| VFloat (f : float)
| VStr (s : string).

(** [pd.isna(v)] of a scalar. *)
Definition isna (v : value) : bool :=
  match v with
  | VNone => true
  | VFloat NaN => true
  | _ => false
  end.

Definition notna (v : value) : bool := negb (isna v).

(** The float a number stands for in mixed arithmetic. *)
Definition as_float (v : value) : option float :=
  match v with
  | VInt z => Some (Float.of_Z z)
  | VFloat f => Some f
  | _ => None
  end.

(** [v == w] *)
Definition py_eq (v w : value) : bool :=
  match v, w with
  | VNone, VNone => true
  | VInt a, VInt b => (a =? b)%Z
  | VStr s, VStr t => String.eqb s t
  | VStr _, _ | _, VStr _ | VNone, _ | _, VNone => false
  | _, _ =>
      match as_float v, as_float w with
      | Some x, Some y => Float.eqb x y
      | _, _ => false
      end
  end.

(** [v > 0] for a number. *)
Definition py_gt0 (v : value) : result bool :=
  match v with
  | VInt z => Ok (0 <? z)%Z
  | VFloat f => Ok (Float.ltb (Fin 0) f)
  | _ => Raise TypeError
  end.

Definition is_zero (v : value) : bool := py_eq v (VInt 0).

(** [v / w] on Python numbers: true division, which raises on a zero
    divisor.  (The [OverflowError] of a quotient of ints beyond the range
    of a float is not modelled.) *)
Definition py_truediv (v w : value) : result value :=
  match as_float v, as_float w with
  | Some x, Some y =>
      if is_zero w then Raise ZeroDivisionError
      else Ok (VFloat (Float.div x y))
  | _, _ => Raise TypeError
  end.

(** [v / w] on numpy scalars: a zero divisor gives [inf] or [nan]. *)
Definition np_truediv (v w : value) : result value :=
  match as_float v, as_float w with
  | Some x, Some y => Ok (VFloat (Float.div x y))
  | _, _ => Raise TypeError
  end.

(** [v * w] on numbers. *)
Definition py_mul (v w : value) : result value :=
  match v, w with
  | VInt a, VInt b => Ok (VInt (a * b))
  | _, _ =>
      match as_float v, as_float w with
      | Some x, Some y => Ok (VFloat (Float.mul x y))
      | _, _ => Raise TypeError
      end
  end.

(** [v + w]: numbers add, strings concatenate. *)
Definition py_add (v w : value) : result value :=
  match v, w with
  | VInt a, VInt b => Ok (VInt (a + b))
  | VStr s, VStr t => Ok (VStr (s ++ t))
  | _, _ =>
      match as_float v, as_float w with
      | Some x, Some y => Ok (VFloat (Float.add x y))
      | _, _ => Raise TypeError
      end
  end.

(** [round(v, ndigits)] *)
Definition py_round (v : value) (ndigits : nat) : result value :=
  match v with
  | VInt z => Ok (VInt z)
  | VFloat f => Ok (VFloat (Float.round f ndigits))
  | _ => Raise TypeError
  end.

(** [round(v, ndigits)] of a numpy scalar, for [ndigits >= 0]: numpy
    multiplies by [10^ndigits], rounds to the nearest integer and divides
    again, where Python rounds the decimal value of the float. *)
Definition np_round (v : value) (ndigits : nat) : result value :=
  match v with
  | VInt z => Ok (VInt z)
  | VFloat f =>
      let p := Float.of_Z (10 ^ Z.of_nat ndigits) in
      Ok (VFloat (Float.div (Float.rint (Float.mul f p)) p))
  | _ => Raise TypeError
  end.

(** ** Strings: the parts of [str], [float(s)] and [int(s)] that are used *)

Module PyStr.

Definition code (a : ascii) : N := N_of_ascii a.

(** The white space that [float] and [int] strip from a string: tab, line
    feed, vertical tab, form feed, carriage return and space.  (The
    separators 28 to 31, which [str.strip] removes, are not among them.) *)
Definition is_space (a : ascii) : bool :=
  let n := code a in
  ((9 <=? n) && (n <=? 13) || (n =? 32))%N.

Definition is_digit (a : ascii) : bool :=
  let n := code a in ((48 <=? n) && (n <=? 57))%N.

Definition digit_val (a : ascii) : Z := Z.of_N (code a) - 48.

Definition upper_ascii (a : ascii) : ascii :=
  let n := code a in
  if ((97 <=? n) && (n <=? 122))%N then ascii_of_N (n - 32) else a.

(** [s.upper()] *)
Fixpoint upper (s : string) : string :=
  match s with
  | EmptyString => EmptyString
  | String a s' => String (upper_ascii a) (upper s')
  end.

Fixpoint drop_space (l : list ascii) : list ascii :=
  match l with
  | a :: l' => if is_space a then drop_space l' else l
  | [] => []
  end.

Definition strip (l : list ascii) : list ascii :=
  rev (drop_space (rev (drop_space l))).

Definition is_underscore (a : ascii) : bool := (code a =? 95)%N.

(** The rest of a run [digit (["_"] digit)*]: an underscore is read only
    between two digits.  Returns the number read so far, how many digits
    it has, and the unread input. *)
Fixpoint digits_more (l : list ascii) (acc : Z) (n : nat)
  : Z * nat * list ascii :=
  match l with
  | d :: l' =>
      if is_digit d then digits_more l' (10 * acc + digit_val d) (S n)
      else if is_underscore d then
        match l' with
        | d' :: l'' =>
            if is_digit d'
            then digits_more l'' (10 * acc + digit_val d') (S n)
            else (acc, n, l)
        | [] => (acc, n, l)
        end
      else (acc, n, l)
  | [] => (acc, n, l)
  end.

(** A run of at least one digit. *)
Definition digits (l : list ascii) : option (Z * nat * list ascii) :=
  match l with
  | d :: l' =>
      if is_digit d then Some (digits_more l' (digit_val d) 1) else None
  | [] => None
  end.

Definition digits_opt (l : list ascii) : Z * nat * list ascii :=
  match digits l with
  | Some r => r
  | None => (0, 0%nat, l)
  end.

Definition sign (l : list ascii) : bool * list ascii :=
  match l with
  | a :: l' =>
      if (code a =? 45)%N then (true, l')
      else if (code a =? 43)%N then (false, l')
      else (false, l)
  | [] => (false, l)
  end.

Definition upper_chars (l : list ascii) : string :=
  upper (string_of_list_ascii l).

(** [m * 10^e] *)
Definition scale10 (m e : Z) : Q :=
  if (0 <=? e)%Z then inject_Z (m * 10 ^ e)
  else Qred (Qmake m (Z.to_pos (10 ^ (- e)))).

Definition is_e (a : ascii) : bool :=
  ((code a =? 101) || (code a =? 69))%N.

Definition is_point (a : ascii) : bool := (code a =? 46)%N.

(** The exponent part: nothing, or [e], a sign and digits. *)
Definition exponent (l : list ascii) : option (Z * list ascii) :=
  match l with
  | a :: l' =>
      if is_e a then
        let (neg, l'') := sign l' in
        match digits l'' with
        | Some (e, _, r) => Some (if neg then - e else e, r)
        | None => None
        end
      else Some (0, l)
  | [] => Some (0, l)
  end.

(** [float(s)]: white space is stripped; a sign; then [inf],
    [infinity], [nan] in any case, or a decimal numeral with an optional
    fraction and exponent.  [None] when [float] raises [ValueError]. *)
Definition to_float (s : string) : option float :=
  let (neg, l1) := sign (strip (list_ascii_of_string s)) in
  let u := upper_chars l1 in
  if String.eqb u "INF" || String.eqb u "INFINITY" then Some (Inf neg)
  else if String.eqb u "NAN" then Some NaN
  else
    let '(ip, ni, l2) := digits_opt l1 in
    let '(fp, nf, l3) :=
      match l2 with
      | a :: l2' => if is_point a then digits_opt l2' else (0, 0%nat, l2)
      | [] => (0, 0%nat, l2)
      end in
    if (ni + nf =? 0)%nat then None
    else
      match exponent l3 with
      | Some (e, []) =>
          let m := ip * 10 ^ Z.of_nat nf + fp in
          Some (Fin (scale10 (if neg then - m else m) (e - Z.of_nat nf)))
      | _ => None
      end.

(** [int(s)]: white space is stripped; a sign; decimal digits. *)
Definition to_int (s : string) : option Z :=
  let (neg, l1) := sign (strip (list_ascii_of_string s)) in
  match digits l1 with
  | Some (n, _, []) => Some (if neg then - n else n)
  | _ => None
  end.

End PyStr.

(** [float(v)] *)
Definition py_float (v : value) : result value :=
  match v with
  | VNone => Raise TypeError
  | VInt z => Ok (VFloat (Float.of_Z z))
  | VFloat f => Ok (VFloat f)
  | VStr s =>
      match PyStr.to_float s with
      | Some f => Ok (VFloat f)
      | None => Raise ValueError
      end
  end.

(** [int(v)] *)
Definition py_int (v : value) : result Z :=
  match v with
  | VNone => Raise TypeError
  | VInt z => Ok z
  | VFloat (Fin q) => Ok (Float.trunc q)
  | VFloat NaN => Raise ValueError
  | VFloat (Inf _) => Raise OverflowError
  | VStr s =>
      match PyStr.to_int s with
      | Some z => Ok z
      | None => Raise ValueError
      end
  end.

(** ** Series and DataFrames *)

Inductive column : Type :=
| IntCol (l : list Z)          (* dtype int64 *)
| FloatCol (l : list float)    (* dtype float64; NaN is a missing cell *)
| ObjCol (l : list value).     (* dtype object; from a file: str, or NaN *)

(** The cells of a Series as Python objects. *)
Definition cells (c : column) : list value :=
  match c with
  | IntCol l => VInt <$> l
  | FloatCol l => VFloat <$> l
  | ObjCol l => l
  end.

Definition col_len (c : column) : nat := length (cells c).

(** The same rearrangement of the rows, whatever the dtype. *)
Definition col_rows (f : ∀ A, list A → list A) (c : column) : column :=
  match c with
  | IntCol l => IntCol (f _ l)
  | FloatCol l => FloatCol (f _ l)
  | ObjCol l => ObjCol (f _ l)
  end.

(** The elements at the given positions, in the order of the positions. *)
Definition take_at (idx : list nat) (A : Type) (l : list A) : list A :=
  omap (fun i => l !! i) idx.

Definition col_take (idx : list nat) : column → column :=
  col_rows (take_at idx).

(** A signed 64-bit integer, after overflow. *)
Definition wrap64 (z : Z) : Z := (z + 2 ^ 63) mod 2 ^ 64 - 2 ^ 63.

Definition Zsum (l : list Z) : Z := foldr Z.add 0 l.

Definition fsum (l : list float) : float := foldl Float.add (Fin 0) l.

Definition dropna (l : list float) : list float :=
  filter (fun x => Float.isnan x = false) l.

(** The sum of a float64 sequence with [skipna]: 0.0 when nothing is left. *)
Definition fsum_skipna (l : list float) : float := fsum (dropna l).

(** Python's [+] over a sequence of objects, from its first element. *)
Definition obj_reduce (l : list value) : result value :=
  match l with
  | [] => Ok (VInt 0)
  | v :: l' => foldl (fun acc w => a ← acc; py_add a w) (Ok v) l'
  end.

Definition fillna0 (v : value) : value := if isna v then VInt 0 else v.

(** [Series.sum()] *)
Definition series_sum (c : column) : result value :=
  match c with
  | IntCol l => Ok (VInt (wrap64 (Zsum l)))
  | FloatCol l => Ok (VFloat (fsum_skipna l))
  | ObjCol l => obj_reduce (fillna0 <$> l)
  end.

Definition is_number (v : value) : bool :=
  match v with VInt _ | VFloat _ => true | _ => false end.

(** The mean of the cells that are present; NaN when there is none. *)
Definition fmean (l : list float) : float :=
  let xs := dropna l in
  match xs with
  | [] => NaN
  | _ => Float.div (fsum xs) (Float.of_Z (Z.of_nat (length xs)))
  end.

(** [Series.mean()] *)
Definition series_mean (c : column) : result value :=
  match c with
  | IntCol l => Ok (VFloat (fmean (Float.of_Z <$> l)))
  | FloatCol l => Ok (VFloat (fmean l))
  | ObjCol l =>
      let xs := filter (fun v => notna v = true) l in
      if forallb is_number xs
      then Ok (VFloat (fmean (omap as_float xs)))
      else Raise TypeError
  end.

(** The dtype pandas infers for a sequence of results. *)
Definition as_Z (v : value) : option Z :=
  match v with VInt z => Some z | _ => None end.

Definition infer_column (l : list value) : column :=
  match l with
  | [] => ObjCol []
  | _ =>
      if forallb (fun v => bool_decide (is_Some (as_Z v))) l
      then IntCol (omap as_Z l)
      else if forallb is_number l then FloatCol (omap as_float l)
      else ObjCol l
  end.

(** [Series.apply(f)] *)
Definition series_apply (f : value → result value) (c : column)
  : result column :=
  vs ← rmapM f (cells c); Ok (infer_column vs).

(** A DataFrame: its columns, in order. *)
Definition frame : Type := list (string * column).

(** [df.empty]: no column or no row. *)
Definition frame_empty (df : frame) : bool :=
  match df with
  | [] => true
  | (_, c) :: _ => (col_len c =? 0)%nat
  end.

(** Every column has as many cells as the index has labels. *)
Definition frame_wf (df : frame) : Prop :=
  ∃ n : nat, Forall (fun nc => col_len nc.2 = n) df.

(** [df[name]] *)
Fixpoint getitem (df : frame) (name : string) : result column :=
  match df with
  | [] => Raise KeyError
  | (n, c) :: df' => if String.eqb n name then Ok c else getitem df' name
  end.

(** [name in df.columns] *)
Fixpoint has_column (df : frame) (name : string) : bool :=
  match df with
  | [] => false
  | (n, _) :: df' => String.eqb n name || has_column df' name
  end.

(** [df[name] = c]: replaces the column in place, or appends it. *)
Fixpoint setitem (df : frame) (name : string) (c : column) : frame :=
  match df with
  | [] => [(name, c)]
  | (n, c0) :: df' =>
      if String.eqb n name then (n, c) :: df'
      else (n, c0) :: setitem df' name c
  end.

(** [df[[name1, name2, ...]]] *)
Definition select (df : frame) (names : list string) : result frame :=
  rmapM (fun n => c ← getitem df n; Ok (n, c)) names.

Definition frame_rows (f : ∀ A, list A → list A) (df : frame) : frame :=
  (fun nc : string * column => (nc.1, col_rows f nc.2)) <$> df.

(** [lst[:n]] of Python, for any integer [n]: a negative [n] leaves the
    last [-n] elements out. *)
Definition slice_to (n : Z) (A : Type) (l : list A) : list A :=
  if (0 <=? n)%Z then take (Z.to_nat n) l
  else take (length l - Z.to_nat (- n)) l.

(** [lst[-n:]] for [n > 0]. *)
Definition slice_last (n : nat) (A : Type) (l : list A) : list A :=
  drop (length l - n) l.

(** [df.head(n)] *)
Definition df_head (n : Z) (df : frame) : frame :=
  frame_rows (slice_to n) df.

(** [df.tail(n)], [n >= 0] *)
Definition df_tail (n : nat) (df : frame) : frame :=
  frame_rows (slice_last n) df.

(** [df.columns = names] *)
Definition set_columns (df : frame) (names : list string) : result frame :=
  if (length names =? length df)%nat
  then Ok (zip names (snd <$> df))
  else Raise ValueError.

(** [df.iloc[0][name]]: the cell of the first row in a column. *)
Definition row0 (df : frame) (name : string) : result value :=
  c ← getitem df name;
  match cells c with
  | v :: _ => Ok v
  | [] => Raise IndexError
  end.

(** *** Sorting and grouping *)

Section Isort.
Context {A : Type} (leb : A → A → bool).

Fixpoint insert (x : A) (l : list A) : list A :=
  match l with
  | [] => [x]
  | y :: l' => if leb x y then x :: l else y :: insert x l'
  end.

(** A stable sort: equal elements keep their order.  (pandas leaves the
    order of equal rows to the sorting algorithm; no property below
    depends on it.) *)
Definition isort (l : list A) : list A := foldr insert [] l.
End Isort.

(** How cells are ordered: numbers by value, before strings, which are
    ordered by their bytes; missing cells come last. *)
Inductive sort_class : Type :=
| KNum (x : float)
| KStr (s : string)
| KNA.

Definition sort_key (v : value) : sort_class :=
  match v with
  | VNone | VFloat NaN => KNA
  | VInt z => KNum (Float.of_Z z)
  | VFloat f => KNum f
  | VStr s => KStr s
  end.

Definition value_leb (v w : value) : bool :=
  match sort_key v, sort_key w with
  | _, KNA => true
  | KNA, _ => false
  | KNum x, KNum y => Float.leb x y
  | KNum _, KStr _ => true
  | KStr _, KNum _ => false
  | KStr s, KStr t => String.leb s t
  end.

(** The order of the rows under [sort_values]: ascending or descending
    among the cells that are present, missing cells last in both cases
    ([na_position='last']). *)
Definition row_leb (ascending : bool) (v w : value) : bool :=
  if isna w then true
  else if isna v then false
  else if ascending then value_leb v w else value_leb w v.

Definition is_str (v : value) : bool :=
  match v with VStr _ => true | _ => false end.

(** Comparing a number with a string raises [TypeError]; sorting does so
    exactly when both kinds are present. *)
Definition comparable (vs : list value) : bool :=
  negb (existsb is_number (filter (fun v => notna v = true) vs)
        && existsb is_str vs).

(** The positions of the rows in sorted order, missing cells last. *)
Definition argsort (ascending : bool) (vs : list value) : result (list nat) :=
  if comparable vs then
    Ok (fst <$> isort (fun a b : nat * value => row_leb ascending a.2 b.2)
                      (zip (seq 0 (length vs)) vs))
  else Raise TypeError.

(** [df.sort_values(by, ascending=...)] *)
Definition sort_values (df : frame) (by_ : string) (ascending : bool)
  : result frame :=
  c ← getitem df by_;
  idx ← argsort ascending (cells c);
  Ok (frame_rows (take_at idx) df).

(** Two cells are the same group key. *)
Definition key_eqb (v w : value) : bool := value_leb v w && value_leb w v.

(** The distinct keys, each with the position of its first occurrence. *)
Fixpoint dedup_keys (seen : list value) (l : list (nat * value))
  : list (nat * value) :=
  match l with
  | [] => []
  | k :: l' =>
      if existsb (key_eqb k.2) seen then dedup_keys seen l'
      else k :: dedup_keys (k.2 :: seen) l'
  end.

(** The group keys of [groupby]: the distinct cells that are present
    ([dropna=True]), in ascending order ([sort=True]). *)
Definition group_keys (ks : list value) : list (nat * value) :=
  isort (fun a b : nat * value => value_leb a.2 b.2)
    (dedup_keys []
       (filter (fun k : nat * value => notna k.2 = true)
          (zip (seq 0 (length ks)) ks))).

Fixpoint positions_from (p : value → bool) (i : nat) (l : list value)
  : list nat :=
  match l with
  | [] => []
  | v :: l' =>
      if p v then i :: positions_from p (S i) l'
      else positions_from p (S i) l'
  end.

(** The rows whose key is [k]. *)
Definition rows_of_key (ks : list value) (k : value) : list nat :=
  positions_from (key_eqb k) 0 ks.

(** The rows of each group, group by group. *)
Definition groups_of (ks : list value) : list (list nat) :=
  (fun k : nat * value => rows_of_key ks k.2) <$> group_keys ks.

(** The sum of one group of an object column: missing cells are skipped,
    and a group with no cell left sums to 0. *)
Definition obj_group_sum (l : list value) : result value :=
  obj_reduce (filter (fun v => notna v = true) l).

(** [groupby(...)[c].sum()], one sum per group. *)
Definition group_sum (c : column) (groups : list (list nat))
  : result column :=
  match c with
  | IntCol l =>
      Ok (IntCol ((fun g => wrap64 (Zsum (take_at g _ l))) <$> groups))
  | FloatCol l =>
      Ok (FloatCol ((fun g => fsum_skipna (take_at g _ l)) <$> groups))
  | ObjCol l =>
      vs ← rmapM (fun g => obj_group_sum (take_at g _ l)) groups;
      Ok (ObjCol vs)
  end.

(** [df.groupby(by)[value_col].sum().reset_index()]: a frame of the group
    keys and the sums.  [reset_index] cannot insert the keys next to a
    column of the same name. *)
Definition groupby_sum (df : frame) (by_ value_col : string) : result frame :=
  kc ← getitem df by_;
  vc ← getitem df value_col;
  let groups := groups_of (cells kc) in
  sums ← group_sum vc groups;
  if String.eqb by_ value_col then Raise ValueError
  else Ok [(by_, col_take (fst <$> group_keys (cells kc)) kc);
           (value_col, sums)].

(** ** The cached tables and the methods that use them *)

(** What a method returns in a dictionary of statistics. *)
Inductive pyobj : Type :=
| OVal (v : value)
| OFrame (df : option frame).

Abbreviation stats := (gmap string pyobj).

(** [self.data] / [self.datasets]: a table or [None] under each key. *)
Abbreviation store := (gmap string (option frame)).

(** A method: it may raise, and it may update the cached tables. *)
Definition M (A : Type) : Type := store → result A * store.

#[global] Instance M_ret : MRet M := fun A a s => (Ok a, s).
#[global] Instance M_bind : MBind M := fun A B k m s =>
  match m s with
  | (Ok a, s') => k a s'
  | (Raise e, s') => (Raise e, s')
  end.

(** A computation that does not touch the tables. *)
Definition lift {A} (r : result A) : M A := fun s => (r, s).

(** [d[key]] on the dictionary of tables. *)
Definition dict_get (key : string) : M (option frame) := fun s =>
  match s !! key with
  | Some v => (Ok v, s)
  | None => (Raise KeyError, s)
  end.

(** [env[name] = rhs], where [env] is the table object cached under
    [key]: the cached table is the one that changes. *)
Definition assign (key : string) (env : frame) (name : string)
    (rhs : result column) : M frame := fun s =>
  match rhs with
  | Ok c => let env' := setitem env name c in
            (Ok env', <[key := Some env']> s)
  | Raise e => (Raise e, s)
  end.

(** [int(df[name].sum())] *)
Definition int_sum (df : frame) (name : string) : result Z :=
  c ← getitem df name; t ← series_sum c; py_int t.

(** *** Column names *)

Definition ZONE : string := "Zone Name".
Definition WARD : string := "Ward Name".
Definition HOUSEHOLDS : string := "Total number of households (HH)".
Definition SEWERAGE : string := "HH part of the city sewerage network".
Definition TOILETS : string := "Number of Households with toilets".
Definition PUBLIC_TOILETS : string := "Number of Public Toilet ".
Definition FREE_F : string := "Number of free public toilets - Female".
Definition FREE_M : string := "Number of free public toilets - Male".
Definition PAID_F : string := "Number of paid public toilets - Female".
Definition PAID_M : string := "Number of paid public toilets - Male".
Definition PM25 : string := "Monthly mean/average concentration - PM2.5".
Definition PM10 : string := "Monthly mean concentration - PM10".
Definition NO2 : string := "Monthly mean concentration - NO2".
Definition SO2 : string := "Monthly mean concentration - SO2".
Definition O3 : string := "Monthly mean concentration - O3".
Definition MONTH_YEAR : string := "Month -Year".
Definition YEAR : string := "Year".
Definition CRIMES : string := "Total number of crimes recorded".
Definition JUNCTIONS : string := "No. of intersections / junctions".
Definition SIGNALIZED : string :=
  "Total number of operational signalized intersections".
Definition UNEMPLOYED : string :=
  "No. of unemployed persons (seeking or available for work)".
Definition EMPLOYED : string := "No. of employed persons".
Definition LABOUR_FORCE : string :=
  "Total labour force in the city (age 15-59) [Employed + Unemployed Persons)".

(** *** Loading *)

(** The file system as the loaders see it. *)
Record os : Type := {
  path_join : string → string → string;   (* os.path.join *)
  path_exists : string → bool;            (* os.path.exists *)
  read_csv : string → result frame        (* pd.read_csv *)
}.

(** The body of the loading loop, the same in both classes. *)
Definition load_file (o : os) (dir : string) (data : store)
    (kf : string * string) : result store :=
  let path := path_join o dir kf.2 in
  try_except
    (if path_exists o path
     then df ← read_csv o path; Ok (<[kf.1 := Some df]> data)
     else Ok (<[kf.1 := None]> data))
    (Ok (<[kf.1 := None]> data)).

Definition load_loop (o : os) (dir : string)
    (files : list (string * string)) (data : store) : result store :=
  foldl (fun acc kf => d ← acc; load_file o dir d kf) (Ok data) files.

Module DataLoader.

Definition files : list (string * string) :=
  [("water_sanitation", "unified_water_sanitation.csv");
   ("environment", "unified_environment.csv");
   ("crimes", "unified_crimes.csv");
   ("intersections", "unified_intersections.csv");
   ("employment", "unified_employment.csv")].

(** [load_all], from the tables [data] that the object holds. *)
Definition load_all (o : os) (datasets_dir : string) (data : store)
  : result store :=
  load_loop o datasets_dir files data.

End DataLoader.

Module DataProcessor.

Definition is_sentinel (v : value) : bool :=
  match v with
  | VStr s =>
      let u := PyStr.upper s in String.eqb u "NA" || String.eqb u "NAN"
  | _ => false
  end.

Definition clean_numeric (v : value) : result value :=
  if is_sentinel v then Ok (VFloat NaN)
  else try_except (py_float v) (Ok (VFloat NaN)).

Definition get_zone_summary (df : option frame) (value_col : string)
  : result (option frame) :=
  match df with
  | None => Ok None
  | Some df =>
      if frame_empty df then Ok None
      else
        try_except
          (result ← groupby_sum df ZONE value_col;
           result ← set_columns result [ZONE; "Value"];
           sorted ← sort_values result "Value" false;
           Ok (Some sorted))
          (Ok None)
  end.

Definition get_ward_summary (df : option frame) (value_col : string)
    (top_n : Z) : result (option frame) :=
  match df with
  | None => Ok None
  | Some df =>
      if frame_empty df then Ok None
      else
        try_except
          (result ← groupby_sum df WARD value_col;
           result ← set_columns result [WARD; "Value"];
           sorted ← sort_values result "Value" false;
           Ok (Some (df_head top_n sorted)))
          (Ok None)
  end.

Definition calculate_coverage (numerator denominator : value)
  : result value :=
  if py_eq denominator (VInt 0) || isna denominator then Ok (VInt 0)
  else
    q ← py_truediv numerator denominator;
    p ← py_mul q (VInt 100);
    py_round p 2.

End DataProcessor.

Module DashboardApp.
Import DataProcessor.

(** [__init__]: a fresh loader, and its tables. *)
Definition init (o : os) (datasets_dir : string) : result store :=
  DataLoader.load_all o datasets_dir ∅.

Definition get_water_sanitation_stats : M stats :=
  ws ← dict_get "water_sanitation";
  match ws with
  | None => mret ∅
  | Some ws =>
      if frame_empty ws then mret ∅
      else lift (
        total_households ← int_sum ws HOUSEHOLDS;
        sewerage_coverage ← int_sum ws SEWERAGE;
        toilet_coverage ← int_sum ws TOILETS;
        public_toilets ← int_sum ws PUBLIC_TOILETS;
        free_toilets_female ← int_sum ws FREE_F;
        free_toilets_male ← int_sum ws FREE_M;
        paid_toilets_female ← int_sum ws PAID_F;
        paid_toilets_male ← int_sum ws PAID_M;
        let stats0 : stats := list_to_map
          [("total_households", OVal (VInt total_households));
           ("sewerage_coverage", OVal (VInt sewerage_coverage));
           ("toilet_coverage", OVal (VInt toilet_coverage));
           ("public_toilets", OVal (VInt public_toilets));
           ("free_toilets_female", OVal (VInt free_toilets_female));
           ("free_toilets_male", OVal (VInt free_toilets_male));
           ("paid_toilets_female", OVal (VInt paid_toilets_female));
           ("paid_toilets_male", OVal (VInt paid_toilets_male))] in
        sewerage_pct ←
          calculate_coverage (VInt sewerage_coverage) (VInt total_households);
        let stats1 := <["sewerage_pct" := OVal sewerage_pct]> stats0 in
        toilet_pct ←
          calculate_coverage (VInt toilet_coverage) (VInt total_households);
        Ok (<["toilet_pct" := OVal toilet_pct]> stats1))
  end.

(** [env[src].apply(self.processor.clean_numeric)] *)
Definition cleaned (env : frame) (src : string) : result column :=
  c ← getitem env src; series_apply clean_numeric c.

(** [round(env[name].mean(), ndigits)] *)
Definition rounded_mean (env : frame) (name : string) (ndigits : nat)
  : result value :=
  c ← getitem env name; m ← series_mean c; np_round m ndigits.

Definition get_environment_stats : M stats :=
  env ← dict_get "environment";
  match env with
  | None => mret ∅
  | Some env =>
      if frame_empty env then mret ∅
      else
        env ← assign "environment" env "PM2.5" (cleaned env PM25);
        env ← assign "environment" env "PM10" (cleaned env PM10);
        env ← assign "environment" env "NO2" (cleaned env NO2);
        env ← assign "environment" env "SO2" (cleaned env SO2);
        env ← assign "environment" env "O3" (cleaned env O3);
        lift (
          pm25_avg ← rounded_mean env "PM2.5" 2;
          pm10_avg ← rounded_mean env "PM10" 2;
          no2_avg ← rounded_mean env "NO2" 2;
          so2_avg ← rounded_mean env "SO2" 2;
          o3_avg ← rounded_mean env "O3" 2;
          Ok (list_to_map
                [("pm25_avg", OVal pm25_avg);
                 ("pm10_avg", OVal pm10_avg);
                 ("no2_avg", OVal no2_avg);
                 ("so2_avg", OVal so2_avg);
                 ("o3_avg", OVal o3_avg)]))
  end.

Definition get_crimes_trend : M (option frame) :=
  crimes ← dict_get "crimes";
  match crimes with
  | None => mret None
  | Some crimes =>
      if frame_empty crimes then mret None
      else lift (
        result ← select crimes [YEAR; CRIMES];
        sorted ← sort_values result YEAR true;
        Ok (Some sorted))
  end.

Definition get_intersections_summary : M stats :=
  intr ← dict_get "intersections";
  match intr with
  | None => mret ∅
  | Some intr =>
      if frame_empty intr then mret ∅
      else lift (
        total_intersections ← int_sum intr JUNCTIONS;
        signalized_intersections ← int_sum intr SIGNALIZED;
        by_zone ← get_zone_summary (Some intr) JUNCTIONS;
        signalized_by_zone ← get_zone_summary (Some intr) SIGNALIZED;
        Ok (list_to_map
              [("total_intersections", OVal (VInt total_intersections));
               ("signalized_intersections",
                 OVal (VInt signalized_intersections));
               ("by_zone", OFrame by_zone);
               ("signalized_by_zone", OFrame signalized_by_zone)]))
  end.

(** [round((a / b) * 100, 2)] on cells of a row, which are numpy
    scalars: numpy divides without raising, and rounds by its own
    routine. *)
Definition rate (a b : value) : result value :=
  q ← np_truediv a b; p ← py_mul q (VInt 100); np_round p 2.

Definition get_employment_stats : M stats :=
  emp ← dict_get "employment";
  match emp with
  | None => mret ∅
  | Some emp =>
      if frame_empty emp then mret ∅
      else lift (
        unemployed ← row0 emp UNEMPLOYED;
        employed ← row0 emp EMPLOYED;
        labour_force ← row0 emp LABOUR_FORCE;
        unemployed_int ← py_int unemployed;
        employed_int ← py_int employed;
        labour_force_int ← py_int labour_force;
        unemployment_rate ← rate unemployed labour_force;
        employment_rate ← rate employed labour_force;
        Ok (list_to_map
              [("unemployed", OVal (VInt unemployed_int));
               ("employed", OVal (VInt employed_int));
               ("labour_force", OVal (VInt labour_force_int));
               ("unemployment_rate", OVal unemployment_rate);
               ("employment_rate", OVal employment_rate)]))
  end.

Definition get_water_by_zone : M (option frame) :=
  ws ← dict_get "water_sanitation";
  match ws with
  | None => mret None
  | Some ws =>
      if frame_empty ws then mret None
      else lift (get_zone_summary (Some ws) HOUSEHOLDS)
  end.

Definition get_water_by_ward : M (option frame) :=
  ws ← dict_get "water_sanitation";
  match ws with
  | None => mret None
  | Some ws =>
      if frame_empty ws then mret None
      else lift (get_ward_summary (Some ws) PUBLIC_TOILETS 15)
  end.

Definition get_environment_trend : M (option frame) :=
  env ← dict_get "environment";
  match env with
  | None => mret None
  | Some env =>
      if frame_empty env then mret None
      else lift (
        (* env_copy = env.copy() *)
        let env_copy := env in
        pm25 ← cleaned env_copy PM25;
        let env_copy := setitem env_copy "PM2.5" pm25 in
        pm10 ← cleaned env_copy PM10;
        let env_copy := setitem env_copy "PM10" pm10 in
        result ← select env_copy [MONTH_YEAR; "PM2.5"; "PM10"];
        Ok (Some (df_tail 12 result)))
  end.

Definition get_intersections_by_zone : M (option frame) :=
  intr ← dict_get "intersections";
  match intr with
  | None => mret None
  | Some intr =>
      if frame_empty intr then mret None
      else lift (get_zone_summary (Some intr) JUNCTIONS)
  end.

End DashboardApp.

Module DataHandler.

Definition files : list (string * string) :=
  [("water", "unified_water_sanitation.csv");
   ("environment", "unified_environment.csv");
   ("crimes", "unified_crimes.csv");
   ("infrastructure", "unified_intersections.csv");
   ("employment", "unified_employment.csv")].

Definition load_data (o : os) (data_path : string) (datasets : store)
  : result store :=
  load_loop o data_path files datasets.

(** [__init__] *)
Definition init (o : os) (data_path : string) : result store :=
  load_data o data_path ∅.

(** [round((a / b) * 100, ndigits) if b > 0 else 0], on Python ints. *)
Definition pct (a b : Z) (ndigits : nat) : result value :=
  if (0 <? b)%Z then
    q ← py_truediv (VInt a) (VInt b);
    p ← py_mul q (VInt 100);
    py_round p ndigits
  else Ok (VInt 0).

Definition get_water_stats : M stats :=
  df ← dict_get "water";
  match df with
  | None => mret ∅
  | Some df =>
      if frame_empty df then mret ∅
      else lift (
        total_households ← int_sum df HOUSEHOLDS;
        sewerage ← int_sum df SEWERAGE;
        toilets ← int_sum df TOILETS;
        public_toilets ← int_sum df PUBLIC_TOILETS;
        sewerage_pct ← pct sewerage total_households 1;
        toilet_pct ← pct toilets total_households 1;
        Ok (list_to_map
              [("total_households", OVal (VInt total_households));
               ("sewerage_coverage", OVal (VInt sewerage));
               ("toilet_coverage", OVal (VInt toilets));
               ("public_toilets", OVal (VInt public_toilets));
               ("sewerage_pct", OVal sewerage_pct);
               ("toilet_pct", OVal toilet_pct)]))
  end.

(** The local [clean_numeric] of [get_environment_stats]. *)
Definition clean_numeric (val : value) : result value :=
  try_except
    (if notna val then py_float val else Ok (VFloat NaN))
    (Ok (VFloat NaN)).

(** [df[name].apply(clean_numeric).mean()] *)
Definition cleaned_mean (df : frame) (name : string) : result value :=
  c ← getitem df name; c' ← series_apply clean_numeric c; series_mean c'.

(** [round(m, ndigits) if not np.isnan(m) else 0] *)
Definition round_or_0 (m : value) (ndigits : nat) : result value :=
  match m with
  | VFloat NaN => Ok (VInt 0)
  | VInt _ | VFloat _ => np_round m ndigits
  | _ => Raise TypeError
  end.

Definition get_environment_stats : M stats :=
  df ← dict_get "environment";
  match df with
  | None => mret ∅
  | Some df =>
      if frame_empty df then mret ∅
      else lift (
        pm25 ← cleaned_mean df PM25;
        pm10 ← cleaned_mean df PM10;
        no2 ← cleaned_mean df NO2;
        pm25_avg ← round_or_0 pm25 1;
        pm10_avg ← round_or_0 pm10 1;
        no2_avg ← round_or_0 no2 2;
        Ok (list_to_map
              [("pm25_avg", OVal pm25_avg);
               ("pm10_avg", OVal pm10_avg);
               ("no2_avg", OVal no2_avg)]))
  end.

Definition get_crime_data : M (option frame) :=
  df ← dict_get "crimes";
  match df with
  | None => mret None
  | Some df =>
      if frame_empty df then mret None
      else lift (
        result ← select df [YEAR; CRIMES];
        sorted ← sort_values result YEAR true;
        Ok (Some sorted))
  end.

Definition get_infrastructure_stats : M stats :=
  df ← dict_get "infrastructure";
  match df with
  | None => mret ∅
  | Some df =>
      if frame_empty df then mret ∅
      else lift (
        total ← int_sum df JUNCTIONS;
        signalized ← int_sum df SIGNALIZED;
        signalization_pct ← pct signalized total 1;
        Ok (list_to_map
              [("total_intersections", OVal (VInt total));
               ("signalized_intersections", OVal (VInt signalized));
               ("signalization_pct", OVal signalization_pct)]))
  end.

Definition get_employment_stats : M stats :=
  df ← dict_get "employment";
  match df with
  | None => mret ∅
  | Some df =>
      if frame_empty df then mret ∅
      else lift (
        unemployed ← (v ← row0 df UNEMPLOYED; py_int v);
        employed ← (v ← row0 df EMPLOYED; py_int v);
        labour_force ← (v ← row0 df LABOUR_FORCE; py_int v);
        unemployment_rate ← pct unemployed labour_force 2;
        Ok (list_to_map
              [("labour_force", OVal (VInt labour_force));
               ("employed", OVal (VInt employed));
               ("unemployed", OVal (VInt unemployed));
               ("unemployment_rate", OVal unemployment_rate)]))
  end.

Definition get_zone_data (dataset value_col : string) : M (option frame) :=
  df ← dict_get dataset;
  match df with
  | None => mret None
  | Some df =>
      if frame_empty df || negb (has_column df ZONE) then mret None
      else lift (
        try_except
          (result ← groupby_sum df ZONE value_col;
           result ← set_columns result ["Zone"; "Value"];
           sorted ← sort_values result "Value" false;
           Ok (Some sorted))
          (Ok None))
  end.

End DataHandler.

(** ** The callers of the query methods

    The pages and overviews call the query methods and hand what they
    get to Streamlit and Plotly.  The display calls and the formatting of
    the values are not modelled: a page is the values it computes for
    them, in the order of the source, or [None] when it only reports
    that there is no data. *)

(** [st[key]] on a dictionary of statistics. *)
Definition stats_get (st : stats) (key : string) : result pyobj :=
  match st !! key with
  | Some v => Ok v
  | None => Raise KeyError
  end.

(** [st.get(key, 0)] *)
Definition stats_get_or_0 (st : stats) (key : string) : pyobj :=
  default (OVal (VInt 0)) (st !! key).

(** [not st]: the dictionary has no entry. *)
Definition stats_empty (st : stats) : bool := (size st =? 0)%nat.

(** The entries under the given keys, one lookup after the other. *)
Definition stats_gets (st : stats) (keys : list string)
  : result (list pyobj) :=
  rmapM (stats_get st) keys.

(** An entry used as a number. *)
Definition scalar (o : pyobj) : result value :=
  match o with
  | OVal v => Ok v
  | OFrame _ => Raise TypeError
  end.

(** [v > n] for a number [v] and an integer literal [n]. *)
Definition py_gt (v : value) (n : Z) : result bool :=
  match v with
  | VInt z => Ok (n <? z)%Z
  | VFloat f => Ok (Float.ltb (Float.of_Z n) f)
  | _ => Raise TypeError
  end.

(** [len(df)]: the number of rows. *)
Definition frame_len (df : frame) : nat :=
  match df with
  | [] => 0%nat
  | (_, c) :: _ => col_len c
  end.

Definition is_object (c : column) : bool :=
  match c with ObjCol _ => true | _ => false end.

Definition is_float64 (c : column) : bool :=
  match c with FloatCol _ => true | _ => false end.

(** A row taken across the columns has one dtype: among int64 and
    float64 columns an integer cell becomes a float; next to an object
    column the cells stay as they are. *)
Definition row_cell (df : frame) (v : value) : value :=
  if existsb (fun nc : string * column => is_object nc.2) df then v
  else if existsb (fun nc : string * column => is_float64 nc.2) df then
    match v with
    | VInt z => VFloat (Float.of_Z z)
    | _ => v
    end
  else v.

(** [df.iloc[-1]]: the last row, its cells under the column names. *)
Definition iloc_last (df : frame) : result (list (string * value)) :=
  if (frame_len df =? 0)%nat then Raise IndexError
  else
    rmapM (fun nc : string * column =>
             match last (cells nc.2) with
             | Some v => Ok (nc.1, row_cell df v)
             | None => Raise IndexError
             end) df.

(** [row[name]] *)
Fixpoint row_get (row : list (string * value)) (name : string)
  : result value :=
  match row with
  | [] => Raise KeyError
  | (n, v) :: row' => if String.eqb n name then Ok v else row_get row' name
  end.

(** A method for each element of a list, in order. *)
Fixpoint M_mapM {A B} (f : A → M B) (l : list A) : M (list B) :=
  match l with
  | [] => mret []
  | a :: l' => b ← f a; bs ← M_mapM f l'; mret (b :: bs)
  end.

(** The "Recent Crimes" figure of both overviews: the count in the last
    row of the trend, or [None] for "N/A". *)
Definition crime_count (crimes_data : option frame) : result (option Z) :=
  match crimes_data with
  | None => Ok None
  | Some df =>
      if frame_empty df then Ok None
      else
        latest ← iloc_last df;
        v ← row_get latest CRIMES;
        z ← py_int v;
        Ok (Some z)
  end.

(** [len(d[key]) if d[key] is not None else 0] *)
Definition record_count (key : string) : M nat :=
  df ← dict_get key;
  mret (match df with
        | Some df => frame_len df
        | None => 0%nat
        end).

(** *** [app.py] *)

Module App.

(** What [show_overview] shows: six figures and the table of the
    datasets. *)
Record overview : Type := {
  households : pyobj;
  intersections : pyobj;
  pm25_average : pyobj;
  labour_force : pyobj;
  recent_crimes : option Z;
  unemployment : pyobj;
  dataset_status : list (string * nat)
}.

Definition datasets : list string :=
  ["water_sanitation"; "environment"; "crimes"; "intersections";
   "employment"].

Definition names : list string :=
  ["Water & Sanitation"; "Environment"; "Crime Data"; "Infrastructure";
   "Employment"].

Definition show_overview : M overview :=
  ws_stats ← DashboardApp.get_water_sanitation_stats;
  env_stats ← DashboardApp.get_environment_stats;
  crimes_data ← DashboardApp.get_crimes_trend;
  intr_stats ← DashboardApp.get_intersections_summary;
  emp_stats ← DashboardApp.get_employment_stats;
  crimes ← lift (crime_count crimes_data);
  status_data ←
    M_mapM (fun kn : string * string =>
              count ← record_count kn.1; mret (kn.2, count))
      (zip datasets names);
  mret {| households := stats_get_or_0 ws_stats "total_households";
          intersections := stats_get_or_0 intr_stats "total_intersections";
          pm25_average := stats_get_or_0 env_stats "pm25_avg";
          labour_force := stats_get_or_0 emp_stats "labour_force";
          recent_crimes := crimes;
          unemployment := stats_get_or_0 emp_stats "unemployment_rate";
          dataset_status := status_data |}.

End App.

(** *** [main.py] *)

Module Main.

(** A row of the table of the datasets: name, number of records, and
    whether the dataset counts as available. *)
Record status : Type := {
  dataset : string;
  records : nat;
  available : bool
}.

Record overview : Type := {
  households : pyobj;
  intersections : pyobj;
  pm25_average : pyobj;
  labour_force : pyobj;
  recent_crimes : option Z;
  unemployment : pyobj;
  datasets_info : list status;
  (* the two lines on infrastructure, when there are statistics *)
  signalization : option (pyobj * pyobj);
  (* whether PM2.5 exceeds the guideline, when there are statistics *)
  pm25_exceeds : option bool
}.

Definition dataset_names : list (string * string) :=
  [("water", "Water & Sanitation");
   ("environment", "Environment");
   ("crimes", "Crime Data");
   ("infrastructure", "Infrastructure");
   ("employment", "Employment")].

Definition who_guideline : Z := 15.

Definition show_overview : M overview :=
  water_stats ← DataHandler.get_water_stats;
  env_stats ← DataHandler.get_environment_stats;
  crime_data ← DataHandler.get_crime_data;
  infra_stats ← DataHandler.get_infrastructure_stats;
  emp_stats ← DataHandler.get_employment_stats;
  crimes ← lift (crime_count crime_data);
  info ←
    M_mapM (fun kn : string * string =>
              record_count ← record_count kn.1;
              mret {| dataset := kn.2;
                      records := record_count;
                      available := (0 <? record_count)%nat |})
      dataset_names;
  exceeds ← lift (
    if stats_empty env_stats then Ok None
    else
      pm25 ← scalar (stats_get_or_0 env_stats "pm25_avg");
      b ← py_gt pm25 who_guideline;
      Ok (Some b));
  mret {| households := stats_get_or_0 water_stats "total_households";
          intersections := stats_get_or_0 infra_stats "total_intersections";
          pm25_average := stats_get_or_0 env_stats "pm25_avg";
          labour_force := stats_get_or_0 emp_stats "labour_force";
          recent_crimes := crimes;
          unemployment := stats_get_or_0 emp_stats "unemployment_rate";
          datasets_info := info;
          signalization :=
            if stats_empty infra_stats then None
            else Some (stats_get_or_0 infra_stats "signalization_pct",
                       stats_get_or_0 infra_stats "total_intersections");
          pm25_exceeds := exceeds |}.

End Main.

(** *** [pages.py]: the pages over [DataHandler] *)

Module Pages.

Module WaterPage.
Definition render : M (option (list pyobj)) :=
  stats ← DataHandler.get_water_stats;
  if stats_empty stats then mret None
  else
    metrics ← lift (stats_gets stats
      ["total_households"; "sewerage_pct"; "toilet_pct"; "public_toilets"]);
    zone_data ← DataHandler.get_zone_data "water" HOUSEHOLDS;
    mret (Some (metrics ++ [OFrame zone_data])).
End WaterPage.

Module EnvironmentPage.
Definition render : M (option (list pyobj)) :=
  stats ← DataHandler.get_environment_stats;
  if stats_empty stats then mret None
  else
    shown ← lift (stats_gets stats
      ["pm25_avg"; "pm10_avg"; "no2_avg"; "pm25_avg"; "pm10_avg"]);
    mret (Some shown).
End EnvironmentPage.

Module CrimePage.
Definition render : M (option (list pyobj)) :=
  crime_data ← DataHandler.get_crime_data;
  match crime_data with
  | None => mret None
  | Some crime_data =>
      if frame_empty crime_data then mret None
      else lift (
        latest ← iloc_last crime_data;
        avg_crimes ← (c ← getitem crime_data CRIMES; series_mean c);
        year ← (v ← row_get latest YEAR; py_int v);
        recent ← (v ← row_get latest CRIMES; py_int v);
        average ← py_int avg_crimes;
        Ok (Some [OVal (VInt year); OVal (VInt recent);
                  OVal (VInt average); OFrame (Some crime_data)]))
  end.
End CrimePage.

Module InfrastructurePage.
Definition render : M (option (list pyobj)) :=
  stats ← DataHandler.get_infrastructure_stats;
  if stats_empty stats then mret None
  else
    metrics ← lift (stats_gets stats
      ["total_intersections"; "signalized_intersections";
       "signalization_pct"]);
    zone_data ← DataHandler.get_zone_data "infrastructure" JUNCTIONS;
    mret (Some (metrics ++ [OFrame zone_data])).
End InfrastructurePage.

Module EmploymentPage.
Definition render : M (option (list pyobj)) :=
  stats ← DataHandler.get_employment_stats;
  if stats_empty stats then mret None
  else
    shown ← lift (stats_gets stats
      ["labour_force"; "employed"; "unemployed"; "unemployment_rate";
       "employed"; "unemployed"]);
    mret (Some shown).
End EmploymentPage.

End Pages.

(** *** [pages_complete.py]: the pages over [DashboardApp] *)

Module PagesComplete.

Module WaterSanitationPage.
Definition render : M (option (list pyobj)) :=
  stats ← DashboardApp.get_water_sanitation_stats;
  if stats_empty stats then mret None
  else
    metrics ← lift (stats_gets stats
      ["total_households"; "sewerage_pct"; "toilet_pct"; "public_toilets"]);
    by_zone ← DashboardApp.get_water_by_zone;
    by_ward ← DashboardApp.get_water_by_ward;
    by_ward_sorted ← lift (
      match by_ward with
      | None => Ok None
      | Some by_ward => r ← sort_values by_ward "Value" true; Ok (Some r)
      end);
    counts ← lift (stats_gets stats
      ["total_households"; "sewerage_coverage"; "toilet_coverage";
       "free_toilets_female"; "free_toilets_male"; "paid_toilets_female";
       "paid_toilets_male"; "public_toilets"]);
    mret (Some (metrics ++ [OFrame by_zone; OFrame by_ward_sorted]
                ++ counts)).
End WaterSanitationPage.

Module EnvironmentPage.
Definition render : M (option (list pyobj)) :=
  stats ← DashboardApp.get_environment_stats;
  if stats_empty stats then mret None
  else
    metrics ← lift (stats_gets stats
      ["pm25_avg"; "pm10_avg"; "no2_avg"; "so2_avg"; "o3_avg"]);
    trend_data ← DashboardApp.get_environment_trend;
    _ ← lift (
      match trend_data with
      | None => Ok []
      | Some trend_data =>
          rmapM (getitem trend_data)
            [MONTH_YEAR; "PM2.5"; MONTH_YEAR; "PM10"]
      end);
    table ← lift (stats_gets stats
      ["pm25_avg"; "pm10_avg"; "no2_avg"; "so2_avg"; "o3_avg"]);
    mret (Some (metrics ++ [OFrame trend_data] ++ table)).
End EnvironmentPage.

Module CrimesPage.
(** [render] as far as its three metrics; the figure and the table that
    it draws afterwards are not modelled. *)
Definition render_metrics : M (option (list pyobj)) :=
  crimes_data ← DashboardApp.get_crimes_trend;
  match crimes_data with
  | None => mret None
  | Some crimes_data =>
      if frame_empty crimes_data then mret None
      else lift (
        latest_year ← iloc_last crimes_data;
        latest_crimes ← row_get latest_year CRIMES;
        year ← row_get latest_year YEAR;
        recent ← py_int latest_crimes;
        avg_crimes ← (c ← getitem crimes_data CRIMES; series_mean c);
        average ← py_int avg_crimes;
        Ok (Some [OVal year; OVal (VInt recent); OVal (VInt average)]))
  end.
End CrimesPage.

Module InfrastructurePage.
Definition render : M (option (list pyobj)) :=
  stats ← DashboardApp.get_intersections_summary;
  if stats_empty stats then mret None
  else lift (
    metrics ← stats_gets stats
      ["total_intersections"; "signalized_intersections"];
    (* (stats['signalized_intersections'] / stats['total_intersections'])
       * 100, on the Python ints of the summary *)
    signalized ← (o ← stats_get stats "signalized_intersections"; scalar o);
    total ← (o ← stats_get stats "total_intersections"; scalar o);
    q ← py_truediv signalized total;
    pct_signalized ← py_mul q (VInt 100);
    by_zone ← stats_get stats "by_zone";
    sig_zone ← stats_get stats "signalized_by_zone";
    Ok (Some (metrics ++ [OVal pct_signalized; by_zone; sig_zone]))).
End InfrastructurePage.

Module EmploymentPage.
Definition render : M (option (list pyobj)) :=
  stats ← DashboardApp.get_employment_stats;
  if stats_empty stats then mret None
  else
    shown ← lift (stats_gets stats
      ["labour_force"; "employed"; "unemployed"; "unemployment_rate";
       "employed"; "unemployed"; "employment_rate"; "unemployment_rate";
       "labour_force"; "employed"; "unemployed"; "employment_rate";
       "unemployment_rate"]);
    mret (Some shown).
End EmploymentPage.

End PagesComplete.

(** ** [datasets/create_unified_dataset.py] *)

(** Reading a workbook: [pd.read_excel(path, engine=...)], the engine
    given or left to pandas. *)
Record excel : Type := {
  read_excel : option string → string → result frame
}.

(** Writing: [os.makedirs(path, exist_ok=True)] and [df.to_csv(path)]. *)
Record disk : Type := {
  makedirs : string → result unit;
  to_csv : string → frame → result unit
}.

Module UnifiedDatasetCreator.







(** [f"unified_{dataset_name}.csv"] *)
Definition unified_name (dataset_name : string) : string :=
  String.append "unified_" (String.append dataset_name ".csv").

(** [save_unified_datasets] returns the directory it wrote to; the files
    it has written (path and table) are returned with it.  The datasets
    are visited in the order of the dictionary, which the map does not
    keep: the files come in some order. *)
Definition save_unified_datasets (o : os) (w : disk) (datasets_dir : string)
    (unified_data : gmap string frame) (output_dir : option string)
  : result (string * list (string * frame)) :=
  let output_dir := default datasets_dir output_dir in
  let unified_dir := path_join o output_dir "unified" in
  _ ← makedirs w unified_dir;
  Ok (unified_dir,
      omap (fun kd : string * frame =>
              let filename := unified_name kd.1 in
              let filepath := path_join o unified_dir filename in
              match to_csv w filepath kd.2 with
              | Ok _ => Some (filepath, kd.2)
              | Raise _ => None
              end)
        (map_to_list unified_data)).

End UnifiedDatasetCreator.

(** ** [indore_dashboard.py] *)

Module IndoreDashboard.

(** [toggle_theme], on the theme of the session. *)
Definition toggle_theme (theme : string) : string :=
  if String.eqb theme "light" then "dark" else "light".

Inductive file_type : Type := excel_file | csv_file.

Definition file_map : list (string * (string * file_type)) :=
  [("city_profile", ("D01-CityProfile_25.xls", excel_file));
   ("unemployment", ("D02-UnemploymentRate_17_0.csv", csv_file));
   ("households", ("D03-Households_35.xls", excel_file));
   ("environment", ("D04-Environment_6_2_2.csv", csv_file));
   ("water_sanitation", ("D11-waterAndsanitation_1_1_1.csv", csv_file));
   ("intersections", ("D35-Intersections_6_1.csv", csv_file));
   ("digital", ("D45-DigitalAvailability_20.xls", excel_file));
   ("crimes", ("D47-Crimes_13_1.csv", csv_file))].

(** Reading one file of the table. *)
Definition read_file (o : os) (x : excel) (ft : string * file_type)
  : result frame :=
  match ft.2 with
  | excel_file => read_excel x None ft.1
  | csv_file => read_csv o ft.1
  end.

(** [load_data]: the tables read, and for each file that could not be
    read its name and the exception.  (Streamlit caches the result; the
    cache is not modelled.) *)
Definition load_data (o : os) (x : excel)
  : gmap string frame * list (string * exn) :=
  foldl (fun (acc : gmap string frame * list (string * exn))
             (kf : string * (string * file_type)) =>
           match read_file o x kf.2 with
           | Ok df => (<[kf.1 := df]> acc.1, acc.2)
           | Raise e => (acc.1, acc.2 ++ [(kf.2.1, e)])
           end)
    (∅, []) file_map.

End IndoreDashboard.

(** ** Vocabulary of the properties *)

(** What loading leaves under the key of a file: the table read, or
    [None] when the file does not exist or cannot be read. *)
Definition entry (o : os) (dir filename : string) : option frame :=
  let path := path_join o dir filename in
  if path_exists o path then
    match read_csv o path with
    | Ok df => Some df
    | Raise _ => None
    end
  else None.

(** The state of a dataset in which a query has nothing to work on:
    loading failed, or the table has no row. *)
Definition no_data (s : store) (key : string) : Prop :=
  s !! key = Some None
  ∨ ∃ df, s !! key = Some (Some df) ∧ frame_empty df = true.

(** The float that [clean_numeric] makes of a cell. *)
Definition clean (v : value) : float :=
  match DataProcessor.clean_numeric v with
  | Ok (VFloat f) => f
  | _ => NaN
  end.

(** The column that [apply(clean_numeric)] makes of a column. *)
Definition cleaned_col (c : column) : column :=
  infer_column (VFloat <$> (clean <$> cells c)).

(** The table that [DashboardApp.get_environment_stats] leaves in the
    cache: the table it found, with five more columns. *)
Definition env_after (env : frame) (c25 c10 cno2 cso2 co3 : column)
  : frame :=
  setitem (setitem (setitem (setitem (setitem env
    "PM2.5" (cleaned_col c25)) "PM10" (cleaned_col c10))
    "NO2" (cleaned_col cno2)) "SO2" (cleaned_col cso2))
    "O3" (cleaned_col co3).

(** A rounded mean of cleaned cells, as an entry of the statistics. *)
Definition avg (c : column) (n : nat) : pyobj :=
  OVal (VFloat (Float.round (fmean (clean <$> cells c)) n)).

(** The same for [DataHandler]: 0 stands for a mean that is NaN. *)
Definition avg_or_0 (c : column) (n : nat) : pyobj :=
  let m := fmean (clean <$> cells c) in
  OVal (if Float.isnan m then VInt 0 else VFloat (Float.round m n)).

(** A method that only reads: it returns the tables as it found them. *)
Definition read_only {A} (m : M A) : Prop := ∀ s, (m s).2 = s.

(** Cells in ascending order, missing cells last. *)
Definition ascending (l : list value) : Prop :=
  StronglySorted (fun a b => row_leb true a b = true) l.

(** Cells in descending order, missing cells last. *)
Definition descending (l : list value) : Prop :=
  StronglySorted (fun a b => row_leb false a b = true) l.

(** The body that [DashboardApp.get_crimes_trend] and
    [DataHandler.get_crime_data] share. *)
Definition crimes_by_year (df : frame) : result (option frame) :=
  result ← select df [YEAR; CRIMES];
  sorted ← sort_values result YEAR true;
  Ok (Some sorted).

(** The keys of the groups of a key column. *)
Definition distinct_groups (kc : column) : list value :=
  (group_keys (cells kc)).*2.

(** A column of numbers. *)
Definition numeric (c : column) : bool :=
  match c with
  | IntCol _ | FloatCol _ => true
  | ObjCol _ => false
  end.

(** [v] is the sum of the value column over the rows whose key is [k]. *)
Definition sum_of_group (kc vc : column) (k v : value) : Prop :=
  series_sum (col_take (rows_of_key (cells kc) k) vc) = Ok v.

(** The body that the grouping queries share: the sums by group, under
    the given column names, in descending order of the sums. *)
Definition sorted_groups (df : frame) (by_ value_col : string)
    (names : list string) : result frame :=
  result ← groupby_sum df by_ value_col;
  result ← set_columns result names;
  sort_values result "Value" false.

(** [keys] and [vals] are the columns of a summary by group of the value
    column [vc] under the key column [kc]: one row for each group, with
    the sum of the group, the rows in descending order of the sums. *)
Definition summary_of (kc vc : column) (keys vals : list value) : Prop :=
  descending vals
  ∧ keys ≡ₚ distinct_groups kc
  ∧ length keys = length vals
  ∧ Forall (fun kv : value * value => sum_of_group kc vc kv.1 kv.2)
      (zip keys vals).

(** *** The groups and their sums, on the rows themselves

    The same notions once more, stated with Python's [==] on the rows of
    the table and without the functions that [groupby_sum] computes
    with: what the summary is compared with. *)

(** The rows of [l] next to a key that satisfies [p]. *)
Definition rows_where (p : value → bool) (ks : list value) (A : Type)
    (l : list A) : list A :=
  (filter (fun ka : value * A => p ka.1 = true) (zip ks l)).*2.

(** The value column restricted to the rows whose key equals [k]. *)
Definition group_rows (kc vc : column) (k : value) : column :=
  col_rows (rows_where (fun k' => py_eq k' k) (cells kc)) vc.

(** [keys] are the distinct groups of the key column: each is a cell of
    the column that is present, every cell that is present equals one of
    them, and no two of them are equal. *)
Definition groups_of_column (kc : column) (keys : list value) : Prop :=
  Forall (fun k => k ∈ cells kc ∧ notna k = true) keys
  ∧ (∀ k, k ∈ cells kc → notna k = true →
          ∃ k', k' ∈ keys ∧ py_eq k k' = true)
  ∧ (∀ i j k k', keys !! i = Some k → keys !! j = Some k' → i ≠ j →
                 py_eq k k' = false).

(** [keys] and [vals] are the (group key, summed value) pairs of the
    table: one pair for each distinct group, with the sum of the value
    column over the rows of the group. *)
Definition grouped_sums (kc vc : column) (keys vals : list value) : Prop :=
  length keys = length vals
  ∧ groups_of_column kc keys
  ∧ Forall (fun kv : value * value =>
              series_sum (group_rows kc vc kv.1) = Ok kv.2)
      (zip keys vals).

(** The method raises an exception. *)
Definition raises {A} (m : M A) (s : store) : Prop :=
  ∃ e s', m s = (Raise e, s').

(** ** Tables of the examples *)

(** The crimes table of the examples, its years out of order. *)
Definition crimes_table : frame :=
  [(YEAR, IntCol [2019; 2021; 2020]); (CRIMES, IntCol [100; 300; 200])].

(** A file system for the examples: only the crimes file can be read, the
    employment file exists but is malformed. *)
Definition example_os : os :=
  {| path_join := fun dir filename =>
       String.append dir (String.append "/" filename);
     path_exists := fun path =>
       String.eqb path "data/unified_crimes.csv"
       || String.eqb path "data/unified_employment.csv";
     read_csv := fun path =>
       if String.eqb path "data/unified_crimes.csv" then Ok crimes_table
       else Raise ValueError |}.

(** An environment table for the examples. *)
Definition env_example : frame :=
  [(MONTH_YEAR, ObjCol [VStr "Mar-2020"; VStr "Jan-2020"; VStr "Feb-2020"]);
   (PM25, ObjCol [VStr "10"; VStr "NA"; VStr "20"]);
   (PM10, IntCol [40; 50; 60]);
   (NO2, FloatCol [Fin (1 # 2); NaN; Fin 2]);
   (SO2, ObjCol [VStr "3"; VStr "BDL"; VStr "4"]);
   (O3, FloatCol [NaN; NaN; NaN])].

(** An employment table with nobody in the labour force. *)
Definition employment_zero : frame :=
  [(UNEMPLOYED, IntCol [5]); (EMPLOYED, IntCol [0]);
   (LABOUR_FORCE, IntCol [0])].

(** A water table for the examples: two wards in zone B, one without a
    zone. *)
Definition water_example : frame :=
  [(ZONE, ObjCol [VStr "B"; VStr "A"; VStr "B"; VFloat NaN; VStr "C"]);
   (WARD, ObjCol [VStr "w1"; VStr "w2"; VStr "w3"; VStr "w4"; VStr "w5"]);
   (HOUSEHOLDS, IntCol [10; 50; 20; 1000; 35])].

(** A table of readings by zone; zone B has no reading. *)
Definition readings_example : frame :=
  [(ZONE, ObjCol [VStr "A"; VStr "B"; VStr "A"; VStr "B"]);
   ("Reading", FloatCol [Fin (3 # 2); NaN; Fin (5 # 2); NaN])].

(** A water table without the household counts. *)
Definition water_short : frame :=
  [(ZONE, ObjCol [VStr "A"; VStr "B"]);
   (WARD, ObjCol [VStr "w1"; VStr "w2"])].

(** ** Vocabulary of the further properties *)

(** The names under which [DashboardApp.get_environment_stats] writes its
    cleaned columns. *)
Definition cleaned_names : list string :=
  ["PM2.5"; "PM10"; "NO2"; "SO2"; "O3"].

(** [env'] is the table [env] after columns were written under these
    names: it is well formed, has the same number of rows, has every
    column that [env] has, and its columns under other names are those of
    [env]. *)
Definition updated (env env' : frame) : Prop :=
  frame_wf env'
  ∧ frame_len env' = frame_len env
  ∧ (∀ name, has_column env name = true → has_column env' name = true)
  ∧ (∀ name, name ∉ cleaned_names → getitem env' name = getitem env name).

(** The statistics have an entry under each of [keys], and no other. *)
Definition complete (keys : list string) (st : stats) : Prop :=
  ∃ vs : list pyobj, length vs = length keys ∧ st = list_to_map (zip keys vs).

(** What the callers of a summary rely on: for a dataset without data
    the summary is empty; otherwise it is not, and it has exactly the
    entries under [keys]. *)
Definition summary_shape (s : store) (key : string) (keys : list string)
    (st : stats) : Prop :=
  no_data s key ∧ st = ∅
  ∨ ¬ no_data s key ∧ st ≠ ∅ ∧ dom st = list_to_set keys.

(** The result of a method depends on the table under [key] only. *)
Definition reads_only {A} (key : string) (m : M A) : Prop :=
  ∀ s1 s2 : store, s1 !! key = s2 !! key → (m s1).1 = (m s2).1.

(** The result of a method does not depend on the tables at all. *)
Definition reads_nothing {A} (m : M A) : Prop :=
  ∀ s1 s2 : store, (m s1).1 = (m s2).1.

(** A table under other column names. *)
Definition relabel (names : list string) (df : option frame)
  : option frame :=
  (fun df : frame => zip names df.*2) <$> df.

(** A page follows its summary: when the summary returns, the page
    returns, and it reports that there is no data exactly when the
    dataset under [key] is absent or has no row; when the summary raises,
    that is what the page raises. *)
Definition follows {A} (page : M (option A)) (summary : M stats)
    (key : string) (s : store) : Prop :=
  match summary s with
  | (Ok _, s') =>
      ∃ view, page s = (Ok view, s') ∧ (view = None ↔ no_data s key)
  | (Raise e, s') => page s = (Raise e, s')
  end.

(** *** Further tables of the examples *)

(** An intersections table of one zone without any junction. *)
Definition intersections_none : frame :=
  [(ZONE, ObjCol [VStr "A"]); (JUNCTIONS, IntCol [0]);
   (SIGNALIZED, IntCol [0])].

(** An environment table without the column of the months. *)
Definition env_no_months : frame :=
  [(PM25, ObjCol [VStr "10"; VStr "NA"; VStr "20"]);
   (PM10, IntCol [40; 50; 60]);
   (NO2, FloatCol [Fin (1 # 2); NaN; Fin 2]);
   (SO2, ObjCol [VStr "3"; VStr "BDL"; VStr "4"]);
   (O3, FloatCol [NaN; NaN; NaN])].

(** [(y, c)] is a row of the years and counts whose year is the latest:
    the year [y] is present, and every year of the table is present and
    at most [y]. *)
Definition latest (yc cc : column) (y c : value) : Prop :=
  (y, c) ∈ zip (cells yc) (cells cc)
  ∧ notna y = true
  ∧ ∀ y', y' ∈ cells yc → notna y' = true ∧ value_leb y' y = true.

(** No cell of the column is missing. *)
Definition all_present (c : column) : Prop :=
  Forall (fun v => notna v = true) (cells c).

(** A file system without any file. *)
Definition empty_os : os :=
  {| path_join := fun dir filename =>
       String.append dir (String.append "/" filename);
     path_exists := fun _ => false;
     read_csv := fun _ => Raise ValueError |}.

(** The overview of [app.py] when there is nothing to show. *)
Definition blank_overview : App.overview :=
  {| App.households := OVal (VInt 0);
     App.intersections := OVal (VInt 0);
     App.pm25_average := OVal (VInt 0);
     App.labour_force := OVal (VInt 0);
     App.recent_crimes := None;
     App.unemployment := OVal (VInt 0);
     App.dataset_status :=
       [("Water & Sanitation", 0%nat); ("Environment", 0%nat);
        ("Crime Data", 0%nat); ("Infrastructure", 0%nat);
        ("Employment", 0%nat)] |}.

(** The overview of [main.py] when there is nothing to show. *)
Definition blank_main_overview : Main.overview :=
  {| Main.households := OVal (VInt 0);
     Main.intersections := OVal (VInt 0);
     Main.pm25_average := OVal (VInt 0);
     Main.labour_force := OVal (VInt 0);
     Main.recent_crimes := None;
     Main.unemployment := OVal (VInt 0);
     Main.datasets_info :=
       (fun name => {| Main.dataset := name; Main.records := 0%nat;
                       Main.available := false |})
       <$> ["Water & Sanitation"; "Environment"; "Crime Data";
            "Infrastructure"; "Employment"];
     Main.signalization := None;
     Main.pm25_exceeds := None |}.



(** A disk on which every write succeeds. *)
Definition any_disk : disk :=
  {| makedirs := fun _ => Ok tt; to_csv := fun _ _ => Ok tt |}.

(** No workbook can be read. *)
Definition no_excel : excel :=
  {| read_excel := fun _ _ => Raise ValueError |}.

(** What [load_data] of [indore_dashboard.py] records for a file: nothing
    when it could be read, its name and the exception otherwise. *)
Definition load_error (o : os) (x : excel)
    (kf : string * (string * IndoreDashboard.file_type))
  : option (string * exn) :=
  match IndoreDashboard.read_file o x kf.2 with
  | Ok _ => None
  | Raise e => Some (kf.2.1, e)
  end.

(** The table that [load_data] stores for a file, if it could be read. *)
Definition loaded (o : os) (x : excel)
    (ft : string * IndoreDashboard.file_type) : option frame :=
  match IndoreDashboard.read_file o x ft with
  | Ok df => Some df
  | Raise _ => None
  end.

(** An employment table of integers with a labour force. *)
Definition employment_example : frame :=
  [(UNEMPLOYED, IntCol [50]); (EMPLOYED, IntCol [950]);
   (LABOUR_FORCE, IntCol [1000])].

(** The largest binary64 float. *)
Definition DBL_MAX : Z := 2 ^ 1024 - 2 ^ 971.

(** A number that a Python float can hold: an int, or a float that is
    neither NaN nor an infinity and whose magnitude is at most
    [DBL_MAX]. *)
Definition finite_number (v : value) : Prop :=
  match v with
  | VInt _ => True
  | VFloat (Fin q) =>
      (inject_Z (- DBL_MAX) <= q)%Q ∧ (q <= inject_Z DBL_MAX)%Q
  | _ => False
  end.

(** A Python int small enough for its percentages to stay within the
    range of a float: the quotient by a non-zero int and its product by
    100 are below [DBL_MAX]. *)
Definition small_int (a : Z) : Prop := (Z.abs a ≤ 10 ^ 300)%Z.

(** The percentage under [pct] of the count under [part]: a number that
    a float can hold, as soon as the count is small enough. *)
Definition finite_percentage (st : stats) (part pct : string) : Prop :=
  ∃ (a : Z) (v : value),
    st !! part = Some (OVal (VInt a))
    ∧ st !! pct = Some (OVal v)
    ∧ (small_int a → finite_number v).
(** * Properties *)

(** ** Arithmetic on floats *)

Lemma fin_zero (q : Q) : (q == 0)%Q → Float.fin q = Fin 0.
Proof.
  intros H. unfold Float.fin. f_equal.
  change (0%Q) with (Qred 0). by apply Qred_complete.
Qed.

Lemma Qis_zero_spec (q : Q) : Float.Qis_zero q = true ↔ (q == 0)%Q.
Proof.
  unfold Float.Qis_zero, Qeq. destruct q as [n d]; simpl.
  rewrite Z.eqb_eq. lia.
Qed.

Lemma round_half_even_zero (q : Q) : (q == 0)%Q → Float.round_half_even q = 0.
Proof.
  intros H. unfold Float.round_half_even.
  rewrite (Qfloor_comp q 0 H). change (Qfloor 0) with 0.
  assert (Hc : (q - inject_Z 0 ?= 1 # 2)%Q = Lt).
  { apply Qlt_alt. setoid_rewrite H. reflexivity. }
  by rewrite Hc.
Qed.

Lemma round_zero (n : nat) : Float.round (Fin 0) n = Fin 0.
Proof.
  unfold Float.round. apply fin_zero.
  rewrite round_half_even_zero by ring. reflexivity.
Qed.

(** Dividing zero by a number that is neither zero nor missing gives zero. *)
Lemma div_zero_l (a : Q) (y : float) :
  (a == 0)%Q → Float.isnan y = false → Float.eqb y (Fin 0) = false →
  Float.div (Fin a) y = Fin 0.
Proof.
  intros Ha Hnan Hz. destruct y as [b| |s]; simpl in *; try done.
  destruct (Float.Qis_zero b) eqn:Hb.
  - apply Qis_zero_spec in Hb.
    assert (Qeq_bool b 0 = true) by by apply Qeq_bool_iff.
    congruence.
  - apply fin_zero. rewrite Ha. unfold Qdiv. ring.
Qed.

Lemma mul_zero_l (a b : Q) :
  (a == 0)%Q → Float.mul (Fin a) (Fin b) = Fin 0.
Proof. intros Ha. simpl. apply fin_zero. rewrite Ha. ring. Qed.

(** ** Rounding as numpy does *)

Lemma round_half_even_comp (x y : Q) :
  (x == y)%Q → Float.round_half_even x = Float.round_half_even y.
Proof.
  intros H. unfold Float.round_half_even.
  rewrite (Qfloor_comp x y H).
  assert (E : (x - inject_Z (Qfloor y) == y - inject_Z (Qfloor y))%Q)
    by (by rewrite H).
  by rewrite (Qcompare_comp _ _ E (1 # 2) (1 # 2) (Qeq_refl _)).
Qed.

(** On exact values, multiplying by a power of ten, rounding to the
    nearest integer and dividing again is rounding to that many
    decimals. *)
Lemma np_round_float (f : float) (n : nat) :
  np_round (VFloat f) n = Ok (VFloat (Float.round f n)).
Proof.
  unfold np_round. do 2 f_equal.
  assert (Hp : Float.Qis_zero (inject_Z (10 ^ Z.of_nat n)) = false).
  { unfold Float.Qis_zero. simpl. apply Z.eqb_neq.
    apply Z.pow_nonzero; lia. }
  assert (Hs : Float.Qsign_neg (inject_Z (10 ^ Z.of_nat n)) = false).
  { unfold Float.Qsign_neg. simpl. apply Z.ltb_ge.
    apply Z.pow_nonneg. lia. }
  destruct f as [q| |b]; unfold Float.of_Z; cbn [Float.mul Float.rint].
  - unfold Float.round, Float.div, Float.fin. rewrite Hp.
    f_equal. apply Qred_complete.
    rewrite Qred_correct.
    by rewrite (round_half_even_comp _ _ (Qred_correct _)).
  - done.
  - rewrite Hp, Hs. cbn [Float.rint Float.div]. rewrite Hs.
    by destruct b.
Qed.

Section Coverage.
Import DataProcessor.

Lemma calculate_coverage_guard (n d : value) :
  py_eq d (VInt 0) = true ∨ isna d = true →
  calculate_coverage n d = Ok (VInt 0).
Proof.
  intros H. unfold calculate_coverage.
  destruct (py_eq d (VInt 0)); [done|]. destruct H as [? | ->]; done.
Qed.

Lemma calculate_coverage_ratio (n d : value) :
  py_eq d (VInt 0) = false → isna d = false →
  calculate_coverage n d
  = (q ← py_truediv n d; p ← py_mul q (VInt 100); py_round p 2).
Proof. intros H1 H2. unfold calculate_coverage. by rewrite H1, H2. Qed.

Lemma calculate_coverage_numbers (n d : value) (x y : float) :
  as_float n = Some x → as_float d = Some y →
  py_eq d (VInt 0) = false → isna d = false →
  calculate_coverage n d
  = Ok (VFloat (Float.round (Float.mul (Float.div x y) (Float.of_Z 100)) 2)).
Proof.
  intros Hn Hd H1 H2. rewrite calculate_coverage_ratio by done.
  unfold py_truediv, is_zero. rewrite Hn, Hd, H1. reflexivity.
Qed.

Lemma zero_number (n : value) :
  py_eq n (VInt 0) = true → ∃ a, as_float n = Some (Fin a) ∧ (a == 0)%Q.
Proof.
  destruct n as [|z|[a| |s]|s]; simpl; try done.
  - intros ->%Z.eqb_eq. by exists (inject_Z 0).
  - intros H%Qeq_bool_iff. by exists a.
Qed.

Lemma positive_number (d : value) :
  py_gt0 d = Ok true →
  ∃ y, as_float d = Some y ∧ Float.isnan y = false
       ∧ Float.eqb y (Fin 0) = false
       ∧ py_eq d (VInt 0) = false ∧ isna d = false.
Proof.
  destruct d as [|z|[b| |s]|s]; simpl; try done.
  - intros [= H%Z.ltb_lt]. exists (Float.of_Z z). repeat split; try done.
    + simpl. apply not_true_is_false. intros E%Qeq_bool_iff.
      unfold Qeq in E. simpl in E. lia.
    + apply Z.eqb_neq. lia.
  - unfold Float.ltb. simpl. intros [= H].
    apply andb_true_iff in H as [_ H]. apply negb_true_iff in H.
    assert (Hb : Qeq_bool b 0 = false).
    { apply not_true_is_false. intros E%Qeq_bool_iff.
      apply not_true_iff_false in H. apply H. apply Qeq_bool_iff.
      by symmetry. }
    exists (Fin b). repeat split; try done.
  - unfold Float.ltb. destruct s; simpl; [done|]. intros _.
    exists (Inf false). by repeat split.
Qed.

Lemma calculate_coverage_zero_numerator (n d : value) :
  py_eq n (VInt 0) = true → py_gt0 d = Ok true →
  calculate_coverage n d = Ok (VFloat (Fin 0)).
Proof.
  intros (a & Hn & Ha)%zero_number
    (y & Hd & Hnan & Hz & H0 & Hna)%positive_number.
  rewrite (calculate_coverage_numbers n d (Fin a) y) by done.
  rewrite div_zero_l by done. unfold Float.of_Z.
  rewrite mul_zero_l by reflexivity. by rewrite round_zero.
Qed.
End Coverage.

(** C1, as the code has it.  [calculate_coverage] returns the integer 0
    when its denominator equals zero or is missing ([None] or NaN), whatever
    the numerator; for numbers with any other denominator, negative ones
    included, it returns [round(numerator / denominator * 100, 2)].  So
    [calculate_coverage(n, 0)] is 0 for every [n],
    [calculate_coverage(0, d) == 0] for every number [d > 0], and
    [calculate_coverage(50, 200)] is 25.0. *)
Theorem calculate_coverage_spec :
  (∀ n d : value,
     py_eq d (VInt 0) = true ∨ isna d = true →
     DataProcessor.calculate_coverage n d = Ok (VInt 0))
  ∧ (∀ (n d : value) (x y : float),
       as_float n = Some x → as_float d = Some y →
       py_eq d (VInt 0) = false → isna d = false →
       DataProcessor.calculate_coverage n d
       = Ok (VFloat (Float.round
                       (Float.mul (Float.div x y) (Float.of_Z 100)) 2)))
  ∧ (∀ n : value, DataProcessor.calculate_coverage n (VInt 0) = Ok (VInt 0))
  ∧ (∀ n d : value,
       py_eq n (VInt 0) = true → py_gt0 d = Ok true →
       ∃ r, DataProcessor.calculate_coverage n d = Ok r
            ∧ py_eq r (VInt 0) = true)
  ∧ DataProcessor.calculate_coverage (VInt 50) (VInt 200)
    = Ok (VFloat (Fin 25)).
Proof.
  split; [exact calculate_coverage_guard|].
  split; [exact calculate_coverage_numbers|].
  split; [intros n; apply calculate_coverage_guard; by left|].
  split; [|reflexivity].
  intros n d Hn Hd. exists (VFloat (Fin 0)).
  split; [by apply calculate_coverage_zero_numerator | reflexivity].
Qed.

Lemma calculate_coverage_spec_witness :
  DataProcessor.calculate_coverage (VStr "x") (VFloat NaN) = Ok (VInt 0)
  ∧ DataProcessor.calculate_coverage (VInt (-3)) (VInt (-4))
    = Ok (VFloat (Fin 75))
  ∧ ∃ r, DataProcessor.calculate_coverage (VFloat (Fin 0)) (VInt 8) = Ok r
         ∧ py_eq r (VInt 0) = true.
Proof.
  destruct calculate_coverage_spec as (H1 & H2 & _ & H4 & _).
  split; [apply H1; right; reflexivity|].
  split; [apply (H2 _ _ (Float.of_Z (-3)) (Float.of_Z (-4))); reflexivity|].
  apply H4; reflexivity.
Defined.

(** C1 as stated fails for a negative denominator: the result is the
    ratio, not 0. *)
Lemma calculate_coverage_negative_denominator :
  DataProcessor.calculate_coverage (VInt 50) (VInt (-200))
  = Ok (VFloat (Fin (-25)))
  ∧ py_eq (VFloat (Fin (-25))) (VInt 0) = false.
Proof. split; reflexivity. Qed.

(** ** Cleaning of numeric cells *)

Section Cleaning.
Import DataProcessor.

Lemma clean_numeric_sentinel (s : string) :
  PyStr.upper s = "NA" ∨ PyStr.upper s = "NAN" →
  clean_numeric (VStr s) = Ok (VFloat NaN).
Proof.
  intros H. unfold clean_numeric, is_sentinel.
  destruct H as [-> | ->]; reflexivity.
Qed.

Lemma clean_numeric_unparseable (v : value) (e : exn) :
  py_float v = Raise e → clean_numeric v = Ok (VFloat NaN).
Proof.
  intros H. unfold clean_numeric. rewrite H.
  by destruct (is_sentinel v).
Qed.

Lemma clean_numeric_parsed (v x : value) :
  is_sentinel v = false → py_float v = Ok x → clean_numeric v = Ok x.
Proof. intros H1 H2. unfold clean_numeric. by rewrite H1, H2. Qed.

Lemma py_float_is_float (v x : value) :
  py_float v = Ok x → ∃ f, x = VFloat f.
Proof.
  destruct v as [|z|f|s]; simpl; try done.
  - intros [= <-]; eauto.
  - intros [= <-]; eauto.
  - destruct (PyStr.to_float s); [|done]. intros [= <-]; eauto.
Qed.

(** [clean_numeric] never raises, and returns a float. *)
Lemma clean_numeric_total (v : value) :
  ∃ f, clean_numeric v = Ok (VFloat f).
Proof.
  unfold clean_numeric. destruct (is_sentinel v); [by exists NaN|].
  destruct (py_float v) as [x|e] eqn:E; [|by exists NaN].
  destruct (py_float_is_float _ _ E) as [f ->]. by exists f.
Qed.

Lemma upper_ascii_N (c : ascii) :
  PyStr.upper_ascii c = "N"%char → c = "N"%char ∨ c = "n"%char.
Proof.
  destruct c as [[] [] [] [] [] [] [] []]; vm_compute; intros H;
    first [discriminate H | by left | by right].
Qed.

Lemma upper_ascii_A (c : ascii) :
  PyStr.upper_ascii c = "A"%char → c = "A"%char ∨ c = "a"%char.
Proof.
  destruct c as [[] [] [] [] [] [] [] []]; vm_compute; intros H;
    first [discriminate H | by left | by right].
Qed.

(** The strings that the sentinel test recognises are rejected by
    [float], or read by it as NaN. *)
Lemma sentinel_float (v : value) :
  is_sentinel v = true →
  try_except (py_float v) (Ok (VFloat NaN)) = Ok (VFloat NaN).
Proof.
  destruct v as [| | |s]; try done. unfold is_sentinel.
  intros H. apply orb_true_iff in H as [H|H]; apply String.eqb_eq in H.
  - destruct s as [|c1 [|c2 [|c3 s]]]; try done.
    injection H as H1 H2.
    apply upper_ascii_N in H1 as [-> | ->];
      apply upper_ascii_A in H2 as [-> | ->]; reflexivity.
  - destruct s as [|c1 [|c2 [|c3 [|c4 s]]]]; try done.
    injection H as H1 H2 H3.
    apply upper_ascii_N in H1 as [-> | ->];
      apply upper_ascii_A in H2 as [-> | ->];
      apply upper_ascii_N in H3 as [-> | ->]; reflexivity.
Qed.

(** The local [clean_numeric] of [DataHandler.get_environment_stats]
    computes the same function. *)
Lemma clean_numeric_agree (v : value) :
  DataHandler.clean_numeric v = clean_numeric v.
Proof.
  unfold DataHandler.clean_numeric, clean_numeric.
  destruct (is_sentinel v) eqn:Hs.
  - destruct v as [| | |s]; try done. simpl notna. cbv iota.
    change (if negb false then py_float (VStr s) else Ok (VFloat NaN))
      with (py_float (VStr s)).
    by apply sentinel_float.
  - destruct v as [|z|[q| |b]|s]; reflexivity.
Qed.
End Cleaning.

(** C4.  [clean_numeric] maps the strings that read "NA" or "NAN" once in
    upper case, and every value that [float] rejects, to NaN (the missing
    value); every other value is mapped to what [float] makes of it.  It
    never raises, and the local [clean_numeric] of
    [DataHandler.get_environment_stats] is the same function.  In
    particular "NA", "nan" and "abc" are missing and
    "12.5" is 12.5. *)
Theorem clean_numeric_spec :
  (∀ s : string,
     PyStr.upper s = "NA" ∨ PyStr.upper s = "NAN" →
     DataProcessor.clean_numeric (VStr s) = Ok (VFloat NaN))
  ∧ (∀ (v : value) (e : exn),
       py_float v = Raise e →
       DataProcessor.clean_numeric v = Ok (VFloat NaN))
  ∧ (∀ v x : value,
       DataProcessor.is_sentinel v = false → py_float v = Ok x →
       DataProcessor.clean_numeric v = Ok x ∧ ∃ f, x = VFloat f)
  ∧ (∀ v : value, ∃ f, DataProcessor.clean_numeric v = Ok (VFloat f))
  ∧ (∀ v : value, DataHandler.clean_numeric v = DataProcessor.clean_numeric v)
  ∧ DataProcessor.clean_numeric (VStr "NA") = Ok (VFloat NaN)
  ∧ DataProcessor.clean_numeric (VStr "nan") = Ok (VFloat NaN)
  ∧ DataProcessor.clean_numeric (VStr "abc") = Ok (VFloat NaN)
  ∧ DataProcessor.clean_numeric (VStr "12.5") = Ok (VFloat (Fin (25 # 2))).
Proof.
  split; [exact clean_numeric_sentinel|].
  split; [exact clean_numeric_unparseable|].
  split.
  { intros v x H1 H2. split; [by apply clean_numeric_parsed|].
    by apply (py_float_is_float v). }
  split; [exact clean_numeric_total|].
  split; [exact clean_numeric_agree|].
  repeat split; reflexivity.
Qed.

Lemma clean_numeric_spec_witness :
  DataProcessor.clean_numeric (VStr "Na") = Ok (VFloat NaN)
  ∧ DataProcessor.clean_numeric VNone = Ok (VFloat NaN)
  ∧ DataProcessor.clean_numeric (VStr " -1_0.50e1 ") = Ok (VFloat (Fin (-105))).
Proof.
  destruct clean_numeric_spec as (H1 & H2 & H3 & _).
  split; [apply H1; left; reflexivity|].
  split; [apply (H2 VNone TypeError); reflexivity|].
  apply H3; reflexivity.
Defined.

(** ** Loading *)

Lemma load_file_ok (o : os) (dir : string) (data : store)
    (kf : string * string) :
  load_file o dir data kf = Ok (<[kf.1 := entry o dir kf.2]> data).
Proof.
  unfold load_file, entry.
  destruct (path_exists o _); [|done]. by destruct (read_csv o _).
Qed.

Lemma load_loop_ok (o : os) (dir : string) (files : list (string * string))
    (data : store) :
  load_loop o dir files data
  = Ok (foldl (fun d kf => <[kf.1 := entry o dir kf.2]> d) data files).
Proof.
  unfold load_loop. revert data.
  induction files as [|kf files IH]; intros data; [done|].
  simpl. rewrite load_file_ok. apply IH.
Qed.

Lemma load_loop_other (o : os) (dir : string)
    (files : list (string * string)) (data : store) (k : string) :
  k ∉ files.*1 →
  foldl (fun d kf => <[kf.1 := entry o dir kf.2]> d) data files !! k
  = data !! k.
Proof.
  revert data. induction files as [|kf files IH]; intros data Hk; [done|].
  simpl in *. apply not_elem_of_cons in Hk as [Hne Hk].
  rewrite IH by done. by rewrite lookup_insert_ne.
Qed.

Lemma load_loop_key (o : os) (dir : string)
    (files : list (string * string)) (data : store) :
  NoDup files.*1 →
  Forall (fun kf =>
            foldl (fun d kf => <[kf.1 := entry o dir kf.2]> d) data files
              !! kf.1 = Some (entry o dir kf.2)) files.
Proof.
  revert data. induction files as [|kf files IH]; intros data Hnd; [done|].
  simpl in *. apply NoDup_cons in Hnd as [Hk Hnd]. constructor.
  - rewrite load_loop_other by done. by rewrite lookup_insert_eq.
  - by apply IH.
Qed.

Lemma DataLoader_files_NoDup : NoDup DataLoader.files.*1.
Proof. compute_done. Qed.

Lemma DataHandler_files_NoDup : NoDup DataHandler.files.*1.
Proof. compute_done. Qed.

(** C9.  [load_all] (and [load_data] of [DataHandler]) never raises.
    Afterwards each of the five keys is present, with the table read from
    its own file, or with [None] when that file is missing or reading it
    failed; a failure for one file changes no other entry, and entries
    under other keys are left as they were. *)
Theorem load_all_spec (o : os) (dir : string) (data : store) :
  (∃ s, DataLoader.load_all o dir data = Ok s
        ∧ Forall (fun kf => s !! kf.1 = Some (entry o dir kf.2))
            DataLoader.files
        ∧ ∀ k, k ∉ DataLoader.files.*1 → s !! k = data !! k)
  ∧ (∃ s, DataHandler.load_data o dir data = Ok s
          ∧ Forall (fun kf => s !! kf.1 = Some (entry o dir kf.2))
              DataHandler.files
          ∧ ∀ k, k ∉ DataHandler.files.*1 → s !! k = data !! k).
Proof.
  split; eexists; (split; [apply load_loop_ok|]); split.
  - apply load_loop_key, DataLoader_files_NoDup.
  - intros k Hk. by apply load_loop_other.
  - apply load_loop_key, DataHandler_files_NoDup.
  - intros k Hk. by apply load_loop_other.
Qed.

Lemma load_all_spec_witness :
  ∃ s, DataLoader.load_all example_os "data" ∅ = Ok s
       ∧ s !! "crimes" = Some (Some crimes_table)
       ∧ s !! "employment" = Some None
       ∧ s !! "water_sanitation" = Some None
       ∧ s !! "traffic" = None.
Proof.
  destruct (load_all_spec example_os "data" ∅) as [(s & Hs & Hk & Ho) _].
  exists s. split; [exact Hs|].
  repeat (apply Forall_cons in Hk as [? Hk]).
  repeat split; try done.
  rewrite Ho; [done|]. compute_done.
Defined.

(** ** Looking up a dataset that was never loaded *)

Lemma get_zone_data_unknown (s : store) (dataset value_col : string) :
  s !! dataset = None →
  DataHandler.get_zone_data dataset value_col s = (Raise KeyError, s).
Proof.
  intros H. unfold DataHandler.get_zone_data, mbind, M_bind, dict_get.
  by rewrite H.
Qed.

(** C10.  On a [DataHandler] as its constructor leaves it, [get_zone_data]
    with a dataset name that is not one of 'water', 'environment',
    'crimes', 'infrastructure', 'employment' raises [KeyError]: the
    dictionary is indexed before anything is tested.  The tables are left
    as they were. *)
Theorem get_zone_data_unknown_dataset
    (o : os) (data_path : string) (s : store) (dataset value_col : string) :
  DataHandler.init o data_path = Ok s →
  dataset ∉ ["water"; "environment"; "crimes"; "infrastructure";
             "employment"] →
  DataHandler.get_zone_data dataset value_col s = (Raise KeyError, s).
Proof.
  intros Hinit Hk. apply get_zone_data_unknown.
  unfold DataHandler.init, DataHandler.load_data in Hinit.
  rewrite load_loop_ok in Hinit. injection Hinit as <-.
  exact (load_loop_other o data_path DataHandler.files ∅ dataset Hk).
Qed.

Lemma get_zone_data_unknown_dataset_witness :
  ∃ s, DataHandler.init example_os "data" = Ok s
       ∧ DataHandler.get_zone_data "water_sanitation" HOUSEHOLDS s
         = (Raise KeyError, s).
Proof.
  eexists. split; [reflexivity|].
  apply (get_zone_data_unknown_dataset example_os "data");
    [reflexivity | compute_done].
Defined.

(** ** Frames *)

Lemma getitem_setitem_eq (df : frame) (name : string) (c : column) :
  getitem (setitem df name c) name = Ok c.
Proof.
  induction df as [|[n c0] df IH]; simpl.
  - by rewrite String.eqb_refl.
  - destruct (String.eqb n name) eqn:E; simpl; by rewrite E.
Qed.

Lemma getitem_setitem_ne (df : frame) (name other : string) (c : column) :
  name ≠ other → getitem (setitem df name c) other = getitem df other.
Proof.
  intros Hne. induction df as [|[n c0] df IH]; simpl.
  - by apply String.eqb_neq in Hne as ->.
  - destruct (String.eqb n name) eqn:E; simpl.
    + apply String.eqb_eq in E as ->.
      by apply String.eqb_neq in Hne as ->.
    + by rewrite IH.
Qed.

(** In a well-formed frame that is not empty no column is empty. *)
Lemma frame_wf_nonempty (df : frame) (name : string) (c : column) :
  frame_wf df → getitem df name = Ok c → col_len c ≠ 0%nat →
  frame_empty df = false.
Proof.
  intros [n Hwf] Hget Hlen.
  assert (Hn : col_len c = n).
  { clear Hlen. induction df as [|[m c0] df IH]; [done|].
    apply Forall_cons in Hwf as [H0 Hwf]. simpl in Hget.
    destruct (String.eqb m name); [by injection Hget as <- | by apply IH]. }
  destruct df as [|[m c0] df]; [done|].
  apply Forall_cons in Hwf as [H0 _]. simpl in *.
  apply Nat.eqb_neq. congruence.
Qed.

(** ** Methods as state transformers *)

Lemma bind_ok {A B} (m : M A) (k : A → M B) (s s' : store) (a : A) :
  m s = (Ok a, s') → (m ≫= k) s = k a s'.
Proof. intros H. unfold mbind, M_bind. by rewrite H. Qed.

Lemma bind_raise {A B} (m : M A) (k : A → M B) (s s' : store) (e : exn) :
  m s = (Raise e, s') → (m ≫= k) s = (Raise e, s').
Proof. intros H. unfold mbind, M_bind. by rewrite H. Qed.

Lemma dict_get_ok (key : string) (s : store) (v : option frame) :
  s !! key = Some v → dict_get key s = (Ok v, s).
Proof. intros H. unfold dict_get. by rewrite H. Qed.

(** ** Air quality *)

Section Environment.
Import DataProcessor.

Lemma clean_numeric_clean (v : value) :
  clean_numeric v = Ok (VFloat (clean v)).
Proof.
  unfold clean. destruct (clean_numeric_total v) as [f ->]. done.
Qed.

Lemma rmapM_clean_numeric (l : list value) :
  rmapM clean_numeric l = Ok (VFloat <$> (clean <$> l)).
Proof.
  induction l as [|v l IH]; [done|].
  simpl. by rewrite clean_numeric_clean, IH.
Qed.

Lemma forallb_is_number_floats (fs : list float) :
  forallb is_number (VFloat <$> fs) = true.
Proof. induction fs; simpl; auto. Qed.

Lemma omap_as_float_floats (fs : list float) :
  omap as_float (VFloat <$> fs) = fs.
Proof. induction fs as [|? ? IH]; csimpl; [done|]. by rewrite IH. Qed.

Lemma infer_column_floats (fs : list float) :
  infer_column (VFloat <$> fs)
  = match fs with [] => ObjCol [] | _ => FloatCol fs end.
Proof.
  destruct fs as [|f fs]; [done|].
  change (infer_column (VFloat <$> f :: fs))
    with (if forallb is_number (VFloat <$> fs)
          then FloatCol (f :: omap as_float (VFloat <$> fs))
          else ObjCol (VFloat <$> f :: fs)).
  by rewrite forallb_is_number_floats, omap_as_float_floats.
Qed.

Lemma series_apply_clean_numeric (c : column) :
  series_apply clean_numeric c = Ok (cleaned_col c).
Proof. unfold series_apply. by rewrite rmapM_clean_numeric. Qed.

Lemma cleaned_ok (env : frame) (src : string) (c : column) :
  getitem env src = Ok c →
  DashboardApp.cleaned env src = Ok (cleaned_col c).
Proof.
  intros H. unfold DashboardApp.cleaned. rewrite H. simpl.
  apply series_apply_clean_numeric.
Qed.

Lemma series_mean_cleaned (c : column) :
  series_mean (cleaned_col c) = Ok (VFloat (fmean (clean <$> cells c))).
Proof.
  unfold cleaned_col. rewrite infer_column_floats.
  by destruct (clean <$> cells c).
Qed.

Lemma rounded_mean_ok (env : frame) (name : string) (c : column) (n : nat) :
  getitem env name = Ok (cleaned_col c) →
  DashboardApp.rounded_mean env name n
  = Ok (VFloat (Float.round (fmean (clean <$> cells c)) n)).
Proof.
  intros H. unfold DashboardApp.rounded_mean. rewrite H. simpl.
  rewrite series_mean_cleaned. simpl. apply np_round_float.
Qed.

Lemma assign_ok (key : string) (env : frame) (name : string) (c : column)
    (s : store) :
  assign key env name (Ok c) s
  = (Ok (setitem env name c), <[key := Some (setitem env name c)]> s).
Proof. done. Qed.

Ltac names_differ := let H := fresh in intros H; discriminate H.

Lemma dashboard_environment_stats (s : store) (env : frame)
    (c25 c10 cno2 cso2 co3 : column) :
  s !! "environment" = Some (Some env) →
  frame_empty env = false →
  getitem env PM25 = Ok c25 → getitem env PM10 = Ok c10 →
  getitem env NO2 = Ok cno2 → getitem env SO2 = Ok cso2 →
  getitem env O3 = Ok co3 →
  DashboardApp.get_environment_stats s
  = (Ok (list_to_map
           [("pm25_avg", avg c25 2); ("pm10_avg", avg c10 2);
            ("no2_avg", avg cno2 2); ("so2_avg", avg cso2 2);
            ("o3_avg", avg co3 2)]),
     <["environment" := Some (env_after env c25 c10 cno2 cso2 co3)]> s).
Proof.
  intros Hs Hne H25 H10 Hno2 Hso2 Ho3.
  unfold DashboardApp.get_environment_stats.
  rewrite (bind_ok _ _ _ _ _ (dict_get_ok _ _ _ Hs)). rewrite Hne.
  rewrite (cleaned_ok _ _ _ H25).
  erewrite bind_ok by apply assign_ok.
  rewrite (cleaned_ok _ PM10 c10)
    by (rewrite getitem_setitem_ne by names_differ; done).
  erewrite bind_ok by apply assign_ok.
  rewrite (cleaned_ok _ NO2 cno2)
    by (rewrite !getitem_setitem_ne by names_differ; done).
  erewrite bind_ok by apply assign_ok.
  rewrite (cleaned_ok _ SO2 cso2)
    by (rewrite !getitem_setitem_ne by names_differ; done).
  erewrite bind_ok by apply assign_ok.
  rewrite (cleaned_ok _ O3 co3)
    by (rewrite !getitem_setitem_ne by names_differ; done).
  erewrite bind_ok by apply assign_ok.
  unfold lift.
  rewrite (rounded_mean_ok _ "PM2.5" c25)
    by (rewrite !getitem_setitem_ne by names_differ;
        apply getitem_setitem_eq).
  rewrite (rounded_mean_ok _ "PM10" c10)
    by (rewrite !getitem_setitem_ne by names_differ;
        apply getitem_setitem_eq).
  rewrite (rounded_mean_ok _ "NO2" cno2)
    by (rewrite !getitem_setitem_ne by names_differ;
        apply getitem_setitem_eq).
  rewrite (rounded_mean_ok _ "SO2" cso2)
    by (rewrite !getitem_setitem_ne by names_differ;
        apply getitem_setitem_eq).
  rewrite (rounded_mean_ok _ "O3" co3) by apply getitem_setitem_eq.
  simpl. f_equal. unfold env_after.
  by rewrite !insert_insert_eq.
Qed.
End Environment.

Section EnvironmentHandler.

Lemma has_column_getitem (df : frame) (name : string) :
  has_column df name = true → ∃ c, getitem df name = Ok c.
Proof.
  induction df as [|[n c] df IH]; [done|]. simpl.
  destruct (String.eqb n name); simpl; eauto.
Qed.

Lemma rmapM_handler_clean_numeric (l : list value) :
  rmapM DataHandler.clean_numeric l = Ok (VFloat <$> (clean <$> l)).
Proof.
  induction l as [|v l IH]; [done|].
  simpl. by rewrite clean_numeric_agree, clean_numeric_clean, IH.
Qed.

Lemma cleaned_mean_ok (df : frame) (name : string) (c : column) :
  getitem df name = Ok c →
  DataHandler.cleaned_mean df name
  = Ok (VFloat (fmean (clean <$> cells c))).
Proof.
  intros H. unfold DataHandler.cleaned_mean, series_apply.
  rewrite H. simpl. rewrite rmapM_handler_clean_numeric. simpl.
  apply series_mean_cleaned.
Qed.

Lemma round_or_0_float (f : float) (n : nat) :
  DataHandler.round_or_0 (VFloat f) n
  = Ok (if Float.isnan f then VInt 0 else VFloat (Float.round f n)).
Proof.
  destruct f as [q| |b]; [|done|]; unfold DataHandler.round_or_0;
    by rewrite np_round_float.
Qed.

(** The rounded mean, or 0 when every cell is missing. *)
Lemma handler_environment_stats (s : store) (df : frame)
    (c25 c10 cno2 : column) :
  s !! "environment" = Some (Some df) →
  frame_empty df = false →
  getitem df PM25 = Ok c25 → getitem df PM10 = Ok c10 →
  getitem df NO2 = Ok cno2 →
  DataHandler.get_environment_stats s
  = (Ok (list_to_map
           [("pm25_avg", avg_or_0 c25 1); ("pm10_avg", avg_or_0 c10 1);
            ("no2_avg", avg_or_0 cno2 2)]), s).
Proof.
  intros Hs Hne H25 H10 Hno2.
  unfold DataHandler.get_environment_stats.
  rewrite (bind_ok _ _ _ _ _ (dict_get_ok _ _ _ Hs)). rewrite Hne.
  unfold lift.
  rewrite (cleaned_mean_ok _ _ _ H25), (cleaned_mean_ok _ _ _ H10),
    (cleaned_mean_ok _ _ _ Hno2).
  cbv beta iota delta [mbind result_bind].
  rewrite !round_or_0_float. reflexivity.
Qed.
End EnvironmentHandler.

(** C5.  For every (well-formed) environment table whose PM2.5 column is
    ["10", "NA", "20"] and that has the other pollutant columns the method
    reads, the PM2.5 average is 15.0, in [DashboardApp] and in
    [DataHandler]: the "NA" reading is left out of the mean, it does not
    count as 0. *)
Theorem pm25_average_skips_missing (s : store) (env : frame) :
  s !! "environment" = Some (Some env) →
  frame_wf env →
  getitem env PM25 = Ok (ObjCol [VStr "10"; VStr "NA"; VStr "20"]) →
  has_column env PM10 = true → has_column env NO2 = true →
  (has_column env SO2 = true → has_column env O3 = true →
   ∃ st s', DashboardApp.get_environment_stats s = (Ok st, s')
            ∧ st !! "pm25_avg" = Some (OVal (VFloat (Fin 15))))
  ∧ ∃ st, DataHandler.get_environment_stats s = (Ok st, s)
          ∧ st !! "pm25_avg" = Some (OVal (VFloat (Fin 15))).
Proof.
  intros Hs Hwf H25 (c10 & H10)%has_column_getitem
    (cno2 & Hno2)%has_column_getitem.
  assert (Hne : frame_empty env = false)
    by (apply (frame_wf_nonempty env PM25 _ Hwf H25); discriminate).
  split.
  - intros (cso2 & Hso2)%has_column_getitem (co3 & Ho3)%has_column_getitem.
    eexists _, _. split; [by eapply dashboard_environment_stats|].
    reflexivity.
  - eexists. split; [by eapply handler_environment_stats|]. reflexivity.
Qed.

Lemma pm25_average_skips_missing_witness :
  (∃ st s', DashboardApp.get_environment_stats
              (<["environment" := Some env_example]> ∅) = (Ok st, s')
            ∧ st !! "pm25_avg" = Some (OVal (VFloat (Fin 15))))
  ∧ ∃ st, DataHandler.get_environment_stats
            (<["environment" := Some env_example]> ∅)
          = (Ok st, <["environment" := Some env_example]> ∅)
          ∧ st !! "pm25_avg" = Some (OVal (VFloat (Fin 15))).
Proof.
  destruct (pm25_average_skips_missing
              (<["environment" := Some env_example]> ∅) env_example)
    as [H1 H2]; try reflexivity.
  - exists 3%nat. repeat constructor.
  - split; [apply H1; reflexivity | exact H2].
Defined.

(** ** The cached tables under queries *)

Lemma has_column_setitem (df : frame) (name : string) (c : column) :
  has_column (setitem df name c) name = true.
Proof.
  induction df as [|[n c0] df IH]; simpl.
  - by rewrite String.eqb_refl.
  - destruct (String.eqb n name) eqn:E; simpl; rewrite E; simpl; done.
Qed.

Lemma has_column_setitem_ne (df : frame) (name other : string) (c : column) :
  name ≠ other →
  has_column (setitem df name c) other = has_column df other.
Proof.
  intros Hne. induction df as [|[n c0] df IH]; simpl.
  - apply String.eqb_neq in Hne as ->. done.
  - destruct (String.eqb n name) eqn:E; simpl; [done|]. by rewrite IH.
Qed.

Lemma has_column_false (df : frame) (name : string) :
  has_column df name = false → getitem df name = Raise KeyError.
Proof.
  induction df as [|[n c] df IH]; [done|]. simpl.
  destruct (String.eqb n name); simpl; [done | exact IH].
Qed.

Lemma read_only_query {A} (key : string) (a : A) (k : frame → result A) :
  read_only (v ← dict_get key;
             match v with
             | None => mret a
             | Some df => if frame_empty df then mret a else lift (k df)
             end).
Proof.
  intros s. unfold mbind, M_bind, dict_get.
  destruct (s !! key) as [[df|]|]; try done.
  by destruct (frame_empty df).
Qed.

(** Every query method but [DashboardApp.get_environment_stats] leaves
    the cached tables as they are. *)
Lemma queries_read_only :
  read_only DashboardApp.get_water_sanitation_stats
  ∧ read_only DashboardApp.get_crimes_trend
  ∧ read_only DashboardApp.get_intersections_summary
  ∧ read_only DashboardApp.get_employment_stats
  ∧ read_only DashboardApp.get_water_by_zone
  ∧ read_only DashboardApp.get_water_by_ward
  ∧ read_only DashboardApp.get_environment_trend
  ∧ read_only DashboardApp.get_intersections_by_zone
  ∧ read_only DataHandler.get_water_stats
  ∧ read_only DataHandler.get_environment_stats
  ∧ read_only DataHandler.get_crime_data
  ∧ read_only DataHandler.get_infrastructure_stats
  ∧ read_only DataHandler.get_employment_stats
  ∧ ∀ dataset value_col,
      read_only (DataHandler.get_zone_data dataset value_col).
Proof.
  repeat split; try apply read_only_query.
  intros dataset value_col s.
  unfold DataHandler.get_zone_data, mbind, M_bind, dict_get.
  destruct (s !! dataset) as [[df|]|]; try done.
  by destruct (frame_empty df || negb (has_column df ZONE)).
Qed.

(** [DashboardApp.get_environment_stats] changes the cached table
    whenever it gets as far as its first assignment and the table had no
    column "PM2.5" yet. *)
Lemma env_after_differs (env : frame) (c25 c10 cno2 cso2 co3 : column) :
  has_column env "PM2.5" = false →
  env_after env c25 c10 cno2 cso2 co3 ≠ env.
Proof.
  intros H E. apply has_column_false in H.
  rewrite <- E in H. unfold env_after in H.
  rewrite !getitem_setitem_ne in H by (intros X; discriminate X).
  by rewrite getitem_setitem_eq in H.
Qed.

(** C8 fails on the code.  [DashboardApp.get_environment_stats] writes
    five cleaned columns into the cached environment table: the tables
    after the call differ from the tables before it.  (Its sibling
    [get_environment_trend] works on a copy and leaves them alone.) *)
Theorem get_environment_stats_mutates_cache :
  let s : store := <["environment" := Some env_example]> ∅ in
  (DashboardApp.get_environment_stats s).2 !! "environment"
  = Some (Some (env_example ++
       [("PM2.5", FloatCol [Fin 10; NaN; Fin 20]);
        ("PM10", FloatCol [Fin 40; Fin 50; Fin 60]);
        ("NO2", FloatCol [Fin (1 # 2); NaN; Fin 2]);
        ("SO2", FloatCol [Fin 3; NaN; Fin 4]);
        ("O3", FloatCol [NaN; NaN; NaN])]))
  ∧ (DashboardApp.get_environment_stats s).2 ≠ s
  ∧ (DashboardApp.get_environment_trend s).2 = s.
Proof.
  split; [|split]; [reflexivity | | reflexivity].
  intros E. apply (f_equal (fun m : store => m !! "environment")) in E.
  vm_compute in E. discriminate E.
Qed.

(** ** Rates of the employment statistics *)

(** C3 fails on the code.  [DashboardApp.get_employment_stats] divides by
    the labour force without a guard: with a labour force of 0 both rates
    are infinite, and NaN when the numerator is 0 too.  The same table
    gives 0 in [DataHandler.get_employment_stats], which has the guard. *)
Theorem employment_rate_unguarded :
  (∃ st, DashboardApp.get_employment_stats
           (<["employment" := Some employment_zero]> ∅)
         = (Ok st, <["employment" := Some employment_zero]> ∅)
         ∧ st !! "unemployment_rate" = Some (OVal (VFloat (Inf false)))
         ∧ st !! "employment_rate" = Some (OVal (VFloat NaN)))
  ∧ (∃ st, DataHandler.get_employment_stats
             (<["employment" := Some employment_zero]> ∅)
           = (Ok st, <["employment" := Some employment_zero]> ∅)
           ∧ st !! "unemployment_rate" = Some (OVal (VInt 0))).
Proof. split; eexists; (split; [reflexivity|]); repeat split; reflexivity. Qed.

(** ** The order of the cells *)

Section FloatOrder.

Lemma float_leb_total (x y : float) :
  Float.isnan x = false → Float.isnan y = false →
  Float.leb x y = true ∨ Float.leb y x = true.
Proof.
  destruct x as [a| |[]], y as [b| |[]]; simpl; try done; auto.
  intros _ _. rewrite !Qle_bool_iff.
  destruct (Qlt_le_dec a b) as [H|H]; [left; by apply Qlt_le_weak | by right].
Qed.

Lemma float_leb_trans (x y z : float) :
  Float.leb x y = true → Float.leb y z = true → Float.leb x z = true.
Proof.
  destruct x as [a| |[]], y as [b| |[]], z as [c| |[]]; simpl; try done.
  rewrite !Qle_bool_iff. apply Qle_trans.
Qed.

End FloatOrder.

Section StringOrder.

Lemma ascii_compare_eq (a b : ascii) : Ascii.compare a b = Eq → a = b.
Proof. apply Ascii.compare_eq_iff. Qed.

Lemma ascii_compare_lt_trans (a b c : ascii) :
  Ascii.compare a b = Lt → Ascii.compare b c = Lt → Ascii.compare a c = Lt.
Proof.
  unfold Ascii.compare. rewrite !N.compare_lt_iff. apply N.lt_trans.
Qed.

Lemma string_compare_trans (s1 s2 s3 : string) :
  String.compare s1 s2 ≠ Gt → String.compare s2 s3 ≠ Gt →
  String.compare s1 s3 ≠ Gt.
Proof.
  revert s2 s3. induction s1 as [|c1 s1 IH]; intros [|c2 s2] [|c3 s3];
    simpl; try done.
  destruct (Ascii.compare c1 c2) eqn:E12; [| |done].
  - apply ascii_compare_eq in E12 as ->.
    destruct (Ascii.compare c2 c3); [apply IH | done | done].
  - intros _. destruct (Ascii.compare c2 c3) eqn:E23; [| |done].
    + apply ascii_compare_eq in E23 as ->. by rewrite E12.
    + by rewrite (ascii_compare_lt_trans _ _ _ E12 E23).
Qed.

Lemma string_leb_trans (s1 s2 s3 : string) :
  String.leb s1 s2 = true → String.leb s2 s3 = true →
  String.leb s1 s3 = true.
Proof.
  unfold String.leb. intros H1 H2.
  pose proof (string_compare_trans s1 s2 s3) as H.
  destruct (String.compare s1 s2), (String.compare s2 s3),
    (String.compare s1 s3); try done; exfalso; by apply H.
Qed.

End StringOrder.

Section ValueOrder.

Lemma isna_sort_key (v : value) : isna v = true ↔ sort_key v = KNA.
Proof. by destruct v as [|z|[q| |b]|s]. Qed.

Lemma sort_key_num (v : value) (x : float) :
  sort_key v = KNum x → Float.isnan x = false.
Proof.
  destruct v as [|z|[q| |b]|s]; simpl; try done; by intros [= <-].
Qed.

Lemma value_leb_total (v w : value) :
  value_leb v w = true ∨ value_leb w v = true.
Proof.
  unfold value_leb.
  destruct (sort_key v) as [x|s|] eqn:Ev, (sort_key w) as [y|t|] eqn:Ew;
    auto.
  - apply float_leb_total; by eapply sort_key_num.
  - apply String.leb_total.
Qed.

Lemma value_leb_trans (u v w : value) :
  value_leb u v = true → value_leb v w = true → value_leb u w = true.
Proof.
  unfold value_leb.
  destruct (sort_key u) as [x|s|], (sort_key v) as [y|t|],
    (sort_key w) as [z|r|]; try done.
  - apply float_leb_trans.
  - apply string_leb_trans.
Qed.

Lemma row_leb_total (asc : bool) (v w : value) :
  row_leb asc v w = true ∨ row_leb asc w v = true.
Proof.
  unfold row_leb. destruct (isna w), (isna v); auto.
  destruct asc; [apply value_leb_total|].
  destruct (value_leb_total v w); auto.
Qed.

Lemma row_leb_trans (asc : bool) (u v w : value) :
  row_leb asc u v = true → row_leb asc v w = true → row_leb asc u w = true.
Proof.
  unfold row_leb. destruct (isna w); [done|].
  destruct (isna v); [done|]. destruct (isna u); [done|].
  destruct asc; [apply value_leb_trans|].
  intros H1 H2. by apply (value_leb_trans w v u).
Qed.

End ValueOrder.

(** ** Sorting *)

Section IsortFacts.
Context {A : Type} (leb : A → A → bool).

Lemma insert_Permutation (x : A) (l : list A) : insert leb x l ≡ₚ x :: l.
Proof.
  induction l as [|y l IH]; [done|]. simpl.
  destruct (leb x y); [done|]. rewrite IH. apply Permutation_swap.
Qed.

Lemma isort_Permutation (l : list A) : isort leb l ≡ₚ l.
Proof.
  induction l as [|x l IH]; [done|].
  unfold isort in *. simpl. rewrite insert_Permutation. by rewrite IH.
Qed.

Lemma isort_length (l : list A) : length (isort leb l) = length l.
Proof. apply Permutation_length, isort_Permutation. Qed.

Context (leb_total : ∀ a b, leb a b = true ∨ leb b a = true).
Context (leb_trans :
  ∀ a b c, leb a b = true → leb b c = true → leb a c = true).

Lemma insert_sorted (x : A) (l : list A) :
  StronglySorted (fun a b => leb a b = true) l →
  StronglySorted (fun a b => leb a b = true) (insert leb x l).
Proof.
  induction 1 as [|y l Hl IH Hy]; simpl.
  - repeat constructor.
  - destruct (leb x y) eqn:E.
    + constructor; [by constructor|]. constructor; [done|].
      eapply Forall_impl; [exact Hy|]. intros z Hz. by eapply leb_trans.
    + constructor; [done|].
      rewrite insert_Permutation. constructor; [|done].
      destruct (leb_total x y); congruence.
Qed.

Lemma isort_sorted (l : list A) :
  StronglySorted (fun a b => leb a b = true) (isort leb l).
Proof.
  induction l as [|x l IH]; [constructor|].
  by apply insert_sorted.
Qed.

End IsortFacts.

(** ** Rows taken by position *)

Section TakeAt.
Context {A : Type}.
Implicit Types (l : list A) (idx : list nat).

Lemma take_at_cons_Some i idx l x :
  l !! i = Some x → take_at (i :: idx) A l = x :: take_at idx A l.
Proof. intros H. unfold take_at. simpl. by rewrite H. Qed.

(** A list of positions paired with the elements found there. *)
Lemma take_at_tagged (t : list (nat * A)) l :
  Forall (fun p => l !! p.1 = Some p.2) t → take_at (t.*1) A l = t.*2.
Proof.
  induction 1 as [|[i x] t Hx _ IH]; [done|].
  simpl in Hx. change (take_at (i :: t.*1) A l = x :: t.*2).
  rewrite (take_at_cons_Some i _ _ x Hx). by rewrite IH.
Qed.

Lemma tagged_zip_seq (pre l : list A) :
  Forall (fun p : nat * A => (pre ++ l) !! p.1 = Some p.2)
  (zip (seq (length pre) (length l)) l).
Proof.
  revert pre. induction l as [|x l IH]; intros pre; [constructor|].
  simpl. constructor.
  - simpl. by rewrite list_lookup_middle.
  - specialize (IH (pre ++ [x])).
    rewrite length_app in IH. simpl in IH.
    rewrite Nat.add_1_r, <- app_assoc in IH. exact IH.
Qed.

Lemma tagged_enumerate l :
  Forall (fun p : nat * A => l !! p.1 = Some p.2) (zip (seq 0 (length l)) l).
Proof. apply (tagged_zip_seq [] l). Qed.

Lemma take_at_seq l : take_at (seq 0 (length l)) A l = l.
Proof.
  pose proof (take_at_tagged (zip (seq 0 (length l)) l) l
                (tagged_enumerate l)) as H.
  rewrite fst_zip, snd_zip in H by (by rewrite length_seq). exact H.
Qed.

Lemma take_at_Permutation idx l :
  idx ≡ₚ seq 0 (length l) → take_at idx A l ≡ₚ l.
Proof.
  intros H. unfold take_at. rewrite H. fold (take_at (seq 0 (length l)) A l).
  by rewrite take_at_seq.
Qed.

Lemma take_at_length idx l :
  idx ≡ₚ seq 0 (length l) → length (take_at idx A l) = length l.
Proof. intros H. by rewrite (take_at_Permutation idx l H). Qed.

End TakeAt.

Lemma take_at_fmap {A B} (f : A → B) (idx : list nat) (l : list A) :
  take_at idx B (f <$> l) = f <$> take_at idx A l.
Proof.
  unfold take_at. induction idx as [|i idx IH]; [done|].
  csimpl. rewrite list_lookup_fmap, IH. by destruct (l !! i).
Qed.

Lemma take_at_zip {A B} (idx : list nat) (l : list A) (k : list B) :
  length l = length k →
  take_at idx (A * B) (zip l k) = zip (take_at idx A l) (take_at idx B k).
Proof.
  intros Hlen. unfold take_at. induction idx as [|i idx IH]; [done|].
  csimpl. rewrite lookup_zip_with, IH.
  destruct (l !! i) as [x|] eqn:El, (k !! i) as [y|] eqn:Ek; simpl; try done.
  - apply lookup_lt_Some in El. apply lookup_ge_None in Ek. lia.
  - apply lookup_lt_Some in Ek. apply lookup_ge_None in El. lia.
Qed.

Lemma cells_col_rows (f : ∀ A : Type, list A → list A) (c : column) :
  (∀ (A B : Type) (g : A → B) (l : list A), f B (g <$> l) = g <$> f A l) →
  cells (col_rows f c) = f value (cells c).
Proof. intros Hf. destruct c; simpl; by rewrite ?Hf. Qed.

Lemma cells_col_take (idx : list nat) (c : column) :
  cells (col_take idx c) = take_at idx value (cells c).
Proof. apply cells_col_rows. intros. apply take_at_fmap. Qed.

(** ** [sort_values] *)

Section Argsort.
Context (asc : bool).

Lemma argsort_ok (vs : list value) :
  comparable vs = true → ∃ idx, argsort asc vs = Ok idx.
Proof. intros H. unfold argsort. rewrite H. eauto. Qed.

Lemma argsort_Permutation (vs : list value) (idx : list nat) :
  argsort asc vs = Ok idx → idx ≡ₚ seq 0 (length vs).
Proof.
  unfold argsort. destruct (comparable vs); [|done]. intros [= <-].
  rewrite isort_Permutation. rewrite fst_zip; [done|].
  by rewrite length_seq.
Qed.

(** The cells of the sorted column are in order, missing cells last. *)
Lemma argsort_sorted (vs : list value) (idx : list nat) :
  argsort asc vs = Ok idx →
  StronglySorted (fun a b => row_leb asc a b = true) (take_at idx value vs).
Proof.
  unfold argsort. destruct (comparable vs); [|done]. intros [= <-].
  rewrite take_at_tagged.
  - apply (StronglySorted_fmap snd
             (fun a b : nat * value => row_leb asc a.2 b.2 = true));
      [by intros a b|].
    apply (isort_sorted (fun a b : nat * value => row_leb asc a.2 b.2)).
    + intros a b. apply row_leb_total.
    + intros a b c. apply row_leb_trans.
  - rewrite isort_Permutation. apply tagged_enumerate.
Qed.

End Argsort.

(** ** Trends *)

Lemma frame_wf_col_len (df : frame) (a b : string) (ca cb : column) :
  frame_wf df → getitem df a = Ok ca → getitem df b = Ok cb →
  col_len ca = col_len cb.
Proof.
  intros [n Hwf] Ha Hb.
  assert (H : ∀ name c, getitem df name = Ok c → col_len c = n).
  { clear Ha Hb. intros name c. induction df as [|[m c0] df IH]; [done|].
    apply Forall_cons in Hwf as [H0 Hwf]. simpl.
    destruct (String.eqb m name); [by intros [= <-] | by apply IH]. }
  by rewrite (H _ _ Ha), (H _ _ Hb).
Qed.

(** Sorting a frame of two columns by the first one. *)
Lemma sort_values_2 (asc : bool) (a b : string) (ca cb : column) :
  comparable (cells ca) = true → col_len ca = col_len cb →
  ∃ ca' cb',
    sort_values [(a, ca); (b, cb)] a asc = Ok [(a, ca'); (b, cb')]
    ∧ StronglySorted (fun v w => row_leb asc v w = true) (cells ca')
    ∧ zip (cells ca') (cells cb') ≡ₚ zip (cells ca) (cells cb).
Proof.
  intros Hcmp Hlen.
  destruct (argsort_ok asc _ Hcmp) as [idx Hidx].
  exists (col_take idx ca), (col_take idx cb).
  split; [|split].
  - unfold sort_values. simpl. rewrite String.eqb_refl. simpl.
    by rewrite Hidx.
  - rewrite cells_col_take. by apply argsort_sorted.
  - rewrite !cells_col_take, <- take_at_zip by done.
    apply take_at_Permutation.
    rewrite (argsort_Permutation _ _ _ Hidx).
    rewrite length_zip. unfold col_len in Hlen. by rewrite <- Hlen, Nat.min_id.
Qed.

Lemma crimes_by_year_sorted (df : frame) (yc cc : column) :
  frame_wf df →
  getitem df YEAR = Ok yc → getitem df CRIMES = Ok cc →
  comparable (cells yc) = true →
  ∃ yc' cc',
    crimes_by_year df = Ok (Some [(YEAR, yc'); (CRIMES, cc')])
    ∧ ascending (cells yc')
    ∧ zip (cells yc') (cells cc') ≡ₚ zip (cells yc) (cells cc).
Proof.
  intros Hwf Hy Hc Hcmp.
  destruct (sort_values_2 true YEAR CRIMES yc cc Hcmp) as (yc' & cc' & Hs & H).
  { by eapply frame_wf_col_len. }
  exists yc', cc'. split; [|exact H].
  unfold crimes_by_year, select. simpl. rewrite Hy, Hc. simpl.
  by rewrite Hs.
Qed.

Lemma get_crimes_trend_eq (s : store) (df : frame) :
  s !! "crimes" = Some (Some df) → frame_empty df = false →
  DashboardApp.get_crimes_trend s = (crimes_by_year df, s)
  ∧ DataHandler.get_crime_data s = (crimes_by_year df, s).
Proof.
  intros Hs Hne.
  unfold DashboardApp.get_crimes_trend, DataHandler.get_crime_data.
  rewrite !(bind_ok _ _ _ _ _ (dict_get_ok _ _ _ Hs)). by rewrite Hne.
Qed.

(** The environment trend: the month column and the two cleaned columns,
    cut to their last 12 rows. *)
Lemma get_environment_trend_eq (s : store) (env : frame)
    (mc c25 c10 : column) :
  s !! "environment" = Some (Some env) → frame_empty env = false →
  getitem env MONTH_YEAR = Ok mc →
  getitem env PM25 = Ok c25 → getitem env PM10 = Ok c10 →
  DashboardApp.get_environment_trend s
  = (Ok (Some [(MONTH_YEAR, col_rows (slice_last 12) mc);
               ("PM2.5", col_rows (slice_last 12) (cleaned_col c25));
               ("PM10", col_rows (slice_last 12) (cleaned_col c10))]), s).
Proof.
  intros Hs Hne Hm H25 H10.
  unfold DashboardApp.get_environment_trend.
  rewrite (bind_ok _ _ _ _ _ (dict_get_ok _ _ _ Hs)). rewrite Hne.
  unfold lift. f_equal.
  rewrite (cleaned_ok _ _ _ H25).
  cbv beta iota delta [mbind result_bind].
  rewrite (cleaned_ok _ PM10 c10)
    by (rewrite getitem_setitem_ne by (intros X; discriminate X); done).
  set (env2 := setitem (setitem env "PM2.5" (cleaned_col c25))
                 "PM10" (cleaned_col c10)).
  assert (E1 : getitem env2 MONTH_YEAR = Ok mc).
  { unfold env2. by rewrite !getitem_setitem_ne by (intros X; discriminate X). }
  assert (E2 : getitem env2 "PM2.5" = Ok (cleaned_col c25)).
  { unfold env2. rewrite getitem_setitem_ne by (intros X; discriminate X).
    apply getitem_setitem_eq. }
  assert (E3 : getitem env2 "PM10" = Ok (cleaned_col c10))
    by apply getitem_setitem_eq.
  unfold select, rmapM. by rewrite E1, E2, E3.
Qed.

(** C7, as the code has it.  The crimes trend (in [DashboardApp] and in
    [DataHandler]) is the Year and crimes columns with the rows in
    ascending order of Year, whatever the order of the rows in the table:
    for the years [2019, 2021, 2020] with counts [100, 300, 200] it is
    [(2019, 100), (2020, 200), (2021, 300)].  The environment trend is not
    sorted: it is the last 12 rows of the table, in the order of the
    table. *)
Theorem trend_order :
  (∀ (s : store) (df : frame) (yc cc : column),
     s !! "crimes" = Some (Some df) →
     frame_wf df → frame_empty df = false →
     getitem df YEAR = Ok yc → getitem df CRIMES = Ok cc →
     comparable (cells yc) = true →
     ∃ yc' cc',
       DashboardApp.get_crimes_trend s
       = (Ok (Some [(YEAR, yc'); (CRIMES, cc')]), s)
       ∧ DataHandler.get_crime_data s
         = (Ok (Some [(YEAR, yc'); (CRIMES, cc')]), s)
       ∧ ascending (cells yc')
       ∧ zip (cells yc') (cells cc') ≡ₚ zip (cells yc) (cells cc))
  ∧ (DashboardApp.get_crimes_trend (<["crimes" := Some crimes_table]> ∅)).1
    = Ok (Some [(YEAR, IntCol [2019; 2020; 2021]);
                (CRIMES, IntCol [100; 200; 300])])
  ∧ (∀ (s : store) (env : frame) (mc c25 c10 : column),
       s !! "environment" = Some (Some env) → frame_empty env = false →
       getitem env MONTH_YEAR = Ok mc →
       getitem env PM25 = Ok c25 → getitem env PM10 = Ok c10 →
       DashboardApp.get_environment_trend s
       = (Ok (Some
                [(MONTH_YEAR, col_rows (slice_last 12) mc);
                 ("PM2.5", col_rows (slice_last 12) (cleaned_col c25));
                 ("PM10", col_rows (slice_last 12) (cleaned_col c10))]), s)).
Proof.
  split; [|split; [reflexivity | exact get_environment_trend_eq]].
  intros s df yc cc Hs Hwf Hne Hy Hc Hcmp.
  destruct (crimes_by_year_sorted df yc cc) as (yc' & cc' & Hr & H); try done.
  destruct (get_crimes_trend_eq s df Hs Hne) as [H1 H2].
  exists yc', cc'. rewrite H1, H2, Hr. by split.
Qed.

Lemma trend_order_witness :
  (∃ yc' cc',
     DataHandler.get_crime_data (<["crimes" := Some crimes_table]> ∅)
     = (Ok (Some [(YEAR, yc'); (CRIMES, cc')]),
        <["crimes" := Some crimes_table]> ∅)
     ∧ ascending (cells yc'))
  ∧ (DashboardApp.get_environment_trend
       (<["environment" := Some env_example]> ∅)).1
    = Ok (Some
            [(MONTH_YEAR,
              ObjCol [VStr "Mar-2020"; VStr "Jan-2020"; VStr "Feb-2020"]);
             ("PM2.5", FloatCol [Fin 10; NaN; Fin 20]);
             ("PM10", FloatCol [Fin 40; Fin 50; Fin 60])]).
Proof.
  destruct trend_order as (H1 & _ & H3). split.
  - destruct (H1 (<["crimes" := Some crimes_table]> ∅) crimes_table
                (IntCol [2019; 2021; 2020]) (IntCol [100; 300; 200]))
      as (yc' & cc' & _ & Hr & Ha & _); try reflexivity.
    + exists 3%nat. repeat constructor.
    + by exists yc', cc'.
  - rewrite (H3 (<["environment" := Some env_example]> ∅) env_example
               (ObjCol [VStr "Mar-2020"; VStr "Jan-2020"; VStr "Feb-2020"])
               (ObjCol [VStr "10"; VStr "NA"; VStr "20"])
               (IntCol [40; 50; 60])); reflexivity.
Defined.

(** C7 as stated fails for the environment trend: the months come out in
    the order of the table, here March, January, February. *)
Lemma environment_trend_unsorted :
  (DashboardApp.get_environment_trend
     (<["environment" := Some env_example]> ∅)).1
  = Ok (Some
          [(MONTH_YEAR,
            ObjCol [VStr "Mar-2020"; VStr "Jan-2020"; VStr "Feb-2020"]);
           ("PM2.5", FloatCol [Fin 10; NaN; Fin 20]);
           ("PM10", FloatCol [Fin 40; Fin 50; Fin 60])])
  ∧ ¬ ascending [VStr "Mar-2020"; VStr "Jan-2020"; VStr "Feb-2020"].
Proof.
  split; [reflexivity|].
  intros H. apply StronglySorted_inv in H as [_ H].
  apply Forall_cons in H as [H _]. discriminate H.
Qed.

(** ** Groups *)

Section Keys.

Lemma value_leb_refl (v : value) : value_leb v v = true.
Proof. by destruct (value_leb_total v v). Qed.

Lemma key_eqb_refl (v : value) : key_eqb v v = true.
Proof. unfold key_eqb. by rewrite value_leb_refl. Qed.

Lemma key_eqb_sym (v w : value) : key_eqb v w = key_eqb w v.
Proof. unfold key_eqb. apply andb_comm. Qed.

Lemma dedup_keys_subseteq (seen : list value) (l : list (nat * value)) :
  dedup_keys seen l ⊆ l.
Proof.
  revert seen. induction l as [|k l IH]; intros seen; [done|]. simpl.
  destruct (existsb (key_eqb k.2) seen).
  - apply list_subseteq_cons, IH.
  - intros x [->|Hx]%elem_of_cons; [left|right]. by apply (IH (k.2 :: seen)).
Qed.

(** A key that is kept differs from all the keys seen before it. *)
Lemma dedup_keys_fresh (seen : list value) (l : list (nat * value)) :
  Forall (fun x => existsb (key_eqb x.2) seen = false) (dedup_keys seen l).
Proof.
  revert seen. induction l as [|k l IH]; intros seen; [constructor|]. simpl.
  destruct (existsb (key_eqb k.2) seen) eqn:E; [apply IH|].
  constructor; [done|].
  eapply Forall_impl; [apply (IH (k.2 :: seen))|].
  intros x Hx. simpl in Hx. by apply orb_false_iff in Hx as [_ ?].
Qed.

(** The keys that are kept are pairwise different. *)
Lemma dedup_keys_distinct (seen : list value) (l : list (nat * value)) :
  ForallOrdPairs (fun x y => key_eqb x.2 y.2 = false) (dedup_keys seen l).
Proof.
  revert seen. induction l as [|k l IH]; intros seen; [constructor|]. simpl.
  destruct (existsb (key_eqb k.2) seen) eqn:E; [apply IH|].
  constructor; [|apply IH].
  eapply Forall_impl; [apply (dedup_keys_fresh (k.2 :: seen))|].
  intros x Hx. simpl in Hx. apply orb_false_iff in Hx as [Hx _].
  by rewrite key_eqb_sym.
Qed.

(** Every key of the list is kept, or was seen before. *)
Lemma dedup_keys_cover (seen : list value) (l : list (nat * value))
    (x : nat * value) :
  x ∈ l →
  existsb (key_eqb x.2) seen = true
  ∨ ∃ y, y ∈ dedup_keys seen l ∧ key_eqb x.2 y.2 = true.
Proof.
  revert seen. induction l as [|k l IH]; intros seen Hx;
    [by apply elem_of_nil in Hx|].
  simpl. apply elem_of_cons in Hx as [->|Hx].
  - destruct (existsb (key_eqb k.2) seen) eqn:E; [by left|].
    right. exists k. split; [left | apply key_eqb_refl].
  - destruct (existsb (key_eqb k.2) seen) eqn:E.
    + by apply IH.
    + destruct (IH (k.2 :: seen) Hx) as [H|(y & Hy & Hxy)].
      * simpl in H. apply orb_true_iff in H as [H|H]; [|by left].
        right. exists k. split; [left | done].
      * right. exists y. split; [by right | done].
Qed.

End Keys.

Lemma ForallOrdPairs_Permutation {A} (R : A → A → Prop) (l l' : list A) :
  (∀ x y, R x y → R y x) → l ≡ₚ l' →
  ForallOrdPairs R l → ForallOrdPairs R l'.
Proof.
  intros Hsym Hp.
  induction Hp as [|x l1 l2 Hp IH|x y l1|l1 l2 l3 Hp1 IH1 Hp2 IH2];
    intros Hd.
  - constructor.
  - inversion Hd as [|? ? Hx Hl]; subst. constructor; [|by apply IH].
    by rewrite <- Hp.
  - inversion Hd as [|? ? Hy Hl]; subst.
    inversion Hl as [|? ? Hx Hl']; subst.
    apply Forall_cons in Hy as [Hyx Hy].
    constructor; [|by constructor].
    constructor; [by apply Hsym | done].
  - by apply IH2, IH1.
Qed.

Lemma ForallOrdPairs_lookup {A} (R : A → A → Prop) (l : list A)
    (i j : nat) (x y : A) :
  ForallOrdPairs R l → l !! i = Some x → l !! j = Some y → (i < j)%nat →
  R x y.
Proof.
  intros H. revert i j. induction H as [|z l Hz Hl IH]; intros i j Hi Hj Hlt;
    [done|].
  destruct i as [|i], j as [|j]; try lia; simpl in *.
  - injection Hi as <-. apply list_elem_of_lookup_2 in Hj.
    by apply (proj1 (Forall_forall _ _) Hz).
  - apply (IH i j); [done|done|lia].
Qed.

Lemma ForallOrdPairs_fmap {A B} (f : A → B) (R : B → B → Prop)
    (l : list A) :
  ForallOrdPairs (fun x y => R (f x) (f y)) l → ForallOrdPairs R (f <$> l).
Proof.
  induction 1 as [|x l Hx Hl IH]; [constructor|].
  csimpl. constructor; [|done]. by apply Forall_fmap.
Qed.

Section GroupKeys.
Context (ks : list value).

Lemma group_keys_Permutation :
  group_keys ks
  ≡ₚ dedup_keys []
       (filter (fun k : nat * value => notna k.2 = true)
          (zip (seq 0 (length ks)) ks)).
Proof. apply isort_Permutation. Qed.

Lemma group_keys_tagged :
  Forall (fun p : nat * value => ks !! p.1 = Some p.2 ∧ notna p.2 = true)
    (group_keys ks).
Proof.
  rewrite group_keys_Permutation. apply Forall_forall. intros x Hx.
  apply dedup_keys_subseteq, list_elem_of_filter in Hx as [Hna Hx].
  split; [|done].
  pose proof (tagged_enumerate ks) as H.
  by apply (proj1 (Forall_forall _ _) H).
Qed.

(** The group keys are cells of the key column that are present. *)
Lemma group_keys_present :
  Forall (fun k => k ∈ ks ∧ notna k = true) (group_keys ks).*2.
Proof.
  apply Forall_fmap. eapply Forall_impl; [apply group_keys_tagged|].
  intros [i k] [Hk Hna]. split; [|done]. by eapply list_elem_of_lookup_2.
Qed.

(** Every cell that is present is the key of a group. *)
Lemma group_keys_cover (k : value) :
  k ∈ ks → notna k = true →
  ∃ k', k' ∈ (group_keys ks).*2 ∧ key_eqb k k' = true.
Proof.
  intros [i Hi]%list_elem_of_lookup Hna.
  assert (Hin : (i, k) ∈ filter (fun k : nat * value => notna k.2 = true)
                          (zip (seq 0 (length ks)) ks)).
  { apply list_elem_of_filter. split; [done|].
    apply list_elem_of_lookup. exists i.
    rewrite lookup_zip_with, lookup_seq_lt by (by eapply lookup_lt_Some).
    simpl. by rewrite Hi. }
  destruct (dedup_keys_cover [] _ _ Hin) as [H|(y & Hy & Hxy)]; [done|].
  exists y.2. split; [|done].
  apply list_elem_of_fmap. exists y. split; [done|].
  by rewrite group_keys_Permutation.
Qed.

(** No two groups have the same key. *)
Lemma group_keys_distinct (i j : nat) (k k' : value) :
  (group_keys ks).*2 !! i = Some k → (group_keys ks).*2 !! j = Some k' →
  i ≠ j → key_eqb k k' = false.
Proof.
  intros Hi Hj Hne.
  assert (Hd : ForallOrdPairs (fun x y : value => key_eqb x y = false)
                 (group_keys ks).*2).
  { apply (ForallOrdPairs_fmap snd (fun x y => key_eqb x y = false)).
    eapply ForallOrdPairs_Permutation;
      [|symmetry; apply group_keys_Permutation|apply dedup_keys_distinct].
    intros x y H. by rewrite key_eqb_sym. }
  destruct (Nat.lt_total i j) as [Hlt|[->|Hgt]]; [| done |].
  - by apply (ForallOrdPairs_lookup _ _ i j _ _ Hd).
  - rewrite key_eqb_sym. by apply (ForallOrdPairs_lookup _ _ j i _ _ Hd).
Qed.

End GroupKeys.

(** The keys of the groups are the distinct cells of the key column that
    are present. *)
Lemma distinct_groups_spec (kc : column) :
  Forall (fun k => k ∈ cells kc ∧ notna k = true) (distinct_groups kc)
  ∧ (∀ k, k ∈ cells kc → notna k = true →
          ∃ k', k' ∈ distinct_groups kc ∧ key_eqb k k' = true)
  ∧ (∀ i j k k', distinct_groups kc !! i = Some k →
                 distinct_groups kc !! j = Some k' →
                 i ≠ j → key_eqb k k' = false).
Proof.
  split; [apply group_keys_present|].
  split; [apply group_keys_cover | apply group_keys_distinct].
Qed.

(** ** Sums by group *)

Lemma Forall2_zip {A B} (P : A → B → Prop) (l : list A) (k : list B) :
  Forall2 P l k → Forall (fun p : A * B => P p.1 p.2) (zip l k).
Proof. induction 1; constructor; done. Qed.

Lemma numeric_comparable (c : column) :
  numeric c = true → comparable (cells c) = true.
Proof.
  intros H. unfold comparable.
  assert (Hs : existsb is_str (cells c) = false).
  { destruct c as [l|l|l]; [| |done]; simpl;
      induction l; simpl; auto. }
  rewrite Hs. by rewrite andb_false_r.
Qed.

Lemma group_sum_numeric (vc : column) (groups : list (list nat)) :
  numeric vc = true →
  ∃ sums, group_sum vc groups = Ok sums
          ∧ numeric sums = true
          ∧ Forall2 (fun g v => series_sum (col_take g vc) = Ok v)
              groups (cells sums).
Proof.
  intros Hn. destruct vc as [l|l|l]; [| |done]; simpl.
  - eexists. split; [done|]. split; [done|].
    simpl. induction groups as [|g groups IH]; csimpl; constructor; done.
  - eexists. split; [done|]. split; [done|].
    simpl. induction groups as [|g groups IH]; csimpl; constructor; done.
Qed.

Lemma groupby_sum_numeric (df : frame) (by_ value_col : string)
    (kc vc : column) :
  getitem df by_ = Ok kc → getitem df value_col = Ok vc →
  by_ ≠ value_col → numeric vc = true →
  ∃ keys sums,
    groupby_sum df by_ value_col = Ok [(by_, keys); (value_col, sums)]
    ∧ numeric sums = true
    ∧ cells keys = distinct_groups kc
    ∧ length (cells keys) = length (cells sums)
    ∧ Forall (fun kv : value * value => sum_of_group kc vc kv.1 kv.2)
        (zip (cells keys) (cells sums)).
Proof.
  intros Hk Hv Hne Hn.
  destruct (group_sum_numeric vc (groups_of (cells kc)) Hn)
    as (sums & Hs & Hns & Hf).
  exists (col_take (group_keys (cells kc)).*1 kc), sums.
  assert (Hkeys : cells (col_take (group_keys (cells kc)).*1 kc)
                  = distinct_groups kc).
  { rewrite cells_col_take. apply take_at_tagged.
    eapply Forall_impl; [apply group_keys_tagged|]. by intros p [? _]. }
  assert (Hf' : Forall2 (sum_of_group kc vc) (distinct_groups kc)
                  (cells sums)).
  { unfold groups_of in Hf. apply Forall2_fmap_l in Hf.
    unfold distinct_groups. apply Forall2_fmap_l.
    eapply Forall2_impl; [exact Hf|]. by intros k v. }
  split; [|split; [done|split; [done|split]]].
  - unfold groupby_sum. rewrite Hk, Hv. simpl. rewrite Hs. simpl.
    by apply String.eqb_neq in Hne as ->.
  - rewrite Hkeys. by eapply Forall2_length.
  - rewrite Hkeys. by apply Forall2_zip.
Qed.

(** Sorting a frame of two columns by the second one. *)
Lemma sort_values_by_snd (asc : bool) (a b : string) (ca cb : column) :
  a ≠ b → comparable (cells cb) = true →
  length (cells ca) = length (cells cb) →
  ∃ ca' cb',
    sort_values [(a, ca); (b, cb)] b asc = Ok [(a, ca'); (b, cb')]
    ∧ StronglySorted (fun v w => row_leb asc v w = true) (cells cb')
    ∧ length (cells ca') = length (cells cb')
    ∧ zip (cells ca') (cells cb') ≡ₚ zip (cells ca) (cells cb).
Proof.
  intros Hne Hcmp Hlen.
  destruct (argsort_ok asc _ Hcmp) as [idx Hidx].
  pose proof (argsort_Permutation _ _ _ Hidx) as Hp.
  exists (col_take idx ca), (col_take idx cb).
  split; [|split; [|split]].
  - unfold sort_values. simpl.
    apply String.eqb_neq in Hne as ->. rewrite String.eqb_refl. simpl.
    by rewrite Hidx.
  - rewrite cells_col_take. by apply argsort_sorted.
  - rewrite !cells_col_take, !take_at_length; [done|done|by rewrite Hlen].
  - rewrite !cells_col_take, <- take_at_zip by done.
    apply take_at_Permutation. rewrite Hp.
    rewrite length_zip. by rewrite Hlen, Nat.min_id.
Qed.

Lemma sorted_groups_spec (df : frame) (by_ value_col name : string)
    (kc vc : column) :
  getitem df by_ = Ok kc → getitem df value_col = Ok vc →
  by_ ≠ value_col → numeric vc = true → name ≠ "Value" →
  ∃ keys vals,
    sorted_groups df by_ value_col [name; "Value"]
    = Ok [(name, keys); ("Value", vals)]
    ∧ summary_of kc vc (cells keys) (cells vals).
Proof.
  intros Hk Hv Hne Hn Hname.
  destruct (groupby_sum_numeric df by_ value_col kc vc)
    as (keys & sums & Hg & Hns & Hkeys & Hlen & Hsum); try done.
  destruct (sort_values_by_snd false name "Value" keys sums)
    as (keys' & vals' & Hsort & Hdesc & Hlen' & Hperm); try done.
  { by apply numeric_comparable. }
  exists keys', vals'. split.
  { unfold sorted_groups. rewrite Hg. simpl. exact Hsort. }
  split; [exact Hdesc|]. split; [|split; [exact Hlen'|]].
  - rewrite <- Hkeys.
    rewrite <- (fst_zip (cells keys') (cells vals')) by (by rewrite Hlen').
    rewrite <- (fst_zip (cells keys) (cells sums)) by (by rewrite Hlen).
    by rewrite Hperm.
  - by rewrite Hperm.
Qed.

(** The grouping queries, through their common body. *)
Lemma get_zone_summary_eq (df : frame) (value_col : string) :
  frame_empty df = false →
  DataProcessor.get_zone_summary (Some df) value_col
  = try_except
      (r ← sorted_groups df ZONE value_col [ZONE; "Value"]; Ok (Some r))
      (Ok None).
Proof.
  intros Hne. unfold DataProcessor.get_zone_summary, sorted_groups.
  rewrite Hne. destruct (groupby_sum df ZONE value_col) as [r|]; [|done].
  simpl. destruct (set_columns r [ZONE; "Value"]) as [r'|]; [|done].
  simpl. by destruct (sort_values r' "Value" false).
Qed.

Lemma get_ward_summary_eq (df : frame) (value_col : string) (top_n : Z) :
  frame_empty df = false →
  DataProcessor.get_ward_summary (Some df) value_col top_n
  = try_except
      (r ← sorted_groups df WARD value_col [WARD; "Value"];
       Ok (Some (df_head top_n r)))
      (Ok None).
Proof.
  intros Hne. unfold DataProcessor.get_ward_summary, sorted_groups.
  rewrite Hne. destruct (groupby_sum df WARD value_col) as [r|]; [|done].
  simpl. destruct (set_columns r [WARD; "Value"]) as [r'|]; [|done].
  simpl. by destruct (sort_values r' "Value" false).
Qed.

Lemma get_zone_data_eq (s : store) (dataset value_col : string)
    (df : frame) :
  s !! dataset = Some (Some df) → frame_empty df = false →
  has_column df ZONE = true →
  DataHandler.get_zone_data dataset value_col s
  = (try_except
       (r ← sorted_groups df ZONE value_col ["Zone"; "Value"]; Ok (Some r))
       (Ok None), s).
Proof.
  intros Hs Hne Hz. unfold DataHandler.get_zone_data.
  rewrite (bind_ok _ _ _ _ _ (dict_get_ok _ _ _ Hs)).
  rewrite Hne, Hz. simpl. unfold lift, sorted_groups. f_equal.
  destruct (groupby_sum df ZONE value_col) as [r|]; [|done].
  simpl. destruct (set_columns r ["Zone"; "Value"]) as [r'|]; [|done].
  simpl. by destruct (sort_values r' "Value" false).
Qed.

Lemma slice_to_fmap (n : Z) (A B : Type) (g : A → B) (l : list A) :
  slice_to n B (g <$> l) = g <$> slice_to n A l.
Proof.
  unfold slice_to. rewrite length_fmap.
  destruct (0 <=? n)%Z; by rewrite fmap_take.
Qed.

Lemma cells_slice_to (n : Z) (c : column) :
  (0 ≤ n)%Z →
  cells (col_rows (slice_to n) c) = take (Z.to_nat n) (cells c).
Proof.
  intros Hn. rewrite cells_col_rows by (intros; apply slice_to_fmap).
  unfold slice_to. by apply Z.leb_le in Hn as ->.
Qed.

(** In a list in descending order, what comes first is at least as large
    as what comes after. *)
Lemma descending_take_drop (n : nat) (l : list value) (v w : value) :
  descending l → v ∈ take n l → w ∈ drop n l → row_leb false v w = true.
Proof.
  intros Hd Hv Hw. unfold descending in Hd.
  rewrite <- (take_drop n l) in Hd.
  by apply (StronglySorted_app_1_elem_of _ _ _ _ _ Hd).
Qed.

(** ** The groups and their sums, compared with the rows *)

Section SameKey.

Lemma Qle_bool_antisym (p q : Q) :
  Qle_bool p q && Qle_bool q p = Qeq_bool q p.
Proof.
  apply eq_true_iff_eq.
  rewrite andb_true_iff, !Qle_bool_iff, Qeq_bool_iff. split.
  - intros [H1 H2]. by apply Qle_antisym.
  - intros H. rewrite H. split; apply Qle_refl.
Qed.

Lemma float_leb_antisym (x y : float) :
  Float.leb x y && Float.leb y x = Float.eqb y x.
Proof.
  destruct x as [p| |[]], y as [q| |[]]; simpl; try done.
  apply Qle_bool_antisym.
Qed.

Lemma string_leb_antisym (s t : string) :
  String.leb s t && String.leb t s = String.eqb t s.
Proof.
  unfold String.leb. rewrite (String.compare_antisym s t).
  destruct (String.compare t s) eqn:E; simpl.
  - apply String.compare_eq_iff in E as ->. by rewrite String.eqb_refl.
  - symmetry. apply String.eqb_neq. intros ->.
    pose proof (String.compare_antisym s s) as H. rewrite E in H.
    discriminate H.
  - symmetry. apply String.eqb_neq. intros ->.
    pose proof (String.compare_antisym s s) as H. rewrite E in H.
    discriminate H.
Qed.

(** The key of a group is the key of a row exactly when the two cells
    are equal ([==]). *)
Lemma key_eqb_py_eq (k x : value) :
  notna k = true → key_eqb k x = py_eq x k.
Proof.
  intros Hk. unfold key_eqb, value_leb.
  destruct k as [|a|[p| |n]|s]; try done;
    destruct x as [|b|[q| |m]|t]; try done;
    cbn [sort_key py_eq as_float Float.of_Z].
  - rewrite float_leb_antisym. unfold Float.of_Z. simpl.
    apply eq_true_iff_eq.
    rewrite Qeq_bool_iff, Z.eqb_eq. unfold Qeq. simpl. lia.
  - apply float_leb_antisym.
  - apply float_leb_antisym.
  - apply float_leb_antisym.
  - apply float_leb_antisym.
  - apply float_leb_antisym.
  - apply float_leb_antisym.
  - apply float_leb_antisym.
  - apply float_leb_antisym.
  - apply string_leb_antisym.
Qed.

Lemma py_eq_sym_present (k k' : value) :
  notna k = true → notna k' = true → py_eq k k' = py_eq k' k.
Proof.
  intros Hk Hk'.
  by rewrite <- (key_eqb_py_eq k' k), <- (key_eqb_py_eq k k'), key_eqb_sym.
Qed.

End SameKey.

Section RowsOfKey.
Context {A : Type} (p : value → bool).

Lemma positions_from_ge (i : nat) (ks : list value) :
  Forall (fun j => (i ≤ j)%nat) (positions_from p i ks).
Proof.
  revert i. induction ks as [|k ks IH]; intros i; [constructor|]. simpl.
  assert (H : Forall (fun j => (i ≤ j)%nat) (positions_from p (S i) ks)).
  { eapply Forall_impl; [apply IH|]. intros j Hj. simpl in Hj. lia. }
  destruct (p k); [constructor|]; done.
Qed.

Lemma take_at_beyond (idx : list nat) (l : list A) :
  Forall (fun j => (length l ≤ j)%nat) idx → take_at idx A l = [].
Proof.
  unfold take_at. induction 1 as [|j idx Hj _ IH]; [done|]. simpl.
  by rewrite (lookup_ge_None_2 l j Hj).
Qed.

(** The rows at the positions of the keys that satisfy [p] are the rows
    next to these keys. *)
Lemma take_at_positions_from (ks : list value) (pre l : list A) :
  take_at (positions_from p (length pre) ks) A (pre ++ l)
  = rows_where p ks A l.
Proof.
  revert pre l. induction ks as [|k ks IH]; intros pre l; [done|].
  destruct l as [|a l].
  - rewrite app_nil_r. transitivity (@nil A); [|reflexivity].
    apply take_at_beyond, positions_from_ge.
  - assert (Hrest : take_at (positions_from p (S (length pre)) ks) A
                      (pre ++ a :: l)
                    = rows_where p ks A l).
    { rewrite <- (IH (pre ++ [a]) l).
      by rewrite length_app, Nat.add_1_r, <- app_assoc. }
    unfold rows_where. cbn [positions_from zip zip_with].
    rewrite filter_cons. cbn [fst]. destruct (p k) eqn:E.
    + rewrite decide_True by done. unfold take_at in *.
      cbn [omap list_omap].
      rewrite list_lookup_middle by done. cbn [fmap list_fmap snd].
      f_equal. exact Hrest.
    + rewrite decide_False by (by intros H). exact Hrest.
Qed.

End RowsOfKey.

(** The rows that [groupby] gives to the group of a key are the rows
    whose key equals it. *)
Lemma col_take_rows_of_key (kc vc : column) (k : value) :
  notna k = true →
  col_take (rows_of_key (cells kc) k) vc = group_rows kc vc k.
Proof.
  intros Hk.
  assert (H : ∀ (A : Type) (l : list A),
            take_at (rows_of_key (cells kc) k) A l
            = rows_where (fun k' => py_eq k' k) (cells kc) A l).
  { intros A l. unfold rows_of_key.
    transitivity (rows_where (key_eqb k) (cells kc) A l);
      [exact (take_at_positions_from (key_eqb k) (cells kc) [] l)|].
    unfold rows_where. f_equal. apply list_filter_iff.
    intros [k' a]. simpl. by rewrite key_eqb_py_eq. }
  unfold col_take, group_rows. destruct vc as [l|l|l]; simpl; by rewrite H.
Qed.

(** The keys of the groups, in any order, are the distinct groups of
    the key column. *)
Lemma distinct_groups_of_column (kc : column) (keys : list value) :
  keys ≡ₚ distinct_groups kc → groups_of_column kc keys.
Proof.
  intros Hp.
  destruct (distinct_groups_spec kc) as (Hpres & Hcover & _).
  assert (Hpres' : Forall (fun k => k ∈ cells kc ∧ notna k = true) keys)
    by (by rewrite Hp).
  split; [done|]. split.
  - intros k Hk Hna. destruct (Hcover k Hk Hna) as (k' & Hk' & He).
    exists k'. split; [by rewrite Hp|].
    rewrite <- (key_eqb_py_eq k' k), key_eqb_sym; [done|].
    rewrite Forall_forall in Hpres. by apply Hpres.
  - assert (Hd : ForallOrdPairs (fun x y : value => key_eqb x y = false)
                   keys).
    { eapply ForallOrdPairs_Permutation; [|symmetry; exact Hp|].
      - intros x y H. by rewrite key_eqb_sym.
      - apply (ForallOrdPairs_fmap snd (fun x y => key_eqb x y = false)).
        eapply ForallOrdPairs_Permutation;
          [|symmetry; apply group_keys_Permutation|apply dedup_keys_distinct].
        intros x y H. by rewrite key_eqb_sym. }
    intros i j k k' Hi Hj Hne.
    assert (Hk : notna k = true).
    { rewrite Forall_forall in Hpres'.
      by apply Hpres', (list_elem_of_lookup_2 _ i). }
    assert (Hk' : notna k' = true).
    { rewrite Forall_forall in Hpres'.
      by apply Hpres', (list_elem_of_lookup_2 _ j). }
    rewrite <- (key_eqb_py_eq k' k) by done.
    destruct (Nat.lt_total i j) as [Hlt|[->|Hgt]]; [| done |].
    + rewrite key_eqb_sym. by apply (ForallOrdPairs_lookup _ _ i j _ _ Hd).
    + by apply (ForallOrdPairs_lookup _ _ j i _ _ Hd).
Qed.

(** A summary by group holds the (group key, summed value) pairs of the
    table. *)
Lemma summary_of_grouped (kc vc : column) (keys vals : list value) :
  summary_of kc vc keys vals → grouped_sums kc vc keys vals.
Proof.
  intros (_ & Hp & Hlen & Hsum).
  pose proof (distinct_groups_of_column kc keys Hp) as Hg.
  split; [done|]. split; [done|].
  destruct Hg as (Hpres & _). rewrite Forall_forall in Hpres.
  apply Forall_forall. intros [k v] Hkv.
  rewrite Forall_forall in Hsum. specialize (Hsum _ Hkv).
  unfold sum_of_group in Hsum. simpl in *.
  rewrite <- col_take_rows_of_key; [done|].
  apply elem_of_zip_l in Hkv. by apply Hpres.
Qed.

(** C6.  On a table that is not empty and has the grouping column and a
    numeric value column (not the grouping column itself),
    [get_zone_summary] returns one row (key, sum of the group) for each
    distinct group, the rows in descending order of the sums;
    [get_ward_summary] with [top_n = k >= 0] returns the first [k] rows of
    that sorted table: [min(k, number of distinct groups)] rows, each of
    which is at least as large as every row left out.  The groups and
    their sums are those of the rows themselves ([grouped_sums]): the
    keys are cells of the grouping column that are present, every present
    cell equals ([==]) one of them, no two of them are equal, and next to
    each key is the sum of the value column over the rows whose key
    equals it. *)
Theorem group_summary_sorted (df : frame) (value_col : string) (vc : column) :
  frame_empty df = false →
  getitem df value_col = Ok vc → numeric vc = true →
  (∀ kc, getitem df ZONE = Ok kc → value_col ≠ ZONE →
     ∃ keys vals,
       DataProcessor.get_zone_summary (Some df) value_col
       = Ok (Some [(ZONE, keys); ("Value", vals)])
       ∧ summary_of kc vc (cells keys) (cells vals)
       ∧ length (cells vals) = length (distinct_groups kc)
       ∧ grouped_sums kc vc (cells keys) (cells vals))
  ∧ (∀ kc top_n, getitem df WARD = Ok kc → value_col ≠ WARD →
       (0 ≤ top_n)%Z →
       ∃ keys vals top_keys top_vals,
         summary_of kc vc keys vals
         ∧ DataProcessor.get_ward_summary (Some df) value_col top_n
           = Ok (Some [(WARD, top_keys); ("Value", top_vals)])
         ∧ cells top_keys = take (Z.to_nat top_n) keys
         ∧ cells top_vals = take (Z.to_nat top_n) vals
         ∧ length (cells top_vals)
           = Nat.min (Z.to_nat top_n) (length (distinct_groups kc))
         ∧ (∀ v w, v ∈ cells top_vals → w ∈ drop (Z.to_nat top_n) vals →
                   row_leb false v w = true)
         ∧ grouped_sums kc vc keys vals
         ∧ length (cells top_vals)
           = Nat.min (Z.to_nat top_n) (length keys)).
Proof.
  intros Hne Hv Hn. split.
  - intros kc Hk Hvz.
    destruct (sorted_groups_spec df ZONE value_col ZONE kc vc)
      as (keys & vals & Hs & Hsum); try done.
    exists keys, vals. split; [|split; [done|split]].
    + rewrite get_zone_summary_eq by done. by rewrite Hs.
    + destruct Hsum as (_ & Hp & Hl & _). by rewrite <- Hl, Hp.
    + by apply summary_of_grouped.
  - intros kc top_n Hk Hvw Hk0.
    destruct (sorted_groups_spec df WARD value_col WARD kc vc)
      as (keys & vals & Hs & Hsum); try done.
    exists (cells keys), (cells vals),
      (col_rows (slice_to top_n) keys), (col_rows (slice_to top_n) vals).
    split; [done|].
    split; [|split; [|split; [|split; [|split; [|split]]]]].
    + rewrite get_ward_summary_eq by done. by rewrite Hs.
    + by apply cells_slice_to.
    + by apply cells_slice_to.
    + rewrite cells_slice_to, length_take by done.
      destruct Hsum as (_ & Hp & Hl & _). by rewrite <- Hl, Hp.
    + intros v w Hvin Hw. rewrite cells_slice_to in Hvin by done.
      destruct Hsum as (Hd & _). by eapply descending_take_drop.
    + by apply summary_of_grouped.
    + rewrite cells_slice_to, length_take by done.
      destruct Hsum as (_ & _ & Hl & _). by rewrite Hl.
Qed.

Lemma group_summary_sorted_witness :
  DataProcessor.get_zone_summary (Some water_example) HOUSEHOLDS
  = Ok (Some [(ZONE, ObjCol [VStr "A"; VStr "C"; VStr "B"]);
              ("Value", IntCol [50; 35; 30])])
  ∧ grouped_sums
      (ObjCol [VStr "B"; VStr "A"; VStr "B"; VFloat NaN; VStr "C"])
      (IntCol [10; 50; 20; 1000; 35])
      [VStr "A"; VStr "C"; VStr "B"] [VInt 50; VInt 35; VInt 30]
  ∧ DataProcessor.get_ward_summary (Some water_example) HOUSEHOLDS 2
    = Ok (Some [(WARD, ObjCol [VStr "w4"; VStr "w2"]);
                ("Value", IntCol [1000; 50])])
  ∧ (∃ keys vals,
       grouped_sums
         (ObjCol [VStr "w1"; VStr "w2"; VStr "w3"; VStr "w4"; VStr "w5"])
         (IntCol [10; 50; 20; 1000; 35]) keys vals
       ∧ descending vals
       ∧ take 2 keys = [VStr "w4"; VStr "w2"]
       ∧ take 2 vals = [VInt 1000; VInt 50])
  ∧ DataProcessor.get_zone_summary (Some readings_example) "Reading"
    = Ok (Some [(ZONE, ObjCol [VStr "A"; VStr "B"]);
                ("Value", FloatCol [Fin 4; Fin 0])])
  ∧ grouped_sums
      (ObjCol [VStr "A"; VStr "B"; VStr "A"; VStr "B"])
      (FloatCol [Fin (3 # 2); NaN; Fin (5 # 2); NaN])
      [VStr "A"; VStr "B"] [VFloat (Fin 4); VFloat (Fin 0)].
Proof.
  destruct (group_summary_sorted water_example HOUSEHOLDS
              (IntCol [10; 50; 20; 1000; 35])) as [H1 H2];
    try reflexivity.
  destruct (H1 (ObjCol [VStr "B"; VStr "A"; VStr "B"; VFloat NaN;
                        VStr "C"]))
    as (keys & vals & Hr & _ & _ & Hg); [reflexivity | discriminate |].
  destruct (H2 (ObjCol [VStr "w1"; VStr "w2"; VStr "w3"; VStr "w4";
                        VStr "w5"]) 2)
    as (wkeys & wvals & tk & tv & (Hd & _) & Hr' & Htk & Htv & _ & _
        & Hg' & _);
    [reflexivity | discriminate | lia |].
  destruct (group_summary_sorted readings_example "Reading"
              (FloatCol [Fin (3 # 2); NaN; Fin (5 # 2); NaN])) as [H3 _];
    try reflexivity.
  destruct (H3 (ObjCol [VStr "A"; VStr "B"; VStr "A"; VStr "B"]))
    as (fkeys & fvals & Hr'' & _ & _ & Hg''); [reflexivity | discriminate |].
  assert (E : DataProcessor.get_zone_summary (Some water_example) HOUSEHOLDS
              = Ok (Some [(ZONE, ObjCol [VStr "A"; VStr "C"; VStr "B"]);
                          ("Value", IntCol [50; 35; 30])]))
    by reflexivity.
  assert (E' : DataProcessor.get_ward_summary (Some water_example)
                 HOUSEHOLDS 2
               = Ok (Some [(WARD, ObjCol [VStr "w4"; VStr "w2"]);
                           ("Value", IntCol [1000; 50])]))
    by reflexivity.
  assert (E'' : DataProcessor.get_zone_summary (Some readings_example)
                  "Reading"
                = Ok (Some [(ZONE, ObjCol [VStr "A"; VStr "B"]);
                            ("Value", FloatCol [Fin 4; Fin 0])]))
    by reflexivity.
  rewrite E in Hr. injection Hr as <- <-.
  rewrite E' in Hr'. injection Hr' as <- <-.
  rewrite E'' in Hr''. injection Hr'' as <- <-.
  split; [exact E|]. split; [exact Hg|]. split; [exact E'|].
  split.
  { exists wkeys, wvals. split; [exact Hg'|]. split; [exact Hd|].
    split; [symmetry; exact Htk | symmetry; exact Htv]. }
  split; [exact E''|]. exact Hg''.
Defined.

(** The two summaries of the example table: the ward without a zone is in
    no group, and the two largest wards are kept. *)
Example group_summary_example :
  DataProcessor.get_zone_summary (Some water_example) HOUSEHOLDS
  = Ok (Some [(ZONE, ObjCol [VStr "A"; VStr "C"; VStr "B"]);
              ("Value", IntCol [50; 35; 30])])
  ∧ DataProcessor.get_ward_summary (Some water_example) HOUSEHOLDS 2
    = Ok (Some [(WARD, ObjCol [VStr "w4"; VStr "w2"]);
                ("Value", IntCol [1000; 50])]).
Proof. split; reflexivity. Qed.

(** ** Queries on a dataset that is absent, empty or short of a column *)

Lemma no_data_query {A} (s : store) (key : string) (a : A)
    (k : frame → M A) :
  no_data s key →
  (v ← dict_get key;
   match v with
   | None => mret a
   | Some df => if frame_empty df then mret a else k df
   end) s = (Ok a, s).
Proof.
  intros [Hs|(df & Hs & He)];
    rewrite (bind_ok _ _ _ _ _ (dict_get_ok _ _ _ Hs)); [done|].
  by rewrite He.
Qed.

Lemma no_data_zone_data (s : store) (dataset value_col : string) :
  no_data s dataset →
  DataHandler.get_zone_data dataset value_col s = (Ok None, s).
Proof.
  intros [Hs|(df & Hs & He)]; unfold DataHandler.get_zone_data;
    rewrite (bind_ok _ _ _ _ _ (dict_get_ok _ _ _ Hs)); [done|].
  by rewrite He.
Qed.

(** Every query method returns its sentinel, and leaves the tables alone,
    when its dataset is absent or empty. *)
Lemma no_data_sentinel (s : store) :
  (no_data s "water_sanitation" →
   DashboardApp.get_water_sanitation_stats s = (Ok ∅, s)
   ∧ DashboardApp.get_water_by_zone s = (Ok None, s)
   ∧ DashboardApp.get_water_by_ward s = (Ok None, s))
  ∧ (no_data s "environment" →
     DashboardApp.get_environment_stats s = (Ok ∅, s)
     ∧ DashboardApp.get_environment_trend s = (Ok None, s)
     ∧ DataHandler.get_environment_stats s = (Ok ∅, s))
  ∧ (no_data s "crimes" →
     DashboardApp.get_crimes_trend s = (Ok None, s)
     ∧ DataHandler.get_crime_data s = (Ok None, s))
  ∧ (no_data s "intersections" →
     DashboardApp.get_intersections_summary s = (Ok ∅, s)
     ∧ DashboardApp.get_intersections_by_zone s = (Ok None, s))
  ∧ (no_data s "employment" →
     DashboardApp.get_employment_stats s = (Ok ∅, s)
     ∧ DataHandler.get_employment_stats s = (Ok ∅, s))
  ∧ (no_data s "water" → DataHandler.get_water_stats s = (Ok ∅, s))
  ∧ (no_data s "infrastructure" →
     DataHandler.get_infrastructure_stats s = (Ok ∅, s))
  ∧ (∀ dataset value_col, no_data s dataset →
       DataHandler.get_zone_data dataset value_col s = (Ok None, s)).
Proof.
  repeat split; try (by apply no_data_query).
  intros dataset value_col. apply no_data_zone_data.
Qed.

(** The static grouping functions on no table or an empty one. *)
Lemma no_data_summary (value_col : string) (top_n : Z) :
  DataProcessor.get_zone_summary None value_col = Ok None
  ∧ DataProcessor.get_ward_summary None value_col top_n = Ok None
  ∧ ∀ df, frame_empty df = true →
      DataProcessor.get_zone_summary (Some df) value_col = Ok None
      ∧ DataProcessor.get_ward_summary (Some df) value_col top_n = Ok None.
Proof.
  repeat split; try done;
    unfold DataProcessor.get_zone_summary, DataProcessor.get_ward_summary;
    by rewrite H.
Qed.

(** *** Grouping queries swallow every exception *)

Lemma try_except_total {A} (body : result A) (a : A) :
  ∃ r, try_except body (Ok a) = Ok r.
Proof. destruct body; simpl; eauto. Qed.

Lemma try_except_raise {A} (body : result A) (a : A) (e : exn) :
  body = Raise e → try_except body (Ok a) = Ok a.
Proof. by intros ->. Qed.

Lemma get_zone_summary_total (df : option frame) (value_col : string) :
  ∃ r, DataProcessor.get_zone_summary df value_col = Ok r.
Proof.
  unfold DataProcessor.get_zone_summary. destruct df as [df|]; [|eauto].
  destruct (frame_empty df); [eauto|]. apply try_except_total.
Qed.

Lemma get_ward_summary_total (df : option frame) (value_col : string)
    (top_n : Z) :
  ∃ r, DataProcessor.get_ward_summary df value_col top_n = Ok r.
Proof.
  unfold DataProcessor.get_ward_summary. destruct df as [df|]; [|eauto].
  destruct (frame_empty df); [eauto|]. apply try_except_total.
Qed.

Lemma groupby_sum_missing (df : frame) (by_ value_col : string) :
  has_column df by_ = false ∨ has_column df value_col = false →
  groupby_sum df by_ value_col = Raise KeyError.
Proof.
  intros H. unfold groupby_sum.
  destruct (has_column df by_) eqn:Hb.
  - destruct H as [H|H]; [done|].
    apply has_column_getitem in Hb as [kc ->]. simpl.
    by rewrite (has_column_false _ _ H).
  - by rewrite (has_column_false _ _ Hb).
Qed.

Lemma sorted_groups_missing (df : frame) (by_ value_col : string)
    (names : list string) :
  has_column df by_ = false ∨ has_column df value_col = false →
  sorted_groups df by_ value_col names = Raise KeyError.
Proof.
  intros H. unfold sorted_groups. by rewrite groupby_sum_missing.
Qed.

(** A grouping query without its group column or its value column. *)
Lemma summary_missing_column (df : frame) (value_col : string) (top_n : Z) :
  (has_column df ZONE = false ∨ has_column df value_col = false →
   DataProcessor.get_zone_summary (Some df) value_col = Ok None)
  ∧ (has_column df WARD = false ∨ has_column df value_col = false →
     DataProcessor.get_ward_summary (Some df) value_col top_n = Ok None).
Proof.
  split; intros H.
  - destruct (frame_empty df) eqn:He.
    + unfold DataProcessor.get_zone_summary. by rewrite He.
    + rewrite get_zone_summary_eq by done.
      by rewrite sorted_groups_missing.
  - destruct (frame_empty df) eqn:He.
    + unfold DataProcessor.get_ward_summary. by rewrite He.
    + rewrite get_ward_summary_eq by done.
      by rewrite sorted_groups_missing.
Qed.

(** The grouping methods of the two classes: whatever the table under
    their key, they return, and leave the tables alone. *)
Lemma grouping_total (s : store) :
  (∀ v, s !! "water_sanitation" = Some v →
     (∃ r, DashboardApp.get_water_by_zone s = (Ok r, s))
     ∧ ∃ r, DashboardApp.get_water_by_ward s = (Ok r, s))
  ∧ (∀ v, s !! "intersections" = Some v →
       ∃ r, DashboardApp.get_intersections_by_zone s = (Ok r, s))
  ∧ (∀ dataset value_col v, s !! dataset = Some v →
       ∃ r, DataHandler.get_zone_data dataset value_col s = (Ok r, s)).
Proof.
  split; [|split].
  - intros v Hs. split.
    + unfold DashboardApp.get_water_by_zone.
      rewrite (bind_ok _ _ _ _ _ (dict_get_ok _ _ _ Hs)).
      destruct v as [df|]; [|by eexists].
      destruct (frame_empty df) eqn:He; [by eexists|].
      unfold lift.
      destruct (get_zone_summary_total (Some df) HOUSEHOLDS) as [r ->].
      by eexists.
    + unfold DashboardApp.get_water_by_ward.
      rewrite (bind_ok _ _ _ _ _ (dict_get_ok _ _ _ Hs)).
      destruct v as [df|]; [|by eexists].
      destruct (frame_empty df) eqn:He; [by eexists|].
      unfold lift.
      destruct (get_ward_summary_total (Some df) PUBLIC_TOILETS 15)
        as [r ->].
      by eexists.
  - intros v Hs. unfold DashboardApp.get_intersections_by_zone.
    rewrite (bind_ok _ _ _ _ _ (dict_get_ok _ _ _ Hs)).
    destruct v as [df|]; [|by eexists].
    destruct (frame_empty df) eqn:He; [by eexists|].
    unfold lift.
    destruct (get_zone_summary_total (Some df) JUNCTIONS) as [r ->].
    by eexists.
  - intros dataset value_col v Hs. unfold DataHandler.get_zone_data.
    rewrite (bind_ok _ _ _ _ _ (dict_get_ok _ _ _ Hs)).
    destruct v as [df|]; [|by eexists].
    destruct (frame_empty df || negb (has_column df ZONE)); [by eexists|].
    unfold lift.
    match goal with
    | |- ∃ r, (try_except ?b _, _) = _ =>
        destruct (try_except_total b None) as [r ->]
    end.
    by eexists.
Qed.

(** [get_zone_data] without its group column or its value column. *)
Lemma get_zone_data_missing_column (s : store) (dataset value_col : string)
    (df : frame) :
  s !! dataset = Some (Some df) →
  has_column df ZONE = false ∨ has_column df value_col = false →
  DataHandler.get_zone_data dataset value_col s = (Ok None, s).
Proof.
  intros Hs H. destruct (frame_empty df) eqn:He.
  { apply no_data_zone_data. right. eauto. }
  destruct (has_column df ZONE) eqn:Hz.
  - destruct H as [H|H]; [done|].
    rewrite (get_zone_data_eq _ _ _ _ Hs He Hz).
    by rewrite sorted_groups_missing by (by right).
  - unfold DataHandler.get_zone_data.
    rewrite (bind_ok _ _ _ _ _ (dict_get_ok _ _ _ Hs)).
    by rewrite He, Hz.
Qed.

(** *** Summaries and trends do not *)

Lemma int_sum_missing (df : frame) (c : string) :
  has_column df c = false → int_sum df c = Raise KeyError.
Proof. intros H. unfold int_sum. by rewrite (has_column_false _ _ H). Qed.

Lemma row0_missing (df : frame) (c : string) :
  has_column df c = false → row0 df c = Raise KeyError.
Proof. intros H. unfold row0. by rewrite (has_column_false _ _ H). Qed.

Lemma cleaned_missing (df : frame) (c : string) :
  has_column df c = false → DashboardApp.cleaned df c = Raise KeyError.
Proof.
  intros H. unfold DashboardApp.cleaned. by rewrite (has_column_false _ _ H).
Qed.

Lemma cleaned_mean_missing (df : frame) (c : string) :
  has_column df c = false → DataHandler.cleaned_mean df c = Raise KeyError.
Proof.
  intros H. unfold DataHandler.cleaned_mean.
  by rewrite (has_column_false _ _ H).
Qed.

Lemma getitem_raise (df : frame) (name : string) (e : exn) :
  getitem df name = Raise e → e = KeyError.
Proof.
  induction df as [|[n c] df IH]; simpl; [by intros [= <-]|].
  destruct (String.eqb n name); [done | exact IH].
Qed.

Lemma select_missing (df : frame) (names : list string) (c : string) :
  c ∈ names → has_column df c = false → select df names = Raise KeyError.
Proof.
  intros Hc H. unfold select. induction names as [|n names IH];
    [by apply elem_of_nil in Hc|].
  simpl. apply elem_of_cons in Hc as [<- | Hc].
  - by rewrite (has_column_false _ _ H).
  - destruct (getitem df n) as [col|e] eqn:E.
    + simpl. by rewrite IH.
    + by rewrite (getitem_raise _ _ _ E).
Qed.

Lemma crimes_by_year_missing (df : frame) (c : string) :
  c ∈ [YEAR; CRIMES] → has_column df c = false →
  crimes_by_year df = Raise KeyError.
Proof.
  intros Hc H. unfold crimes_by_year. by rewrite (select_missing _ _ c).
Qed.

Ltac split_columns H :=
  repeat (apply elem_of_cons in H as [-> | H]);
  [..|by apply elem_of_nil in H].

Ltac run_result :=
  cbv beta iota delta [mbind result_bind];
  repeat (match goal with
          | |- context [int_sum ?d ?c] => destruct (int_sum d c) as [?|?]
          | |- context [row0 ?d ?c] => destruct (row0 d c) as [?|?]
          | |- context [py_int ?v] => destruct (py_int v) as [?|?]
          | |- context [DataHandler.cleaned_mean ?d ?c] =>
              destruct (DataHandler.cleaned_mean d c) as [?|?]
          | |- context [DataProcessor.get_zone_summary ?d ?c] =>
              destruct (DataProcessor.get_zone_summary d c) as [?|?]
          end; cbv beta iota delta [mbind result_bind]);
  eauto.

Section MissingColumn.
Context (s : store) (df : frame) (c : string).
Context (Hne : frame_empty df = false) (Hc : has_column df c = false).

Lemma water_stats_missing :
  s !! "water_sanitation" = Some (Some df) →
  c ∈ [HOUSEHOLDS; SEWERAGE; TOILETS; PUBLIC_TOILETS;
       FREE_F; FREE_M; PAID_F; PAID_M] →
  raises DashboardApp.get_water_sanitation_stats s.
Proof.
  intros Hs Hin. unfold raises, DashboardApp.get_water_sanitation_stats.
  rewrite (bind_ok _ _ _ _ _ (dict_get_ok _ _ _ Hs)). rewrite Hne.
  unfold lift.
  split_columns Hin; rewrite (int_sum_missing _ _ Hc); run_result.
Qed.

Lemma intersections_summary_missing :
  s !! "intersections" = Some (Some df) →
  c ∈ [JUNCTIONS; SIGNALIZED] →
  raises DashboardApp.get_intersections_summary s.
Proof.
  intros Hs Hin. unfold raises, DashboardApp.get_intersections_summary.
  rewrite (bind_ok _ _ _ _ _ (dict_get_ok _ _ _ Hs)). rewrite Hne.
  unfold lift.
  split_columns Hin; rewrite (int_sum_missing _ _ Hc); run_result.
Qed.

Lemma employment_stats_missing :
  s !! "employment" = Some (Some df) →
  c ∈ [UNEMPLOYED; EMPLOYED; LABOUR_FORCE] →
  raises DashboardApp.get_employment_stats s
  ∧ raises DataHandler.get_employment_stats s.
Proof.
  intros Hs Hin.
  unfold raises, DashboardApp.get_employment_stats,
    DataHandler.get_employment_stats.
  rewrite !(bind_ok _ _ _ _ _ (dict_get_ok _ _ _ Hs)). rewrite Hne.
  unfold lift.
  split; split_columns Hin; rewrite (row0_missing _ _ Hc); run_result.
Qed.

Lemma crimes_trend_missing :
  s !! "crimes" = Some (Some df) → c ∈ [YEAR; CRIMES] →
  raises DashboardApp.get_crimes_trend s
  ∧ raises DataHandler.get_crime_data s.
Proof.
  intros Hs Hin. unfold raises.
  destruct (get_crimes_trend_eq s df Hs Hne) as [-> ->].
  rewrite (crimes_by_year_missing df c Hin Hc). split; by eexists _, _.
Qed.

Lemma handler_water_stats_missing :
  s !! "water" = Some (Some df) →
  c ∈ [HOUSEHOLDS; SEWERAGE; TOILETS; PUBLIC_TOILETS] →
  raises DataHandler.get_water_stats s.
Proof.
  intros Hs Hin. unfold raises, DataHandler.get_water_stats.
  rewrite (bind_ok _ _ _ _ _ (dict_get_ok _ _ _ Hs)). rewrite Hne.
  unfold lift.
  split_columns Hin; rewrite (int_sum_missing _ _ Hc); run_result.
Qed.

Lemma handler_infrastructure_stats_missing :
  s !! "infrastructure" = Some (Some df) →
  c ∈ [JUNCTIONS; SIGNALIZED] →
  raises DataHandler.get_infrastructure_stats s.
Proof.
  intros Hs Hin. unfold raises, DataHandler.get_infrastructure_stats.
  rewrite (bind_ok _ _ _ _ _ (dict_get_ok _ _ _ Hs)). rewrite Hne.
  unfold lift.
  split_columns Hin; rewrite (int_sum_missing _ _ Hc); run_result.
Qed.

Lemma handler_environment_stats_missing :
  s !! "environment" = Some (Some df) → c ∈ [PM25; PM10; NO2] →
  raises DataHandler.get_environment_stats s.
Proof.
  intros Hs Hin. unfold raises, DataHandler.get_environment_stats.
  rewrite (bind_ok _ _ _ _ _ (dict_get_ok _ _ _ Hs)). rewrite Hne.
  unfold lift.
  split_columns Hin; rewrite (cleaned_mean_missing _ _ Hc); run_result.
Qed.

End MissingColumn.

Lemma assign_raise (key : string) (env : frame) (name : string) (e : exn)
    (s : store) :
  assign key env name (Raise e) s = (Raise e, s).
Proof. done. Qed.

Ltac names_differ := let X := fresh in intros X; discriminate X.

(** One assignment of [get_environment_stats]: the column read is known to
    be missing, or the assignment is run. *)
Ltac assign_step Hc :=
  match goal with
  | |- context [DashboardApp.cleaned ?e ?c] =>
      first
        [ rewrite (cleaned_missing e c)
            by (rewrite ?has_column_setitem_ne by names_differ; exact Hc);
          erewrite bind_raise by apply assign_raise; by eexists _, _
        | destruct (DashboardApp.cleaned e c) as [?|?];
          [ erewrite bind_ok by apply assign_ok
          | erewrite bind_raise by apply assign_raise; by eexists _, _ ] ]
  end.

Section MissingPollutant.
Context (s : store) (env : frame) (c : string).
Context (Hs : s !! "environment" = Some (Some env)).
Context (Hne : frame_empty env = false) (Hc : has_column env c = false).

Lemma environment_stats_missing :
  c ∈ [PM25; PM10; NO2; SO2; O3] →
  raises DashboardApp.get_environment_stats s.
Proof.
  intros Hin. unfold raises, DashboardApp.get_environment_stats.
  rewrite (bind_ok _ _ _ _ _ (dict_get_ok _ _ _ Hs)). rewrite Hne.
  split_columns Hin; repeat assign_step Hc.
Qed.

Lemma environment_trend_missing :
  c ∈ [MONTH_YEAR; PM25; PM10] →
  raises DashboardApp.get_environment_trend s.
Proof.
  intros Hin. unfold raises, DashboardApp.get_environment_trend.
  rewrite (bind_ok _ _ _ _ _ (dict_get_ok _ _ _ Hs)). rewrite Hne.
  unfold lift. split_columns Hin.
  - destruct (DashboardApp.cleaned env PM25) as [c25|e];
      [|by eexists _, _].
    cbv beta iota delta [mbind result_bind].
    destruct (DashboardApp.cleaned (setitem env "PM2.5" c25) PM10)
      as [c10|e]; [|by eexists _, _].
    rewrite (select_missing _ _ MONTH_YEAR).
    + by eexists _, _.
    + left.
    + by rewrite !has_column_setitem_ne by names_differ.
  - rewrite (cleaned_missing _ _ Hc). by eexists _, _.
  - destruct (DashboardApp.cleaned env PM25) as [c25|e];
      [|by eexists _, _].
    cbv beta iota delta [mbind result_bind].
    rewrite cleaned_missing
      by (by rewrite has_column_setitem_ne by names_differ).
    by eexists _, _.
Qed.

End MissingPollutant.

(** C2, as the code has it.  When its dataset is absent or its table is
    empty, every query method returns its sentinel (the empty mapping for
    summaries, [None] for groupings and trends) and raises nothing.  The
    grouping queries never raise, and return [None] when the group column
    or the value column is missing.  The summary and trend queries are
    not protected: on a table that is not empty and lacks a column they
    read, they raise. *)
Theorem fail_soft (s : store) :
  (* the dataset is absent or empty *)
  ((no_data s "water_sanitation" →
    DashboardApp.get_water_sanitation_stats s = (Ok ∅, s)
    ∧ DashboardApp.get_water_by_zone s = (Ok None, s)
    ∧ DashboardApp.get_water_by_ward s = (Ok None, s))
   ∧ (no_data s "environment" →
      DashboardApp.get_environment_stats s = (Ok ∅, s)
      ∧ DashboardApp.get_environment_trend s = (Ok None, s)
      ∧ DataHandler.get_environment_stats s = (Ok ∅, s))
   ∧ (no_data s "crimes" →
      DashboardApp.get_crimes_trend s = (Ok None, s)
      ∧ DataHandler.get_crime_data s = (Ok None, s))
   ∧ (no_data s "intersections" →
      DashboardApp.get_intersections_summary s = (Ok ∅, s)
      ∧ DashboardApp.get_intersections_by_zone s = (Ok None, s))
   ∧ (no_data s "employment" →
      DashboardApp.get_employment_stats s = (Ok ∅, s)
      ∧ DataHandler.get_employment_stats s = (Ok ∅, s))
   ∧ (no_data s "water" → DataHandler.get_water_stats s = (Ok ∅, s))
   ∧ (no_data s "infrastructure" →
      DataHandler.get_infrastructure_stats s = (Ok ∅, s))
   ∧ (∀ dataset value_col, no_data s dataset →
        DataHandler.get_zone_data dataset value_col s = (Ok None, s)))
  ∧ (∀ value_col top_n,
       DataProcessor.get_zone_summary None value_col = Ok None
       ∧ DataProcessor.get_ward_summary None value_col top_n = Ok None
       ∧ ∀ df, frame_empty df = true →
           DataProcessor.get_zone_summary (Some df) value_col = Ok None
           ∧ DataProcessor.get_ward_summary (Some df) value_col top_n
             = Ok None)
  (* grouping queries: no exception, whatever the table *)
  ∧ (∀ df value_col top_n,
       (∃ r, DataProcessor.get_zone_summary df value_col = Ok r)
       ∧ ∃ r, DataProcessor.get_ward_summary df value_col top_n = Ok r)
  ∧ ((∀ v, s !! "water_sanitation" = Some v →
        (∃ r, DashboardApp.get_water_by_zone s = (Ok r, s))
        ∧ ∃ r, DashboardApp.get_water_by_ward s = (Ok r, s))
     ∧ (∀ v, s !! "intersections" = Some v →
          ∃ r, DashboardApp.get_intersections_by_zone s = (Ok r, s))
     ∧ (∀ dataset value_col v, s !! dataset = Some v →
          ∃ r, DataHandler.get_zone_data dataset value_col s = (Ok r, s)))
  (* grouping queries: a column is missing *)
  ∧ (∀ df value_col top_n,
       (has_column df ZONE = false ∨ has_column df value_col = false →
        DataProcessor.get_zone_summary (Some df) value_col = Ok None)
       ∧ (has_column df WARD = false ∨ has_column df value_col = false →
          DataProcessor.get_ward_summary (Some df) value_col top_n
          = Ok None))
  ∧ (∀ dataset value_col df,
       s !! dataset = Some (Some df) →
       has_column df ZONE = false ∨ has_column df value_col = false →
       DataHandler.get_zone_data dataset value_col s = (Ok None, s))
  (* summaries and trends: a column is missing *)
  ∧ (∀ df c,
       frame_empty df = false → has_column df c = false →
       (s !! "water_sanitation" = Some (Some df) →
        c ∈ [HOUSEHOLDS; SEWERAGE; TOILETS; PUBLIC_TOILETS;
             FREE_F; FREE_M; PAID_F; PAID_M] →
        raises DashboardApp.get_water_sanitation_stats s)
       ∧ (s !! "environment" = Some (Some df) →
          (c ∈ [PM25; PM10; NO2; SO2; O3] →
           raises DashboardApp.get_environment_stats s)
          ∧ (c ∈ [MONTH_YEAR; PM25; PM10] →
             raises DashboardApp.get_environment_trend s)
          ∧ (c ∈ [PM25; PM10; NO2] →
             raises DataHandler.get_environment_stats s))
       ∧ (s !! "crimes" = Some (Some df) → c ∈ [YEAR; CRIMES] →
          raises DashboardApp.get_crimes_trend s
          ∧ raises DataHandler.get_crime_data s)
       ∧ (s !! "intersections" = Some (Some df) →
          c ∈ [JUNCTIONS; SIGNALIZED] →
          raises DashboardApp.get_intersections_summary s)
       ∧ (s !! "employment" = Some (Some df) →
          c ∈ [UNEMPLOYED; EMPLOYED; LABOUR_FORCE] →
          raises DashboardApp.get_employment_stats s
          ∧ raises DataHandler.get_employment_stats s)
       ∧ (s !! "water" = Some (Some df) →
          c ∈ [HOUSEHOLDS; SEWERAGE; TOILETS; PUBLIC_TOILETS] →
          raises DataHandler.get_water_stats s)
       ∧ (s !! "infrastructure" = Some (Some df) →
          c ∈ [JUNCTIONS; SIGNALIZED] →
          raises DataHandler.get_infrastructure_stats s)).
Proof.
  split; [apply no_data_sentinel|].
  split; [apply no_data_summary|].
  split.
  { intros df value_col top_n.
    split; [apply get_zone_summary_total | apply get_ward_summary_total]. }
  split; [apply grouping_total|].
  split; [apply summary_missing_column|].
  split; [apply get_zone_data_missing_column|].
  intros df c Hne Hc.
  split; [by apply water_stats_missing|].
  split.
  { intros Hs. split; [by apply (environment_stats_missing s df c)|].
    split; [by apply (environment_trend_missing s df c)|].
    by apply (handler_environment_stats_missing s df c). }
  split; [by apply crimes_trend_missing|].
  split; [by apply intersections_summary_missing|].
  split; [by apply employment_stats_missing|].
  split; [by apply handler_water_stats_missing|].
  by apply handler_infrastructure_stats_missing.
Qed.

Lemma fail_soft_witness :
  DashboardApp.get_crimes_trend (<["crimes" := None]> ∅)
  = (Ok None, <["crimes" := None]> ∅)
  ∧ DataHandler.get_zone_data "water" HOUSEHOLDS
      (<["water" := Some [(WARD, ObjCol [VStr "w1"])]]> ∅)
    = (Ok None, <["water" := Some [(WARD, ObjCol [VStr "w1"])]]> ∅)
  ∧ raises DataHandler.get_crime_data
      (<["crimes" := Some [(YEAR, IntCol [2020])]]> ∅).
Proof.
  split; [|split].
  - destruct (fail_soft (<["crimes" := None]> ∅))
      as ((_ & _ & H & _) & _).
    apply H. by left.
  - destruct (fail_soft (<["water" := Some [(WARD, ObjCol [VStr "w1"])]]> ∅))
      as (_ & _ & _ & _ & _ & H & _).
    apply (H _ _ [(WARD, ObjCol [VStr "w1"])]); [reflexivity | by left].
  - destruct (fail_soft (<["crimes" := Some [(YEAR, IntCol [2020])]]> ∅))
      as (_ & _ & _ & _ & _ & _ & H).
    destruct (H [(YEAR, IntCol [2020])] CRIMES) as (_ & _ & Hc & _);
      [reflexivity | reflexivity |].
    apply Hc; [reflexivity | right; left].
Defined.

(** C2 as stated fails for a summary on a table that lacks a column: the
    lookup error reaches the caller. *)
Lemma water_stats_missing_column_raises :
  frame_empty water_short = false
  ∧ has_column water_short HOUSEHOLDS = false
  ∧ DashboardApp.get_water_sanitation_stats
      (<["water_sanitation" := Some water_short]> ∅)
    = (Raise KeyError, <["water_sanitation" := Some water_short]> ∅).
Proof. repeat split; reflexivity. Qed.

(** * Further properties of the code *)

(** ** Percentages stay between 0 and 100 *)

Section Bounds.

Lemma round_half_even_bounds (a b : Z) (q : Q) :
  (inject_Z a <= q)%Q → (q <= inject_Z b)%Q →
  (a ≤ Float.round_half_even q ≤ b)%Z.
Proof.
  intros Ha Hb. unfold Float.round_half_even.
  assert (Hfa : (a ≤ Qfloor q)%Z).
  { rewrite <- (Qfloor_Z a). by apply Qfloor_resp_le. }
  assert (Hfb : (Qfloor q ≤ b)%Z).
  { rewrite <- (Qfloor_Z b). by apply Qfloor_resp_le. }
  assert (Hup : (inject_Z (Qfloor q) < q)%Q → (Qfloor q + 1 ≤ b)%Z).
  { intros Hlt. apply Z.le_succ_l. rewrite Zlt_Qlt.
    eapply Qlt_le_trans; [exact Hlt | exact Hb]. }
  assert (Hfrac : ((1 # 2) <= q - inject_Z (Qfloor q))%Q →
                  (inject_Z (Qfloor q) < q)%Q).
  { intros H. apply (Qplus_lt_l _ _ (- inject_Z (Qfloor q))).
    rewrite Qplus_opp_r. eapply Qlt_le_trans; [|exact H]. reflexivity. }
  destruct (Qcompare (q - inject_Z (Qfloor q)) (1 # 2)) eqn:E.
  - apply Qeq_alt in E.
    destruct (Z.even (Qfloor q)); [lia|].
    split; [lia|]. apply Hup, Hfrac. rewrite E. apply Qle_refl.
  - lia.
  - apply Qgt_alt in E. split; [lia|].
    apply Hup, Hfrac. by apply Qlt_le_weak.
Qed.

Lemma pow10_pos (n : nat) : (0 < inject_Z (10 ^ Z.of_nat n))%Q.
Proof.
  change 0%Q with (inject_Z 0). rewrite <- Zlt_Qlt.
  apply Z.pow_pos_nonneg; lia.
Qed.

(** Rounding to [n] decimals keeps a number between two integers. *)
Lemma round_bounds (a b : Z) (q : Q) (n : nat) :
  (inject_Z a <= q)%Q → (q <= inject_Z b)%Q →
  ∃ r, Float.round (Fin q) n = Fin r
       ∧ (inject_Z a <= r)%Q ∧ (r <= inject_Z b)%Q.
Proof.
  intros Ha Hb. eexists. split; [reflexivity|].
  set (p := inject_Z (10 ^ Z.of_nat n)).
  assert (Hp : (0 < p)%Q) by apply pow10_pos.
  destruct (round_half_even_bounds (a * 10 ^ Z.of_nat n)
              (b * 10 ^ Z.of_nat n) (q * p)) as [H1 H2].
  { rewrite inject_Z_mult. apply Qmult_le_compat_r; [done|].
    by apply Qlt_le_weak. }
  { rewrite inject_Z_mult. apply Qmult_le_compat_r; [done|].
    by apply Qlt_le_weak. }
  rewrite Zle_Qle, inject_Z_mult in H1, H2. fold p in H1, H2.
  rewrite Qred_correct. split.
  - apply Qle_shift_div_l; done.
  - apply Qle_shift_div_r; done.
Qed.

(** [round(n / d * 100, k)] for integers [0 <= n <= d], [d > 0]. *)
Lemma percent_bounds (n d : Z) (k : nat) :
  (0 ≤ n ≤ d)%Z → (0 < d)%Z →
  ∃ r, Float.round
         (Float.mul (Float.div (Float.of_Z n) (Float.of_Z d))
            (Float.of_Z 100)) k = Fin r
       ∧ (0 <= r)%Q ∧ (r <= 100)%Q.
Proof.
  intros Hn Hd. unfold Float.of_Z, Float.div.
  assert (Hz : Float.Qis_zero (inject_Z d) = false).
  { unfold Float.Qis_zero. simpl. apply Z.eqb_neq. lia. }
  rewrite Hz. unfold Float.mul, Float.fin.
  assert (Hdq : (0 < inject_Z d)%Q).
  { change 0%Q with (inject_Z 0). by rewrite <- Zlt_Qlt. }
  apply (round_bounds 0 100).
  - rewrite Qred_correct. rewrite (Qred_correct (inject_Z n / inject_Z d)).
    change (inject_Z 0) with (0 * inject_Z 100)%Q.
    apply Qmult_le_compat_r; [|done].
    apply Qle_shift_div_l; [done|]. rewrite Qmult_0_l.
    change 0%Q with (inject_Z 0). rewrite <- Zle_Qle. lia.
  - rewrite Qred_correct. rewrite (Qred_correct (inject_Z n / inject_Z d)).
    rewrite <- (Qmult_1_l (inject_Z 100)) at 2.
    apply Qmult_le_compat_r; [|done].
    apply Qle_shift_div_r; [done|]. rewrite Qmult_1_l.
    rewrite <- Zle_Qle. lia.
Qed.

(** A quotient by a non-zero integer is no larger than its numerator. *)
Lemma ratio_range (a b : Z) :
  b ≠ 0%Z →
  (inject_Z (- Z.abs a) <= inject_Z a / inject_Z b)%Q
  ∧ (inject_Z a / inject_Z b <= inject_Z (Z.abs a))%Q.
Proof.
  assert (Hpos : ∀ c d : Z, (0 < d)%Z →
            (inject_Z (- Z.abs c) <= inject_Z c / inject_Z d)%Q
            ∧ (inject_Z c / inject_Z d <= inject_Z (Z.abs c))%Q).
  { intros c d Hd.
    assert (Hdq : (0 < inject_Z d)%Q).
    { change 0%Q with (inject_Z 0). by rewrite <- Zlt_Qlt. }
    pose proof (Z.abs_nonneg c) as H0.
    assert (Hlo : (- Z.abs c ≤ c)%Z) by lia.
    assert (Hhi : (c ≤ Z.abs c)%Z) by lia.
    split.
    - apply Qle_shift_div_l; [done|].
      rewrite <- inject_Z_mult, <- Zle_Qle. nia.
    - apply Qle_shift_div_r; [done|].
      rewrite <- inject_Z_mult, <- Zle_Qle. nia. }
  intros Hb. destruct (Z.lt_trichotomy b 0) as [Hn|[->|Hp]]; [|done|auto].
  assert (E : (inject_Z a / inject_Z b == inject_Z (- a) / inject_Z (- b))%Q).
  { rewrite !inject_Z_opp. field. intros H.
    unfold Qeq in H. simpl in H. lia. }
  rewrite E. replace (Z.abs a) with (Z.abs (- a)) by lia.
  apply Hpos. lia.
Qed.

(** [round(a / b * 100, k)] for integers, [b] not 0: a finite float, no
    larger than [100 * |a|]. *)
Lemma percent_range (a b : Z) (k : nat) :
  b ≠ 0%Z →
  ∃ r, Float.round
         (Float.mul (Float.div (Float.of_Z a) (Float.of_Z b))
            (Float.of_Z 100)) k = Fin r
       ∧ (inject_Z (- (100 * Z.abs a)) <= r)%Q
       ∧ (r <= inject_Z (100 * Z.abs a))%Q.
Proof.
  intros Hb. unfold Float.of_Z, Float.div.
  assert (Hz : Float.Qis_zero (inject_Z b) = false).
  { unfold Float.Qis_zero. simpl. by apply Z.eqb_neq. }
  rewrite Hz. unfold Float.mul, Float.fin.
  destruct (ratio_range a b Hb) as [Hlo Hhi].
  apply round_bounds.
  - rewrite Qred_correct. rewrite (Qred_correct (inject_Z a / inject_Z b)).
    replace (- (100 * Z.abs a))%Z with (- Z.abs a * 100)%Z by lia.
    rewrite inject_Z_mult. by apply Qmult_le_compat_r.
  - rewrite Qred_correct. rewrite (Qred_correct (inject_Z a / inject_Z b)).
    replace (100 * Z.abs a)%Z with (Z.abs a * 100)%Z by lia.
    rewrite inject_Z_mult. by apply Qmult_le_compat_r.
Qed.

(** One hundred times a small int is within the range of a float. *)
Lemma small_int_range (a : Z) (r : Q) :
  small_int a →
  (inject_Z (- (100 * Z.abs a)) <= r)%Q → (r <= inject_Z (100 * Z.abs a))%Q →
  finite_number (VFloat (Fin r)).
Proof.
  unfold small_int. intros Ha Hlo Hhi.
  assert (Hmax : (100 * 10 ^ 300 ≤ DBL_MAX)%Z)
    by (apply Z.leb_le; vm_compute; reflexivity).
  split.
  - eapply Qle_trans; [|exact Hlo]. rewrite <- Zle_Qle. lia.
  - eapply Qle_trans; [exact Hhi|]. rewrite <- Zle_Qle. lia.
Qed.

End Bounds.

(** X1.  A coverage of a part within its whole is a percentage:
    [calculate_coverage(n, d)] for integers [0 <= n <= d] with [d > 0] is a
    finite float between 0 and 100. *)
Theorem calculate_coverage_bounds (n d : Z) :
  (0 ≤ n ≤ d)%Z → (0 < d)%Z →
  ∃ r : Q,
    DataProcessor.calculate_coverage (VInt n) (VInt d) = Ok (VFloat (Fin r))
    ∧ (0 <= r)%Q ∧ (r <= 100)%Q.
Proof.
  intros Hn Hd.
  destruct (percent_bounds n d 2 Hn Hd) as (r & Hr & Hb).
  exists r. split; [|exact Hb].
  rewrite (calculate_coverage_numbers _ _ (Float.of_Z n) (Float.of_Z d));
    try reflexivity.
  - by rewrite Hr.
  - simpl. apply Z.eqb_neq. lia.
Qed.

Lemma calculate_coverage_bounds_witness :
  ∃ r : Q,
    DataProcessor.calculate_coverage (VInt 1) (VInt 3) = Ok (VFloat (Fin r))
    ∧ (0 <= r)%Q ∧ (r <= 100)%Q.
Proof. apply (calculate_coverage_bounds 1 3); lia. Defined.


(** ** The guarded rates of [DataHandler] *)

Lemma pct_guarded (a b : Z) (k : nat) :
  (b ≤ 0)%Z → DataHandler.pct a b k = Ok (VInt 0).
Proof.
  intros Hb. unfold DataHandler.pct.
  by apply Z.ltb_ge in Hb as ->.
Qed.

Lemma pct_ratio (a b : Z) (k : nat) :
  (0 < b)%Z →
  DataHandler.pct a b k
  = Ok (VFloat (Float.round
                  (Float.mul (Float.div (Float.of_Z a) (Float.of_Z b))
                     (Float.of_Z 100)) k)).
Proof.
  intros Hb. unfold DataHandler.pct.
  pose proof Hb as Hlt. apply Z.ltb_lt in Hlt as ->.
  unfold py_truediv, is_zero. simpl.
  by replace (b =? 0)%Z with false by (symmetry; apply Z.eqb_neq; lia).
Qed.

Lemma pct_finite (a b : Z) (k : nat) :
  (0 < b)%Z → ∃ r, DataHandler.pct a b k = Ok (VFloat (Fin r)).
Proof.
  intros Hb. rewrite pct_ratio by done.
  unfold Float.of_Z, Float.div.
  replace (Float.Qis_zero (inject_Z b)) with false
    by (symmetry; unfold Float.Qis_zero; simpl; apply Z.eqb_neq; lia).
  by eexists.
Qed.

(** X2.  The rate that [DataHandler] computes for its percentages,
    [round((a / b) * 100, k) if b > 0 else 0], on Python ints of which
    the numerator is small enough for the quotient and its product by 100
    to stay within the range of a float ([|a| <= 10^300]): it raises
    nothing and returns a number that a float can hold -- the integer 0
    when the denominator is not positive, and otherwise a finite float,
    which lies between 0 and 100 when [0 <= a <= b]. *)
Theorem handler_rate_total (a b : Z) (k : nat) :
  small_int a →
  ∃ v, DataHandler.pct a b k = Ok v
       ∧ finite_number v
       ∧ ((b ≤ 0)%Z → v = VInt 0)
       ∧ ((0 < b)%Z →
          ∃ r : Q, v = VFloat (Fin r)
                   ∧ ((0 ≤ a ≤ b)%Z → (0 <= r)%Q ∧ (r <= 100)%Q)).
Proof.
  intros Hsmall. destruct (Z.lt_ge_cases 0 b) as [Hb|Hb].
  - destruct (percent_range a b k) as (r & Hr & Hlo & Hhi); [lia|].
    exists (VFloat (Fin r)).
    split; [by rewrite pct_ratio, Hr|].
    split; [by eapply small_int_range|]. split; [lia|].
    intros _. exists r. split; [done|]. intros Ha.
    destruct (percent_bounds a b k Ha Hb) as (r' & Hr' & Hbounds).
    rewrite Hr in Hr'. by injection Hr' as <-.
  - exists (VInt 0). split; [by apply pct_guarded|].
    split; [done|]. split; [done | lia].
Qed.

Lemma handler_rate_total_witness :
  ∃ v, DataHandler.pct 1 3 2 = Ok v
       ∧ finite_number v
       ∧ ((3 ≤ 0)%Z → v = VInt 0)
       ∧ ((0 < 3)%Z →
          ∃ r : Q, v = VFloat (Fin r)
                   ∧ ((0 ≤ 1 ≤ 3)%Z → (0 <= r)%Q ∧ (r <= 100)%Q)).
Proof.
  apply (handler_rate_total 1 3 2).
  unfold small_int. apply Z.leb_le. vm_compute. reflexivity.
Defined.

(** ** Cleaning twice *)

Lemma clean_float (f : float) : clean (VFloat f) = f.
Proof. done. Qed.

Lemma clean_floats (fs : list float) : clean <$> (VFloat <$> fs) = fs.
Proof. induction fs as [|f fs IH]; [done|]. csimpl. by rewrite IH. Qed.

Lemma cells_cleaned_col (c : column) :
  cells (cleaned_col c) = VFloat <$> (clean <$> cells c).
Proof.
  unfold cleaned_col. rewrite infer_column_floats.
  by destruct (clean <$> cells c).
Qed.

Lemma cleaned_col_idemp (c : column) :
  cleaned_col (cleaned_col c) = cleaned_col c.
Proof.
  unfold cleaned_col at 1. by rewrite cells_cleaned_col, clean_floats.
Qed.

Lemma col_len_cleaned_col (c : column) :
  col_len (cleaned_col c) = col_len c.
Proof.
  unfold col_len. by rewrite cells_cleaned_col, !length_fmap.
Qed.

(** X3.  Cleaning is idempotent: a cleaned value is a float, which
    [clean_numeric] (of [DataProcessor] and of [DataHandler]) returns as it
    is, and a column that [apply(clean_numeric)] has produced is left as it
    is by a second [apply(clean_numeric)]. *)
Theorem clean_numeric_idempotent :
  (∀ v : value,
     (x ← DataProcessor.clean_numeric v; DataProcessor.clean_numeric x)
     = DataProcessor.clean_numeric v)
  ∧ (∀ v : value,
       (x ← DataHandler.clean_numeric v; DataHandler.clean_numeric x)
       = DataHandler.clean_numeric v)
  ∧ (∀ c : column,
       (c' ← series_apply DataProcessor.clean_numeric c;
        series_apply DataProcessor.clean_numeric c')
       = series_apply DataProcessor.clean_numeric c).
Proof.
  split; [|split].
  - intros v. destruct (clean_numeric_total v) as [f ->]. done.
  - intros v. rewrite clean_numeric_agree.
    destruct (clean_numeric_total v) as [f ->]. simpl.
    by rewrite clean_numeric_agree.
  - intros c. rewrite series_apply_clean_numeric. simpl.
    by rewrite series_apply_clean_numeric, cleaned_col_idemp.
Qed.


(** ** The cached environment table under [get_environment_stats] *)

Lemma frame_empty_len (df : frame) :
  frame_empty df = (frame_len df =? 0)%nat.
Proof. by destruct df as [|[n c] df]. Qed.

Lemma frame_wf_getitem_len (df : frame) (name : string) (c : column) :
  frame_wf df → getitem df name = Ok c → col_len c = frame_len df.
Proof.
  intros [n Hwf] Hget.
  destruct df as [|[m c0] df]; [done|].
  pose proof Hwf as Hwf0. apply Forall_cons in Hwf0 as [H0 _].
  simpl in H0. simpl frame_len. rewrite H0.
  clear H0. revert Hget. generalize ((m, c0) :: df) as l, Hwf.
  intros l Hl. induction l as [|[k c1] l IH]; [done|].
  apply Forall_cons in Hl as [H1 Hl]. simpl.
  destruct (String.eqb k name); [by intros [= <-] | by apply IH].
Qed.

(** Writing a column of the right length keeps a table well formed, with
    the same number of rows. *)
Lemma setitem_wf (df : frame) (name : string) (c : column) :
  frame_wf df → df ≠ [] → col_len c = frame_len df →
  frame_wf (setitem df name c)
  ∧ frame_len (setitem df name c) = frame_len df.
Proof.
  intros [n Hwf] Hne Hlen.
  destruct df as [|[m c0] df]; [done|].
  pose proof Hwf as Hwf0. apply Forall_cons in Hwf0 as [H0 _].
  simpl in H0. simpl in Hlen. split.
  - exists n. rewrite H0 in Hlen. clear H0 Hne.
    revert Hwf. generalize ((m, c0) :: df) as l.
    intros l Hl. induction l as [|[k c1] l IH]; simpl.
    + by repeat constructor.
    + apply Forall_cons in Hl as [H1 Hl].
      destruct (String.eqb k name); constructor; auto.
  - simpl. by destruct (String.eqb m name).
Qed.

Lemma has_column_setitem_mono (df : frame) (name x : string) (c : column) :
  has_column df x = true → has_column (setitem df name c) x = true.
Proof.
  intros H. destruct (String.eqb_spec name x) as [->|Hne].
  - apply has_column_setitem.
  - by rewrite has_column_setitem_ne.
Qed.

(** Writing a column over itself changes nothing. *)
Lemma setitem_id (df : frame) (name : string) (c : column) :
  getitem df name = Ok c → setitem df name c = df.
Proof.
  induction df as [|[n c0] df IH]; [done|]. simpl.
  destruct (String.eqb n name); [by intros [= ->]|].
  intros H. by rewrite IH.
Qed.

Lemma updated_refl (env : frame) : frame_wf env → updated env env.
Proof. by intros H. Qed.

Lemma updated_step (env e : frame) (src dst : string) (c : column) :
  updated env e → getitem e src = Ok c → dst ∈ cleaned_names →
  updated env (setitem e dst (cleaned_col c)).
Proof.
  intros (Hwf & Hlen & Hcols & Hget) Hc Hdst.
  assert (Hne : e ≠ []) by (by intros ->).
  destruct (setitem_wf e dst (cleaned_col c) Hwf Hne) as [H1 H2].
  { rewrite col_len_cleaned_col. by eapply frame_wf_getitem_len. }
  split; [done|]. split; [by rewrite H2|]. split.
  - intros name H. by apply has_column_setitem_mono, Hcols.
  - intros name H. rewrite getitem_setitem_ne; [by apply Hget|].
    by intros ->.
Qed.

(** One assignment [env[dst] = env[src].apply(clean_numeric)]. *)
Lemma assign_cleaned (key : string) (env : frame) (dst src : string)
    (s : store) :
  match getitem env src with
  | Ok c =>
      assign key env dst (DashboardApp.cleaned env src) s
      = (Ok (setitem env dst (cleaned_col c)),
         <[key := Some (setitem env dst (cleaned_col c))]> s)
  | Raise _ =>
      assign key env dst (DashboardApp.cleaned env src) s
      = (Raise KeyError, s)
  end.
Proof.
  destruct (getitem env src) as [c|e] eqn:E.
  - by rewrite (cleaned_ok _ _ _ E).
  - unfold DashboardApp.cleaned. rewrite E.
    by rewrite (getitem_raise _ _ _ E).
Qed.

(** One assignment of the method in the goal: either it is run, and [Hu]
    is carried over to the new table, or it raises. *)
Ltac env_assign env Hu :=
  match goal with
  | |- context [assign ?k ?e ?dst (DashboardApp.cleaned ?e ?src)] =>
      let HA := fresh "HA" in
      let E := fresh "E" in
      let c := fresh "c" in
      let Hu' := fresh "Hu" in
      pose proof (fun s => assign_cleaned k e dst src s) as HA;
      destruct (getitem e src) as [c|?] eqn:E;
      [ erewrite bind_ok by apply HA;
        assert (Hu' : frame_wf env →
                      updated env (setitem e dst (cleaned_col c)))
          by (intros Hw; apply (updated_step env e src dst c (Hu Hw) E);
              compute_done);
        clear HA Hu; rename Hu' into Hu
      | erewrite bind_raise by apply HA; clear HA ]
  end.

(** What [get_environment_stats] leaves in the cache, whether it returns
    or raises: the table it found, with columns written into it. *)
Lemma environment_stats_store (s : store) (env : frame) :
  s !! "environment" = Some (Some env) →
  ∃ env',
    (DashboardApp.get_environment_stats s).2
    = <["environment" := Some env']> s
    ∧ (frame_wf env → updated env env').
Proof.
  intros Hs. unfold DashboardApp.get_environment_stats.
  rewrite (bind_ok _ _ _ _ _ (dict_get_ok _ _ _ Hs)).
  destruct (frame_empty env) eqn:Hne.
  { exists env. split; [by rewrite insert_id | apply updated_refl]. }
  pose proof (updated_refl env) as Hu.
  env_assign env Hu;
    [|exists env; split; [by rewrite insert_id | done]].
  do 4 (env_assign env Hu;
        [|eexists; split; [simpl; by rewrite ?insert_insert_eq | done]]).
  eexists. split; [|exact Hu].
  unfold lift. simpl. by rewrite ?insert_insert_eq.
Qed.

(** The environment trend, from the three columns it reads. *)
Lemma environment_trend_columns (s : store) (env : frame) :
  s !! "environment" = Some (Some env) →
  (DashboardApp.get_environment_trend s).1
  = if frame_empty env then Ok None
    else
      c25 ← getitem env PM25;
      c10 ← getitem env PM10;
      mc ← getitem env MONTH_YEAR;
      Ok (Some [(MONTH_YEAR, col_rows (slice_last 12) mc);
                ("PM2.5", col_rows (slice_last 12) (cleaned_col c25));
                ("PM10", col_rows (slice_last 12) (cleaned_col c10))]).
Proof.
  intros Hs. destruct (frame_empty env) eqn:Hne.
  { unfold DashboardApp.get_environment_trend.
    rewrite (bind_ok _ _ _ _ _ (dict_get_ok _ _ _ Hs)). by rewrite Hne. }
  destruct (getitem env PM25) as [c25|e] eqn:E25.
  2:{ unfold DashboardApp.get_environment_trend.
      rewrite (bind_ok _ _ _ _ _ (dict_get_ok _ _ _ Hs)). rewrite Hne.
      unfold lift, DashboardApp.cleaned. rewrite E25. simpl.
      by rewrite (getitem_raise _ _ _ E25). }
  destruct (getitem env PM10) as [c10|e] eqn:E10.
  2:{ unfold DashboardApp.get_environment_trend.
      rewrite (bind_ok _ _ _ _ _ (dict_get_ok _ _ _ Hs)). rewrite Hne.
      unfold lift. rewrite (cleaned_ok _ _ _ E25).
      cbv beta iota delta [mbind result_bind].
      unfold DashboardApp.cleaned.
      rewrite getitem_setitem_ne by (intros X; discriminate X).
      rewrite E10. simpl. by rewrite (getitem_raise _ _ _ E10). }
  destruct (getitem env MONTH_YEAR) as [mc|e] eqn:Em.
  - by rewrite (get_environment_trend_eq s env mc c25 c10).
  - unfold DashboardApp.get_environment_trend.
    rewrite (bind_ok _ _ _ _ _ (dict_get_ok _ _ _ Hs)). rewrite Hne.
    unfold lift. rewrite (cleaned_ok _ _ _ E25).
    cbv beta iota delta [mbind result_bind].
    rewrite (cleaned_ok _ PM10 c10)
      by (rewrite getitem_setitem_ne by (intros X; discriminate X); done).
    set (env2 := setitem (setitem env "PM2.5" (cleaned_col c25))
                   "PM10" (cleaned_col c10)).
    assert (E1 : getitem env2 MONTH_YEAR = Raise e).
    { unfold env2.
      by rewrite !getitem_setitem_ne by (intros X; discriminate X). }
    unfold select, rmapM. rewrite E1. simpl.
    by rewrite (getitem_raise _ _ _ Em).
Qed.

(** X4.  Whether [DashboardApp.get_environment_stats] returns or raises,
    it leaves every other dataset as it was, and it leaves under
    'environment' a table that is still well formed, with the same number
    of rows, in which no column was lost and only the columns named
    PM2.5, PM10, NO2, SO2, O3 may have changed. *)
Theorem environment_stats_frame_condition (s : store) :
  (∀ key, key ≠ "environment" →
     (DashboardApp.get_environment_stats s).2 !! key = s !! key)
  ∧ (∀ env, s !! "environment" = Some (Some env) → frame_wf env →
       ∃ env',
         (DashboardApp.get_environment_stats s).2 !! "environment"
         = Some (Some env')
         ∧ updated env env').
Proof.
  split.
  - intros key Hkey.
    destruct (s !! "environment") as [[env|]|] eqn:Hs.
    + destruct (environment_stats_store s env Hs) as (env' & -> & _).
      by rewrite lookup_insert_ne.
    + unfold DashboardApp.get_environment_stats.
      by rewrite (bind_ok _ _ _ _ _ (dict_get_ok _ _ _ Hs)).
    + unfold DashboardApp.get_environment_stats, mbind, M_bind, dict_get.
      by rewrite Hs.
  - intros env Hs Hwf.
    destruct (environment_stats_store s env Hs) as (env' & -> & Hu).
    exists env'. split; [by rewrite lookup_insert_eq | by apply Hu].
Qed.

(** X5.  The environment trend does not depend on whether
    [get_environment_stats] has run before it (as it has on the
    environment page and on the overview): on the tables that
    [get_environment_stats] leaves, [get_environment_trend] returns what
    it returns on the tables before the call.  The cached table is taken
    to be well formed. *)
Theorem environment_trend_after_stats (s : store) :
  (∀ env, s !! "environment" = Some (Some env) → frame_wf env) →
  (DashboardApp.get_environment_trend
     (DashboardApp.get_environment_stats s).2).1
  = (DashboardApp.get_environment_trend s).1.
Proof.
  intros Hwf. destruct (s !! "environment") as [[env|]|] eqn:Hs.
  - destruct (environment_stats_store s env Hs) as (env' & -> & Hu).
    destruct (Hu (Hwf env eq_refl)) as (_ & Hlen & _ & Hget).
    rewrite (environment_trend_columns _ env')
      by (by rewrite lookup_insert_eq).
    rewrite (environment_trend_columns s env Hs).
    rewrite !frame_empty_len, Hlen.
    by rewrite !Hget by compute_done.
  - unfold DashboardApp.get_environment_stats.
    by rewrite (bind_ok _ _ _ _ _ (dict_get_ok _ _ _ Hs)).
  - unfold DashboardApp.get_environment_stats, mbind, M_bind, dict_get.
    by rewrite Hs.
Qed.

Lemma environment_trend_after_stats_witness :
  (DashboardApp.get_environment_trend
     (DashboardApp.get_environment_stats
        (<["environment" := Some env_example]> ∅)).2).1
  = (DashboardApp.get_environment_trend
       (<["environment" := Some env_example]> ∅)).1.
Proof.
  apply (environment_trend_after_stats
           (<["environment" := Some env_example]> ∅)).
  intros env [= <-]. exists 3%nat. repeat constructor.
Defined.

Lemma environment_stats_frame_condition_witness :
  ∃ env',
    (DashboardApp.get_environment_stats
       (<["environment" := Some env_example]> ∅)).2 !! "environment"
    = Some (Some env')
    ∧ updated env_example env'.
Proof.
  destruct (environment_stats_frame_condition
              (<["environment" := Some env_example]> ∅)) as [_ H].
  apply H; [reflexivity|]. exists 3%nat. repeat constructor.
Defined.


(** ** Calling [get_environment_stats] again *)

(** When the method returns on a table that is not empty, the five
    columns it reads are there. *)
Lemma environment_stats_columns (s s1 : store) (env : frame) (st : stats) :
  s !! "environment" = Some (Some env) → frame_empty env = false →
  DashboardApp.get_environment_stats s = (Ok st, s1) →
  Forall (fun name => ∃ c, getitem env name = Ok c) [PM25; PM10; NO2; SO2; O3].
Proof.
  intros Hs Hne Hr. apply Forall_forall. intros name Hin.
  destruct (has_column env name) eqn:Hc; [by apply has_column_getitem|].
  destruct (environment_stats_missing s env name Hs Hne Hc Hin)
    as (e & s' & He).
  rewrite He in Hr. discriminate Hr.
Qed.

Lemma env_after_getitem (env : frame) (c25 c10 cno2 cso2 co3 : column) :
  let env' := env_after env c25 c10 cno2 cso2 co3 in
  getitem env' "PM2.5" = Ok (cleaned_col c25)
  ∧ getitem env' "PM10" = Ok (cleaned_col c10)
  ∧ getitem env' "NO2" = Ok (cleaned_col cno2)
  ∧ getitem env' "SO2" = Ok (cleaned_col cso2)
  ∧ getitem env' "O3" = Ok (cleaned_col co3).
Proof.
  unfold env_after. repeat split.
  - rewrite !getitem_setitem_ne by (intros X; discriminate X).
    apply getitem_setitem_eq.
  - rewrite !getitem_setitem_ne by (intros X; discriminate X).
    apply getitem_setitem_eq.
  - rewrite !getitem_setitem_ne by (intros X; discriminate X).
    apply getitem_setitem_eq.
  - rewrite !getitem_setitem_ne by (intros X; discriminate X).
    apply getitem_setitem_eq.
  - apply getitem_setitem_eq.
Qed.

(** Writing the five cleaned columns a second time changes nothing. *)
Lemma env_after_idemp (env : frame) (c25 c10 cno2 cso2 co3 : column) :
  env_after (env_after env c25 c10 cno2 cso2 co3) c25 c10 cno2 cso2 co3
  = env_after env c25 c10 cno2 cso2 co3.
Proof.
  destruct (env_after_getitem env c25 c10 cno2 cso2 co3)
    as (H1 & H2 & H3 & H4 & H5).
  set (env' := env_after env c25 c10 cno2 cso2 co3) in *.
  unfold env_after at 1.
  by rewrite (setitem_id _ _ _ H1), (setitem_id _ _ _ H2),
    (setitem_id _ _ _ H3), (setitem_id _ _ _ H4), (setitem_id _ _ _ H5).
Qed.

(** X6.  [DashboardApp.get_environment_stats] changes the cache only the
    first time: when it has returned, a second call returns the same
    statistics and leaves the tables as the first call left them.  The
    cached table is taken to be well formed. *)
Theorem environment_stats_idempotent (s s1 : store) (st : stats) :
  (∀ env, s !! "environment" = Some (Some env) → frame_wf env) →
  DashboardApp.get_environment_stats s = (Ok st, s1) →
  DashboardApp.get_environment_stats s1 = (Ok st, s1).
Proof.
  intros Hwf Hr. destruct (s !! "environment") as [[env|]|] eqn:Hs.
  - destruct (frame_empty env) eqn:Hne.
    { assert (H0 : DashboardApp.get_environment_stats s = (Ok ∅, s)).
      { apply no_data_query. right. eauto. }
      rewrite H0 in Hr. injection Hr as <- <-. exact H0. }
    pose proof (environment_stats_columns s s1 env st Hs Hne Hr) as Hcols.
    apply Forall_cons in Hcols as [[c25 H25] Hcols].
    apply Forall_cons in Hcols as [[c10 H10] Hcols].
    apply Forall_cons in Hcols as [[cno2 Hno2] Hcols].
    apply Forall_cons in Hcols as [[cso2 Hso2] Hcols].
    apply Forall_cons in Hcols as [[co3 Ho3] _].
    pose proof (dashboard_environment_stats s env c25 c10 cno2 cso2 co3
                  Hs Hne H25 H10 Hno2 Hso2 Ho3) as H1.
    set (env' := env_after env c25 c10 cno2 cso2 co3) in *.
    destruct (environment_stats_store s env Hs) as (e & He & Hu).
    rewrite H1 in He. simpl in He.
    apply (f_equal (fun m : store => m !! "environment")) in He.
    rewrite !lookup_insert_eq in He. injection He as <-.
    rewrite H1 in Hr. injection Hr as <- <-.
    destruct (Hu (Hwf env eq_refl)) as (_ & Hlen & _ & Hget).
    rewrite (dashboard_environment_stats _ env' c25 c10 cno2 cso2 co3).
    + unfold env'. by rewrite env_after_idemp, insert_insert_eq.
    + by rewrite lookup_insert_eq.
    + rewrite frame_empty_len, Hlen, <- frame_empty_len. done.
    + rewrite Hget by compute_done. done.
    + rewrite Hget by compute_done. done.
    + rewrite Hget by compute_done. done.
    + rewrite Hget by compute_done. done.
    + rewrite Hget by compute_done. done.
  - assert (H0 : DashboardApp.get_environment_stats s = (Ok ∅, s)).
    { apply no_data_query. by left. }
    rewrite H0 in Hr. injection Hr as <- <-. exact H0.
  - unfold DashboardApp.get_environment_stats, mbind, M_bind, dict_get in Hr.
    rewrite Hs in Hr. discriminate Hr.
Qed.

Lemma environment_stats_idempotent_witness :
  ∃ st s1,
    DashboardApp.get_environment_stats
      (<["environment" := Some env_example]> ∅) = (Ok st, s1)
    ∧ DashboardApp.get_environment_stats s1 = (Ok st, s1).
Proof.
  eexists _, _. split; [reflexivity|].
  apply (environment_stats_idempotent
           (<["environment" := Some env_example]> ∅)); [|reflexivity].
  intros env [= <-]. exists 3%nat. repeat constructor.
Defined.


(** ** The averages of [DataHandler] are never NaN *)

Lemma round_not_nan (f : float) (n : nat) :
  Float.isnan f = false → Float.isnan (Float.round f n) = false.
Proof. by destruct f. Qed.

Lemma avg_or_0_present (c : column) (n : nat) :
  ∃ v, avg_or_0 c n = OVal v ∧ isna v = false.
Proof.
  unfold avg_or_0. eexists. split; [reflexivity|].
  destruct (Float.isnan (fmean (clean <$> cells c))) eqn:E; [done|].
  apply (round_not_nan _ n) in E.
  by destruct (Float.round (fmean (clean <$> cells c)) n).
Qed.

(** When the method returns on a table that is not empty, the three
    columns it reads are there. *)
Lemma handler_environment_stats_columns (s s1 : store) (df : frame)
    (st : stats) :
  s !! "environment" = Some (Some df) → frame_empty df = false →
  DataHandler.get_environment_stats s = (Ok st, s1) →
  Forall (fun name => ∃ c, getitem df name = Ok c) [PM25; PM10; NO2].
Proof.
  intros Hs Hne Hr. apply Forall_forall. intros name Hin.
  destruct (has_column df name) eqn:Hc; [by apply has_column_getitem|].
  destruct (handler_environment_stats_missing s df name Hne Hc Hs Hin)
    as (e & s' & He).
  rewrite He in Hr. discriminate Hr.
Qed.

(** What [DataHandler.get_environment_stats] returns, when it returns. *)
Lemma handler_environment_stats_inv (s s1 : store) (st : stats) :
  DataHandler.get_environment_stats s = (Ok st, s1) →
  s1 = s
  ∧ (no_data s "environment" ∧ st = ∅
     ∨ ∃ df c25 c10 cno2,
         s !! "environment" = Some (Some df) ∧ frame_empty df = false
         ∧ st = list_to_map
                  [("pm25_avg", avg_or_0 c25 1); ("pm10_avg", avg_or_0 c10 1);
                   ("no2_avg", avg_or_0 cno2 2)]).
Proof.
  intros Hr. destruct (s !! "environment") as [[df|]|] eqn:Hs.
  - destruct (frame_empty df) eqn:Hne.
    { assert (H0 : DataHandler.get_environment_stats s = (Ok ∅, s))
        by (apply no_data_query; right; eauto).
      rewrite H0 in Hr. injection Hr as <- <-.
      split; [done|]. left. split; [right; eauto|done]. }
    pose proof (handler_environment_stats_columns s s1 df st Hs Hne Hr)
      as Hcols.
    apply Forall_cons in Hcols as [[c25 H25] Hcols].
    apply Forall_cons in Hcols as [[c10 H10] Hcols].
    apply Forall_cons in Hcols as [[cno2 Hno2] _].
    rewrite (handler_environment_stats s df c25 c10 cno2) in Hr by done.
    injection Hr as <- <-. split; [done|]. right.
    by exists df, c25, c10, cno2.
  - assert (H0 : DataHandler.get_environment_stats s = (Ok ∅, s))
      by (apply no_data_query; by left).
    rewrite H0 in Hr. injection Hr as <- <-.
    split; [done|]. left. split; [by left|done].
  - unfold DataHandler.get_environment_stats, mbind, M_bind, dict_get in Hr.
    rewrite Hs in Hr. discriminate Hr.
Qed.

(** X7.  Every average that [DataHandler.get_environment_stats] returns
    is a number that is present: where the mean of a pollutant is NaN (no
    reading at all) the entry is 0, and a rounded mean is not NaN. *)
Theorem handler_averages_present (s s1 : store) (st : stats) (k : string)
    (o : pyobj) :
  DataHandler.get_environment_stats s = (Ok st, s1) →
  st !! k = Some o →
  ∃ v, o = OVal v ∧ isna v = false.
Proof.
  intros Hr Hk.
  destruct (handler_environment_stats_inv s s1 st Hr)
    as [_ [[_ ->]|(df & c25 & c10 & cno2 & _ & _ & ->)]]; [done|].
  apply elem_of_list_to_map_2 in Hk.
  repeat (apply elem_of_cons in Hk as [[= -> ->] | Hk];
          [apply avg_or_0_present|]).
  by apply elem_of_nil in Hk.
Qed.

Lemma handler_averages_present_witness :
  ∃ v, OVal (VInt 0) = OVal v ∧ isna v = false.
Proof.
  eapply (handler_averages_present
           (<["environment" :=
                Some [(PM25, ObjCol [VStr "NA"; VStr "nan"]);
                      (PM10, IntCol [40; 50]);
                      (NO2, FloatCol [Fin 1; Fin 2])]]> ∅)
           _ _ "pm25_avg"); reflexivity.
Defined.


(** ** The shape of the summaries *)

Lemma complete_list (l : list (string * pyobj)) :
  complete l.*1 (list_to_map l).
Proof.
  exists l.*2. split; [by rewrite !length_fmap|].
  by rewrite zip_fst_snd.
Qed.

Lemma complete_dom (keys : list string) (st : stats) :
  complete keys st → dom st = list_to_set keys.
Proof.
  intros (vs & Hlen & ->). rewrite dom_list_to_map_L.
  by rewrite fst_zip by lia.
Qed.

Lemma complete_get (keys : list string) (st : stats) (k : string) :
  complete keys st → k ∈ keys → ∃ o, stats_get st k = Ok o.
Proof.
  intros Hc Hk. unfold stats_get.
  assert (Hd : k ∈ dom st).
  { rewrite (complete_dom _ _ Hc). by apply elem_of_list_to_set. }
  apply elem_of_dom in Hd as [o ->]. by exists o.
Qed.

Lemma complete_gets (keys : list string) (st : stats) (ks : list string) :
  complete keys st → ks ⊆ keys → ∃ os, stats_gets st ks = Ok os.
Proof.
  intros Hc. unfold stats_gets.
  induction ks as [|k ks IH]; intros Hks; [by exists []|].
  destruct (complete_get keys st k Hc) as [o Ho].
  { apply Hks. by left. }
  destruct IH as [os Hos].
  { intros x Hx. apply Hks. by right. }
  simpl. rewrite Ho, Hos. by eexists.
Qed.

Lemma stats_empty_spec (st : stats) : stats_empty st = true ↔ st = ∅.
Proof.
  unfold stats_empty. rewrite Nat.eqb_eq. apply map_size_empty_iff.
Qed.

Lemma complete_nonempty (k : string) (keys : list string) (st : stats) :
  complete (k :: keys) st → st ≠ ∅ ∧ stats_empty st = false.
Proof.
  intros Hc.
  assert (Hne : st ≠ ∅).
  { intros ->. apply complete_dom in Hc. rewrite dom_empty_L in Hc.
    assert (k ∈ (∅ : gset string)) by (rewrite Hc; set_solver).
    set_solver. }
  split; [done|]. destruct (stats_empty st) eqn:E; [|done].
  by apply stats_empty_spec in E.
Qed.

Lemma not_no_data (s : store) (key : string) (df : frame) :
  s !! key = Some (Some df) → frame_empty df = false → ¬ no_data s key.
Proof.
  intros Hs Hne [H|(df' & H & He)]; rewrite Hs in H; [done|].
  injection H as <-. congruence.
Qed.

(** A summary that returns: its dataset has no data and the summary is
    empty, or its body has returned it. *)
Lemma summary_inv (key : string) (body : frame → result stats)
    (s s1 : store) (st : stats) :
  (v ← dict_get key;
   match v with
   | None => mret ∅
   | Some df => if frame_empty df then mret ∅ else lift (body df)
   end) s = (Ok st, s1) →
  s1 = s
  ∧ (no_data s key ∧ st = ∅
     ∨ ∃ df, s !! key = Some (Some df) ∧ frame_empty df = false
             ∧ body df = Ok st).
Proof.
  intros Hr. destruct (s !! key) as [[df|]|] eqn:Hs.
  - rewrite (bind_ok _ _ _ _ _ (dict_get_ok _ _ _ Hs)) in Hr.
    destruct (frame_empty df) eqn:Hne.
    + injection Hr as <- <-. split; [done|]. left.
      split; [right; eauto | done].
    + injection Hr as Hr <-. split; [done|]. right. eauto.
  - rewrite (bind_ok _ _ _ _ _ (dict_get_ok _ _ _ Hs)) in Hr.
    injection Hr as <- <-. split; [done|]. left. split; [by left | done].
  - unfold mbind, M_bind, dict_get in Hr. rewrite Hs in Hr. discriminate Hr.
Qed.

(** The steps of a body that has returned have all returned. *)
Ltac bind_inv Hb :=
  cbv beta iota delta [mbind result_bind] in Hb;
  repeat (match type of Hb with
          | context [match ?r with Ok _ => _ | Raise _ => _ end] =>
              destruct r; [|discriminate Hb]
          end;
          cbv beta iota delta [mbind result_bind] in Hb);
  injection Hb as <-.

Lemma complete_empty : complete [] ∅.
Proof. by exists []. Qed.

Lemma complete_insert (k : string) (v : pyobj) (keys : list string)
    (st : stats) :
  complete keys st → complete (k :: keys) (<[k := v]> st).
Proof.
  intros (vs & Hlen & ->). exists (v :: vs). split; [|done].
  simpl. by rewrite Hlen.
Qed.

Ltac complete_map :=
  lazymatch goal with
  | |- complete _ (list_to_map ?l) => exact (complete_list l)
  | |- _ => repeat apply complete_insert; apply complete_empty
  end.

Ltac summary_complete Hr :=
  apply summary_inv in Hr as [-> [H|(df & Hs & Hne & Hb)]];
  [ split; [done|]; by left
  | split; [done|]; right; split; [by exists df|];
    bind_inv Hb; complete_map ].

Section Summaries.
Context (s s1 : store) (st : stats).

Lemma handler_water_stats_inv :
  DataHandler.get_water_stats s = (Ok st, s1) →
  s1 = s
  ∧ (no_data s "water" ∧ st = ∅
     ∨ (∃ df, s !! "water" = Some (Some df) ∧ frame_empty df = false)
       ∧ complete ["total_households"; "sewerage_coverage";
                   "toilet_coverage"; "public_toilets"; "sewerage_pct";
                   "toilet_pct"] st).
Proof. intros Hr. summary_complete Hr. Qed.

Lemma handler_infrastructure_stats_inv :
  DataHandler.get_infrastructure_stats s = (Ok st, s1) →
  s1 = s
  ∧ (no_data s "infrastructure" ∧ st = ∅
     ∨ (∃ df, s !! "infrastructure" = Some (Some df)
              ∧ frame_empty df = false)
       ∧ complete ["total_intersections"; "signalized_intersections";
                   "signalization_pct"] st).
Proof. intros Hr. summary_complete Hr. Qed.

Lemma handler_employment_stats_inv :
  DataHandler.get_employment_stats s = (Ok st, s1) →
  s1 = s
  ∧ (no_data s "employment" ∧ st = ∅
     ∨ (∃ df, s !! "employment" = Some (Some df) ∧ frame_empty df = false)
       ∧ complete ["labour_force"; "employed"; "unemployed";
                   "unemployment_rate"] st).
Proof. intros Hr. summary_complete Hr. Qed.

Lemma handler_environment_stats_complete :
  DataHandler.get_environment_stats s = (Ok st, s1) →
  s1 = s
  ∧ (no_data s "environment" ∧ st = ∅
     ∨ (∃ df, s !! "environment" = Some (Some df) ∧ frame_empty df = false)
       ∧ complete ["pm25_avg"; "pm10_avg"; "no2_avg"] st).
Proof.
  intros Hr.
  destruct (handler_environment_stats_inv s s1 st Hr)
    as [-> [H|(df & c25 & c10 & cno2 & Hs & Hne & ->)]].
  - split; [done|]. by left.
  - split; [done|]. right. split; [by exists df|]. complete_map.
Qed.

Lemma water_sanitation_stats_inv :
  DashboardApp.get_water_sanitation_stats s = (Ok st, s1) →
  s1 = s
  ∧ (no_data s "water_sanitation" ∧ st = ∅
     ∨ (∃ df, s !! "water_sanitation" = Some (Some df)
              ∧ frame_empty df = false)
       ∧ complete ["toilet_pct"; "sewerage_pct"; "total_households";
                   "sewerage_coverage"; "toilet_coverage"; "public_toilets";
                   "free_toilets_female"; "free_toilets_male";
                   "paid_toilets_female"; "paid_toilets_male"] st).
Proof. intros Hr. summary_complete Hr. Qed.

Lemma intersections_summary_inv :
  DashboardApp.get_intersections_summary s = (Ok st, s1) →
  s1 = s
  ∧ (no_data s "intersections" ∧ st = ∅
     ∨ (∃ df, s !! "intersections" = Some (Some df)
              ∧ frame_empty df = false)
       ∧ complete ["total_intersections"; "signalized_intersections";
                   "by_zone"; "signalized_by_zone"] st).
Proof. intros Hr. summary_complete Hr. Qed.

Lemma employment_stats_inv :
  DashboardApp.get_employment_stats s = (Ok st, s1) →
  s1 = s
  ∧ (no_data s "employment" ∧ st = ∅
     ∨ (∃ df, s !! "employment" = Some (Some df) ∧ frame_empty df = false)
       ∧ complete ["unemployed"; "employed"; "labour_force";
                   "unemployment_rate"; "employment_rate"] st).
Proof. intros Hr. summary_complete Hr. Qed.

Lemma environment_stats_inv :
  DashboardApp.get_environment_stats s = (Ok st, s1) →
  no_data s "environment" ∧ st = ∅ ∧ s1 = s
  ∨ (∃ env, s !! "environment" = Some (Some env)
            ∧ frame_empty env = false)
    ∧ complete ["pm25_avg"; "pm10_avg"; "no2_avg"; "so2_avg"; "o3_avg"] st.
Proof.
  intros Hr. destruct (s !! "environment") as [[env|]|] eqn:Hs.
  - destruct (frame_empty env) eqn:Hne.
    { assert (H0 : DashboardApp.get_environment_stats s = (Ok ∅, s))
        by (apply no_data_query; right; eauto).
      rewrite H0 in Hr. injection Hr as <- <-. left.
      split; [right; eauto | done]. }
    right. split; [by exists env|].
    pose proof (environment_stats_columns s s1 env st Hs Hne Hr) as Hcols.
    apply Forall_cons in Hcols as [[c25 H25] Hcols].
    apply Forall_cons in Hcols as [[c10 H10] Hcols].
    apply Forall_cons in Hcols as [[cno2 Hno2] Hcols].
    apply Forall_cons in Hcols as [[cso2 Hso2] Hcols].
    apply Forall_cons in Hcols as [[co3 Ho3] _].
    rewrite (dashboard_environment_stats s env c25 c10 cno2 cso2 co3)
      in Hr by done.
    injection Hr as <- <-. complete_map.
  - assert (H0 : DashboardApp.get_environment_stats s = (Ok ∅, s))
      by (apply no_data_query; by left).
    rewrite H0 in Hr. injection Hr as <- <-. left. split; [by left | done].
  - unfold DashboardApp.get_environment_stats, mbind, M_bind, dict_get in Hr.
    rewrite Hs in Hr. discriminate Hr.
Qed.

End Summaries.

Lemma shape_of_complete (s : store) (key k : string) (keys keys' : list string)
    (st : stats) :
  no_data s key ∧ st = ∅
  ∨ (∃ df, s !! key = Some (Some df) ∧ frame_empty df = false)
    ∧ complete (k :: keys) st →
  list_to_set (C := gset string) (k :: keys) = list_to_set keys' →
  summary_shape s key keys' st.
Proof.
  intros [H|[(df & Hs & Hne) Hc]] Hk; [by left|]. right.
  split; [by eapply not_no_data|].
  split; [by apply (complete_nonempty k keys)|].
  by rewrite (complete_dom _ _ Hc).
Qed.

(** X8.  A summary of [DataHandler] that returns is either empty, which
    it is exactly when its dataset is absent or has no row, or has
    exactly the entries of the method: the pages, which test [not stats]
    and then index the summary, find every key they ask for. *)
Theorem handler_summaries_shape (s s1 : store) (st : stats) :
  (DataHandler.get_water_stats s = (Ok st, s1) →
   summary_shape s "water"
     ["total_households"; "sewerage_coverage"; "toilet_coverage";
      "public_toilets"; "sewerage_pct"; "toilet_pct"] st)
  ∧ (DataHandler.get_environment_stats s = (Ok st, s1) →
     summary_shape s "environment" ["pm25_avg"; "pm10_avg"; "no2_avg"] st)
  ∧ (DataHandler.get_infrastructure_stats s = (Ok st, s1) →
     summary_shape s "infrastructure"
       ["total_intersections"; "signalized_intersections";
        "signalization_pct"] st)
  ∧ (DataHandler.get_employment_stats s = (Ok st, s1) →
     summary_shape s "employment"
       ["labour_force"; "employed"; "unemployed"; "unemployment_rate"] st).
Proof.
  repeat split; intros Hr.
  - apply handler_water_stats_inv in Hr as [_ H].
    by eapply shape_of_complete.
  - apply handler_environment_stats_complete in Hr as [_ H].
    by eapply shape_of_complete.
  - apply handler_infrastructure_stats_inv in Hr as [_ H].
    by eapply shape_of_complete.
  - apply handler_employment_stats_inv in Hr as [_ H].
    by eapply shape_of_complete.
Qed.

(** X9.  The same for the summaries of [DashboardApp]. *)
Theorem dashboard_summaries_shape (s s1 : store) (st : stats) :
  (DashboardApp.get_water_sanitation_stats s = (Ok st, s1) →
   summary_shape s "water_sanitation"
     ["total_households"; "sewerage_coverage"; "toilet_coverage";
      "public_toilets"; "free_toilets_female"; "free_toilets_male";
      "paid_toilets_female"; "paid_toilets_male"; "sewerage_pct";
      "toilet_pct"] st)
  ∧ (DashboardApp.get_environment_stats s = (Ok st, s1) →
     summary_shape s "environment"
       ["pm25_avg"; "pm10_avg"; "no2_avg"; "so2_avg"; "o3_avg"] st)
  ∧ (DashboardApp.get_intersections_summary s = (Ok st, s1) →
     summary_shape s "intersections"
       ["total_intersections"; "signalized_intersections"; "by_zone";
        "signalized_by_zone"] st)
  ∧ (DashboardApp.get_employment_stats s = (Ok st, s1) →
     summary_shape s "employment"
       ["unemployed"; "employed"; "labour_force"; "unemployment_rate";
        "employment_rate"] st).
Proof.
  repeat split; intros Hr.
  - apply water_sanitation_stats_inv in Hr as [_ H].
    eapply shape_of_complete; [exact H|]. set_solver.
  - apply environment_stats_inv in Hr as [(H & -> & _)|H].
    + by left.
    + eapply shape_of_complete; [right; exact H | done].
  - apply intersections_summary_inv in Hr as [_ H].
    by eapply shape_of_complete.
  - apply employment_stats_inv in Hr as [_ H].
    by eapply shape_of_complete.
Qed.

Lemma handler_summaries_shape_witness :
  ∃ st,
    DataHandler.get_employment_stats
      (<["employment" := Some employment_zero]> ∅)
    = (Ok st, <["employment" := Some employment_zero]> ∅)
    ∧ summary_shape (<["employment" := Some employment_zero]> ∅)
        "employment"
        ["labour_force"; "employed"; "unemployed"; "unemployment_rate"] st.
Proof.
  eexists. split; [reflexivity|].
  refine (proj2 (proj2 (proj2 (handler_summaries_shape _ _ _))) _).
  reflexivity.
Defined.

Lemma dashboard_summaries_shape_witness :
  ∃ st,
    DashboardApp.get_employment_stats
      (<["employment" := Some employment_zero]> ∅)
    = (Ok st, <["employment" := Some employment_zero]> ∅)
    ∧ summary_shape (<["employment" := Some employment_zero]> ∅)
        "employment"
        ["unemployed"; "employed"; "labour_force"; "unemployment_rate";
         "employment_rate"] st.
Proof.
  eexists. split; [reflexivity|].
  refine (proj2 (proj2 (proj2 (dashboard_summaries_shape _ _ _))) _).
  reflexivity.
Defined.


(** ** Loading again *)

Lemma NoDup_fst_functional (l : list (string * string)) (k f g : string) :
  NoDup l.*1 → (k, f) ∈ l → (k, g) ∈ l → f = g.
Proof.
  induction l as [|[k' f'] l IH]; simpl; intros Hn Hf Hg;
    [by apply elem_of_nil in Hf|].
  apply NoDup_cons in Hn as [Hk' Hn].
  apply elem_of_cons in Hf as [Hf|Hf];
    apply elem_of_cons in Hg as [Hg|Hg].
  - congruence.
  - injection Hf as -> ->. exfalso. apply Hk'.
    apply list_elem_of_fmap. by exists (k', g).
  - injection Hg as -> ->. exfalso. apply Hk'.
    apply list_elem_of_fmap. by exists (k', f).
  - by apply IH.
Qed.

Section Reload.
Context (o : os) (dir : string) (files : list (string * string)).
Context (Hnd : NoDup files.*1).

Lemma load_loop_lookup (data : store) (k : string) :
  k ∈ files.*1 →
  ∃ f, foldl (fun d kf => <[kf.1 := entry o dir kf.2]> d) data files !! k
       = Some (entry o dir f)
       ∧ (k, f) ∈ files.
Proof.
  intros ([k' f] & -> & Hin)%list_elem_of_fmap.
  pose proof (load_loop_key o dir files data Hnd) as H.
  rewrite Forall_forall in H. exists f. split; [exact (H _ Hin) | done].
Qed.

(** The loop, run on what it has produced, produces it again. *)
Lemma load_loop_idemp (data s : store) :
  load_loop o dir files data = Ok s → load_loop o dir files s = Ok s.
Proof.
  rewrite !load_loop_ok. intros [= <-]. f_equal.
  apply map_eq. intros k.
  destruct (decide (k ∈ files.*1)) as [Hk|Hk].
  - destruct (load_loop_lookup data k Hk) as (f & -> & Hf).
    destruct (load_loop_lookup
                (foldl (fun d kf => <[kf.1 := entry o dir kf.2]> d)
                   data files) k Hk) as (g & -> & Hg).
    by rewrite (NoDup_fst_functional files k f g).
  - by rewrite !load_loop_other.
Qed.

(** What the loop leaves under the keys of its files does not depend on
    what was there before. *)
Lemma load_loop_fresh (data data' s s' : store) (k : string) :
  load_loop o dir files data = Ok s → load_loop o dir files data' = Ok s' →
  k ∈ files.*1 → s !! k = s' !! k.
Proof.
  rewrite !load_loop_ok. intros [= <-] [= <-] Hk.
  destruct (load_loop_lookup data k Hk) as (f & -> & Hf).
  destruct (load_loop_lookup data' k Hk) as (g & -> & Hg).
  by rewrite (NoDup_fst_functional files k f g).
Qed.

End Reload.

(** X10.  Loading is idempotent: as long as the files do not change,
    [load_all] (and [load_data] of [DataHandler]) run a second time
    leaves the tables exactly as the first run left them; and what a run
    leaves under the five keys does not depend on what the dictionary
    held before. *)
Theorem reload_idempotent (o : os) (dir : string) (data s : store) :
  (DataLoader.load_all o dir data = Ok s →
   DataLoader.load_all o dir s = Ok s
   ∧ ∀ data' s' k, DataLoader.load_all o dir data' = Ok s' →
       k ∈ DataLoader.files.*1 → s !! k = s' !! k)
  ∧ (DataHandler.load_data o dir data = Ok s →
     DataHandler.load_data o dir s = Ok s
     ∧ ∀ data' s' k, DataHandler.load_data o dir data' = Ok s' →
         k ∈ DataHandler.files.*1 → s !! k = s' !! k).
Proof.
  split; intros H; split.
  - by apply (load_loop_idemp o dir _ DataLoader_files_NoDup data).
  - intros data' s' k H' Hk.
    by apply (load_loop_fresh o dir _ DataLoader_files_NoDup data data').
  - by apply (load_loop_idemp o dir _ DataHandler_files_NoDup data).
  - intros data' s' k H' Hk.
    by apply (load_loop_fresh o dir _ DataHandler_files_NoDup data data').
Qed.

Lemma reload_idempotent_witness :
  ∃ s, DataLoader.load_all example_os "data" ∅ = Ok s
       ∧ DataLoader.load_all example_os "data" s = Ok s.
Proof.
  eexists. split; [reflexivity|].
  apply (proj1 (reload_idempotent example_os "data" ∅ _)). reflexivity.
Defined.

(** ** A query reads its own dataset only *)

Lemma reads_only_query {A} (key : string) (a : A) (k : frame → M A) :
  (∀ df, reads_nothing (k df)) →
  reads_only key
    (v ← dict_get key;
     match v with
     | None => mret a
     | Some df => if frame_empty df then mret a else k df
     end).
Proof.
  intros Hk s1 s2 Hs. unfold mbind, M_bind, dict_get. rewrite <- Hs.
  destruct (s1 !! key) as [[df|]|]; try done.
  destruct (frame_empty df); [done | apply Hk].
Qed.

Lemma reads_nothing_lift {A} (r : result A) : reads_nothing (lift r).
Proof. by intros s1 s2. Qed.

Lemma reads_nothing_bind {A B} (m : M A) (k : A → M B) :
  reads_nothing m → (∀ a, reads_nothing (k a)) → reads_nothing (m ≫= k).
Proof.
  intros Hm Hk s1 s2. unfold mbind, M_bind.
  specialize (Hm s1 s2).
  destruct (m s1) as [[a|e] s1'], (m s2) as [[a'|e'] s2']; simpl in Hm;
    try discriminate Hm.
  - injection Hm as <-. apply Hk.
  - by injection Hm as <-.
Qed.

Lemma reads_nothing_assign (key : string) (env : frame) (name : string)
    (rhs : result column) :
  reads_nothing (assign key env name rhs).
Proof. intros s1 s2. unfold assign. by destruct rhs. Qed.

(** X11.  No query looks at another dataset: what a query method
    returns, or raises, is determined by the entry of its own dataset in
    the dictionary of tables. *)
Theorem queries_read_their_dataset :
  reads_only "water_sanitation" DashboardApp.get_water_sanitation_stats
  ∧ reads_only "water_sanitation" DashboardApp.get_water_by_zone
  ∧ reads_only "water_sanitation" DashboardApp.get_water_by_ward
  ∧ reads_only "environment" DashboardApp.get_environment_stats
  ∧ reads_only "environment" DashboardApp.get_environment_trend
  ∧ reads_only "crimes" DashboardApp.get_crimes_trend
  ∧ reads_only "intersections" DashboardApp.get_intersections_summary
  ∧ reads_only "intersections" DashboardApp.get_intersections_by_zone
  ∧ reads_only "employment" DashboardApp.get_employment_stats
  ∧ reads_only "water" DataHandler.get_water_stats
  ∧ reads_only "environment" DataHandler.get_environment_stats
  ∧ reads_only "crimes" DataHandler.get_crime_data
  ∧ reads_only "infrastructure" DataHandler.get_infrastructure_stats
  ∧ reads_only "employment" DataHandler.get_employment_stats
  ∧ ∀ dataset value_col,
      reads_only dataset (DataHandler.get_zone_data dataset value_col).
Proof.
  repeat split;
    try (apply reads_only_query; intros df;
         repeat (first [ apply reads_nothing_lift
                       | apply reads_nothing_assign
                       | apply reads_nothing_bind; [|intros ?] ])).
  intros dataset value_col s1 s2 Hs.
  unfold DataHandler.get_zone_data, mbind, M_bind, dict_get. rewrite <- Hs.
  destruct (s1 !! dataset) as [[df|]|]; try done.
  by destruct (frame_empty df || negb (has_column df ZONE)).
Qed.


(** ** The two groupings by zone *)

(** The common body of the grouping queries, for a name of the key
    column that is not "Value": the name is only a label. *)
Lemma sorted_groups_label (df : frame) (by_ value_col name : string) :
  name ≠ "Value" →
  sorted_groups df by_ value_col [name; "Value"]
  = (r ← sorted_groups df by_ value_col ["Key"; "Value"];
     Ok (zip [name; "Value"] r.*2)).
Proof.
  intros Hname. unfold sorted_groups, groupby_sum.
  destruct (getitem df by_) as [kc|e]; [|done]. simpl.
  destruct (getitem df value_col) as [vc|e]; [|done]. simpl.
  destruct (group_sum vc (groups_of (cells kc))) as [sums|e]; [|done]. simpl.
  destruct (String.eqb by_ value_col); [done|]. simpl.
  unfold sort_values. simpl.
  apply String.eqb_neq in Hname as ->. simpl.
  by destruct (argsort false (cells sums)).
Qed.

Lemma zone_summary_of_groups (df : frame) (value_col : string) :
  frame_empty df = false →
  DataProcessor.get_zone_summary (Some df) value_col
  = Ok (match sorted_groups df ZONE value_col ["Key"; "Value"] with
        | Ok r => Some (zip [ZONE; "Value"] r.*2)
        | Raise _ => None
        end).
Proof.
  intros Hne. rewrite get_zone_summary_eq by done.
  rewrite sorted_groups_label by discriminate.
  by destruct (sorted_groups df ZONE value_col ["Key"; "Value"]).
Qed.

Lemma zone_data_of_groups (s : store) (dataset value_col : string)
    (df : frame) :
  s !! dataset = Some (Some df) → frame_empty df = false →
  DataHandler.get_zone_data dataset value_col s
  = (Ok (match sorted_groups df ZONE value_col ["Key"; "Value"] with
         | Ok r => Some (zip ["Zone"; "Value"] r.*2)
         | Raise _ => None
         end), s).
Proof.
  intros Hs Hne. destruct (has_column df ZONE) eqn:Hz.
  - rewrite (get_zone_data_eq s dataset value_col df) by done.
    rewrite sorted_groups_label by discriminate.
    by destruct (sorted_groups df ZONE value_col ["Key"; "Value"]).
  - rewrite (get_zone_data_missing_column s dataset value_col df)
      by (by try left).
    by rewrite sorted_groups_missing by (by left).
Qed.

(** X12.  [DataHandler.get_zone_data] and [DataProcessor.get_zone_summary]
    are the same query: on the table cached under any dataset name they
    return the same rows in the same order, or both [None]; only the
    header of the key column differs ('Zone' for 'Zone Name').  The test
    ['Zone Name' not in df.columns] of [get_zone_data] changes nothing
    that its [try] would not do. *)
Theorem zone_data_agrees (s : store) (dataset value_col : string)
    (v : option frame) :
  s !! dataset = Some v →
  ∃ r, DataProcessor.get_zone_summary v value_col = Ok r
       ∧ relabel [ZONE; "Value"] r = r
       ∧ DataHandler.get_zone_data dataset value_col s
         = (Ok (relabel ["Zone"; "Value"] r), s).
Proof.
  intros Hs. destruct v as [df|].
  - destruct (frame_empty df) eqn:Hne.
    + exists None. split; [|split; [done|]].
      * unfold DataProcessor.get_zone_summary. by rewrite Hne.
      * apply no_data_zone_data. right. eauto.
    + rewrite zone_summary_of_groups, (zone_data_of_groups s _ _ df)
        by done.
      eexists. split; [reflexivity|].
      destruct (sorted_groups df ZONE value_col ["Key"; "Value"])
        as [r|e]; [|done].
      unfold relabel. simpl.
      destruct r as [|[n1 c1] [|[n2 c2] r]]; done.
  - exists None. split; [done|]. split; [done|].
    apply no_data_zone_data. by left.
Qed.

Lemma zone_data_agrees_witness :
  ∃ r, DataProcessor.get_zone_summary (Some water_example) HOUSEHOLDS = Ok r
       ∧ relabel [ZONE; "Value"] r = r
       ∧ DataHandler.get_zone_data "water" HOUSEHOLDS
           (<["water" := Some water_example]> ∅)
         = (Ok (relabel ["Zone"; "Value"] r),
            <["water" := Some water_example]> ∅).
Proof.
  apply (zone_data_agrees (<["water" := Some water_example]> ∅)).
  reflexivity.
Defined.


(** ** The pages over [DataHandler] *)

Ltac keys_subset :=
  let x := fresh "x" in
  let Hx := fresh "Hx" in
  intros x Hx;
  repeat (apply elem_of_cons in Hx as [-> | Hx]; [compute_done|]);
  by apply elem_of_nil in Hx.

Lemma lift_ok {A} (r : result A) (a : A) (s : store) :
  r = Ok a → lift r s = (Ok a, s).
Proof. by intros ->. Qed.

(** A page that shows entries of its summary and nothing else. *)
Lemma follows_entries (summary : M stats) (key : string)
    (keys ks : list string) (s : store) :
  (∀ st s1, summary s = (Ok st, s1) →
     s1 = s
     ∧ (no_data s key ∧ st = ∅
        ∨ (∃ df, s !! key = Some (Some df) ∧ frame_empty df = false)
          ∧ complete keys st)) →
  keys ≠ [] → ks ⊆ keys →
  follows (stats ← summary;
           if stats_empty stats then mret None
           else shown ← lift (stats_gets stats ks); mret (Some shown))
    summary key s.
Proof.
  intros Hinv Hkeys Hks. unfold follows.
  destruct (summary s) as [[st|e] s1] eqn:Hr;
    [|by rewrite (bind_raise _ _ _ _ _ Hr)].
  rewrite (bind_ok _ _ _ _ _ Hr).
  destruct (Hinv st s1 eq_refl) as [-> [[Hn ->]|[(df & Hs & Hne) Hc]]].
  - exists None. by split.
  - destruct keys as [|k keys]; [done|].
    destruct (complete_nonempty _ _ _ Hc) as [_ ->].
    destruct (complete_gets _ _ ks Hc Hks) as [os Hos].
    rewrite (bind_ok _ _ _ _ _ (lift_ok _ _ _ Hos)).
    eexists. split; [reflexivity|]. split; [done|].
    intros Hn. by destruct (not_no_data s key df Hs Hne).
Qed.

(** A page that shows entries of its summary and a grouping by zone. *)
Lemma follows_entries_zone (summary : M stats) (key value_col : string)
    (keys ks : list string) (s : store) :
  (∀ st s1, summary s = (Ok st, s1) →
     s1 = s
     ∧ (no_data s key ∧ st = ∅
        ∨ (∃ df, s !! key = Some (Some df) ∧ frame_empty df = false)
          ∧ complete keys st)) →
  keys ≠ [] → ks ⊆ keys →
  follows (stats ← summary;
           if stats_empty stats then mret None
           else
             metrics ← lift (stats_gets stats ks);
             zone_data ← DataHandler.get_zone_data key value_col;
             mret (Some (metrics ++ [OFrame zone_data])))
    summary key s.
Proof.
  intros Hinv Hkeys Hks. unfold follows.
  destruct (summary s) as [[st|e] s1] eqn:Hr;
    [|by rewrite (bind_raise _ _ _ _ _ Hr)].
  rewrite (bind_ok _ _ _ _ _ Hr).
  destruct (Hinv st s1 eq_refl) as [-> [[Hn ->]|[(df & Hs & Hne) Hc]]].
  - exists None. by split.
  - destruct keys as [|k keys]; [done|].
    destruct (complete_nonempty _ _ _ Hc) as [_ ->].
    destruct (complete_gets _ _ ks Hc Hks) as [os Hos].
    rewrite (bind_ok _ _ _ _ _ (lift_ok _ _ _ Hos)).
    destruct (grouping_total s) as (_ & _ & Hz).
    destruct (Hz key value_col _ Hs) as [r Hr'].
    rewrite (bind_ok _ _ _ _ _ Hr').
    eexists. split; [reflexivity|]. split; [done|].
    intros Hn. by destruct (not_no_data s key df Hs Hne).
Qed.

(** X13.  The water, environment, infrastructure and employment pages
    of [pages.py] add no failure of their own to their summary: each
    returns whenever its summary returns, reports "no data" exactly when
    the dataset is absent or has no row, and otherwise finds every entry
    it looks up; it raises only what the summary raises. *)
Theorem handler_pages_follow (s : store) :
  follows Pages.WaterPage.render DataHandler.get_water_stats "water" s
  ∧ follows Pages.EnvironmentPage.render DataHandler.get_environment_stats
      "environment" s
  ∧ follows Pages.InfrastructurePage.render
      DataHandler.get_infrastructure_stats "infrastructure" s
  ∧ follows Pages.EmploymentPage.render DataHandler.get_employment_stats
      "employment" s.
Proof.
  split; [|split; [|split]].
  - eapply follows_entries_zone;
      [intros st s1; apply handler_water_stats_inv | done
      | keys_subset].
  - eapply follows_entries;
      [intros st s1; apply handler_environment_stats_complete | done
      | keys_subset].
  - eapply follows_entries_zone;
      [intros st s1; apply handler_infrastructure_stats_inv | done
      | keys_subset].
  - eapply follows_entries;
      [intros st s1; apply handler_employment_stats_inv | done
      | keys_subset].
Qed.

Lemma handler_pages_follow_witness :
  follows Pages.EmploymentPage.render DataHandler.get_employment_stats
    "employment" (<["employment" := Some employment_zero]> ∅).
Proof. apply handler_pages_follow. Defined.


(** ** The pages over [DashboardApp] *)

Lemma stats_get_list (l : list (string * pyobj)) (k : string) (v : pyobj) :
  NoDup l.*1 → (k, v) ∈ l → stats_get (list_to_map l) k = Ok v.
Proof.
  intros Hnd Hin. unfold stats_get.
  by rewrite (elem_of_list_to_map_1 l k v Hnd Hin).
Qed.

Lemma intersections_summary_ok (s : store) (df : frame) (t z : Z) :
  s !! "intersections" = Some (Some df) → frame_empty df = false →
  int_sum df JUNCTIONS = Ok t → int_sum df SIGNALIZED = Ok z →
  ∃ bz sz,
    DashboardApp.get_intersections_summary s
    = (Ok (list_to_map
             [("total_intersections", OVal (VInt t));
              ("signalized_intersections", OVal (VInt z));
              ("by_zone", OFrame bz);
              ("signalized_by_zone", OFrame sz)]), s).
Proof.
  intros Hs Hne Ht Hz.
  destruct (get_zone_summary_total (Some df) JUNCTIONS) as [bz Hbz].
  destruct (get_zone_summary_total (Some df) SIGNALIZED) as [sz Hsz].
  exists bz, sz. unfold DashboardApp.get_intersections_summary.
  rewrite (bind_ok _ _ _ _ _ (dict_get_ok _ _ _ Hs)). rewrite Hne.
  unfold lift. by rewrite Ht, Hz, Hbz, Hsz.
Qed.

(** X14.  The infrastructure page of [pages_complete.py] divides by the
    total number of intersections without a guard: on a table that is
    not empty and whose junction counts sum to 0, the summary returns
    (with a total of 0) and the page raises [ZeroDivisionError].  The
    same table gives a signalization rate of 0 in [DataHandler], which
    has the guard. *)
Theorem infrastructure_page_zero_division (s : store) (df : frame) (z : Z) :
  s !! "intersections" = Some (Some df) → frame_empty df = false →
  int_sum df JUNCTIONS = Ok 0 → int_sum df SIGNALIZED = Ok z →
  (∃ st, DashboardApp.get_intersections_summary s = (Ok st, s)
         ∧ st !! "total_intersections" = Some (OVal (VInt 0)))
  ∧ PagesComplete.InfrastructurePage.render s = (Raise ZeroDivisionError, s)
  ∧ ∀ s', s' !! "infrastructure" = Some (Some df) →
      ∃ st', DataHandler.get_infrastructure_stats s' = (Ok st', s')
             ∧ st' !! "signalization_pct" = Some (OVal (VInt 0)).
Proof.
  intros Hs Hne Ht Hz.
  destruct (intersections_summary_ok s df 0 z Hs Hne Ht Hz)
    as (bz & sz & Hr).
  set (l := [("total_intersections", OVal (VInt 0));
             ("signalized_intersections", OVal (VInt z));
             ("by_zone", OFrame bz); ("signalized_by_zone", OFrame sz)])
    in Hr.
  assert (Hnd : NoDup l.*1) by compute_done.
  assert (G1 : stats_get (list_to_map l) "total_intersections"
               = Ok (OVal (VInt 0)))
    by (apply stats_get_list; [done | by left]).
  assert (G2 : stats_get (list_to_map l) "signalized_intersections"
               = Ok (OVal (VInt z)))
    by (apply stats_get_list; [done | right; by left]).
  split; [|split].
  - eexists. split; [exact Hr|].
    by apply elem_of_list_to_map_1; [|left].
  - unfold PagesComplete.InfrastructurePage.render.
    rewrite (bind_ok _ _ _ _ _ Hr).
    destruct (complete_nonempty _ _ _ (complete_list l)) as [_ ->].
    unfold lift, stats_gets, rmapM. by rewrite G1, G2.
  - intros s' Hs'. eexists.
    unfold DataHandler.get_infrastructure_stats.
    rewrite (bind_ok _ _ _ _ _ (dict_get_ok _ _ _ Hs')). rewrite Hne.
    unfold lift. rewrite Ht, Hz. split; reflexivity.
Qed.

Lemma infrastructure_page_zero_division_witness :
  PagesComplete.InfrastructurePage.render
    (<["intersections" := Some intersections_none]> ∅)
  = (Raise ZeroDivisionError, <["intersections" := Some intersections_none]> ∅).
Proof.
  apply (infrastructure_page_zero_division
           (<["intersections" := Some intersections_none]> ∅)
           intersections_none 0); reflexivity.
Defined.

(** The trend on the tables that [get_environment_stats] leaves. *)
Lemma trend_after_stats (s : store) (env : frame) :
  s !! "environment" = Some (Some env) → frame_wf env →
  DashboardApp.get_environment_trend
    (DashboardApp.get_environment_stats s).2
  = ((DashboardApp.get_environment_trend s).1,
     (DashboardApp.get_environment_stats s).2).
Proof.
  intros Hs Hwf.
  destruct queries_read_only as (_ & _ & _ & _ & _ & _ & Hro & _).
  rewrite <- (Hro (DashboardApp.get_environment_stats s).2) at 2.
  rewrite (surjective_pairing
             (DashboardApp.get_environment_trend
                (DashboardApp.get_environment_stats s).2)) at 1.
  f_equal.
  destruct (environment_stats_store s env Hs) as (env' & -> & Hu).
  destruct (Hu Hwf) as (_ & Hlen & _ & Hget).
  rewrite (environment_trend_columns _ env') by (by rewrite lookup_insert_eq).
  rewrite (environment_trend_columns s env Hs).
  rewrite !frame_empty_len, Hlen.
  by rewrite !Hget by compute_done.
Qed.

(** X15.  The environment page of [pages_complete.py] needs a column
    that its summary does not read: on a well-formed table that has the
    five pollutant columns but not 'Month -Year', the summary returns its
    five averages, and the page, which goes on to the trend, raises
    [KeyError]. *)
Theorem environment_page_needs_months (s : store) (env : frame) :
  s !! "environment" = Some (Some env) →
  frame_wf env → frame_empty env = false →
  Forall (fun name => has_column env name = true) [PM25; PM10; NO2; SO2; O3] →
  has_column env MONTH_YEAR = false →
  ∃ st s1,
    DashboardApp.get_environment_stats s = (Ok st, s1)
    ∧ complete ["pm25_avg"; "pm10_avg"; "no2_avg"; "so2_avg"; "o3_avg"] st
    ∧ PagesComplete.EnvironmentPage.render s = (Raise KeyError, s1).
Proof.
  intros Hs Hwf Hne Hcols Hm.
  apply Forall_cons in Hcols as [[c25 H25]%has_column_getitem Hcols].
  apply Forall_cons in Hcols as [[c10 H10]%has_column_getitem Hcols].
  apply Forall_cons in Hcols as [[cno2 Hno2]%has_column_getitem Hcols].
  apply Forall_cons in Hcols as [[cso2 Hso2]%has_column_getitem Hcols].
  apply Forall_cons in Hcols as [[co3 Ho3]%has_column_getitem _].
  pose proof (dashboard_environment_stats s env c25 c10 cno2 cso2 co3
                Hs Hne H25 H10 Hno2 Hso2 Ho3) as Hr.
  pose proof (trend_after_stats s env Hs Hwf) as Ht.
  rewrite Hr in Ht. simpl in Ht.
  rewrite (environment_trend_columns s env Hs), Hne, H25, H10 in Ht.
  rewrite (has_column_false _ _ Hm) in Ht. simpl in Ht.
  eexists _, _. split; [exact Hr|]. split; [complete_map|].
  unfold PagesComplete.EnvironmentPage.render.
  rewrite (bind_ok _ _ _ _ _ Hr).
  match goal with
  | |- context [stats_empty ?st] =>
      assert (Hc : complete ["pm25_avg"; "pm10_avg"; "no2_avg"; "so2_avg";
                             "o3_avg"] st) by complete_map
  end.
  destruct (complete_nonempty _ _ _ Hc) as [_ ->].
  destruct (complete_gets _ _ ["pm25_avg"; "pm10_avg"; "no2_avg"; "so2_avg";
                               "o3_avg"] Hc) as [os Hos]; [done|].
  rewrite (bind_ok _ _ _ _ _ (lift_ok _ _ _ Hos)).
  by rewrite (bind_raise _ _ _ _ _ Ht).
Qed.

Lemma environment_page_needs_months_witness :
  ∃ st s1,
    DashboardApp.get_environment_stats
      (<["environment" := Some env_no_months]> ∅) = (Ok st, s1)
    ∧ complete ["pm25_avg"; "pm10_avg"; "no2_avg"; "so2_avg"; "o3_avg"] st
    ∧ PagesComplete.EnvironmentPage.render
        (<["environment" := Some env_no_months]> ∅) = (Raise KeyError, s1).
Proof.
  apply (environment_page_needs_months
           (<["environment" := Some env_no_months]> ∅) env_no_months);
    try reflexivity.
  - exists 3%nat. repeat constructor.
  - repeat constructor.
Defined.


(** *** The water and employment pages *)

Lemma existsb_subseteq {A} (p : A → bool) (l' l : list A) :
  l' ⊆ l → existsb p l' = true → existsb p l = true.
Proof.
  intros Hsub. rewrite !existsb_exists.
  intros (x & Hx & Hp). exists x. split; [|done].
  apply list_elem_of_In, Hsub, list_elem_of_In, Hx.
Qed.

(** Cells taken from cells that can be compared can be compared. *)
Lemma comparable_subseteq (l' l : list value) :
  l' ⊆ l → comparable l = true → comparable l' = true.
Proof.
  intros Hsub.
  assert (Hf : filter (fun v => notna v = true) l'
               ⊆ filter (fun v => notna v = true) l).
  { intros x [Hp Hx]%list_elem_of_filter.
    apply list_elem_of_filter. split; [done | by apply Hsub]. }
  unfold comparable. rewrite !negb_true_iff, !andb_false_iff.
  intros [H|H]; [left | right].
  - destruct (existsb is_number (filter (fun v => notna v = true) l'))
      eqn:E; [|done].
    rewrite <- H. symmetry. by apply (existsb_subseteq _ _ _ Hf).
  - destruct (existsb is_str l') eqn:E; [|done].
    rewrite <- H. symmetry. by apply (existsb_subseteq _ l').
Qed.

Lemma take_at_subseteq {A} (idx : list nat) (l : list A) :
  take_at idx A l ⊆ l.
Proof.
  intros x Hx. unfold take_at in Hx.
  apply list_elem_of_omap in Hx as (i & _ & Hi).
  by eapply list_elem_of_lookup_2.
Qed.

Lemma slice_to_subseteq {A} (n : Z) (l : list A) : slice_to n A l ⊆ l.
Proof.
  intros x Hx. unfold slice_to in Hx.
  destruct (0 <=? n)%Z; by apply elem_of_take in Hx as (i & Hi & _);
    eapply list_elem_of_lookup_2.
Qed.

(** The common body of the grouping queries, when it returns. *)
Lemma sorted_groups_inv (df : frame) (by_ value_col name : string)
    (r : frame) :
  name ≠ "Value" →
  sorted_groups df by_ value_col [name; "Value"] = Ok r →
  ∃ keys sums idx,
    argsort false (cells sums) = Ok idx
    ∧ r = [(name, col_take idx keys); ("Value", col_take idx sums)].
Proof.
  intros Hname. unfold sorted_groups, groupby_sum.
  destruct (getitem df by_) as [kc|e]; [|done]. simpl.
  destruct (getitem df value_col) as [vc|e]; [|done]. simpl.
  destruct (group_sum vc (groups_of (cells kc))) as [sums|e]; [|done]. simpl.
  destruct (String.eqb by_ value_col); [done|]. simpl.
  unfold sort_values. simpl.
  apply String.eqb_neq in Hname as ->. simpl.
  destruct (argsort false (cells sums)) as [idx|e] eqn:E; [|done].
  intros [= <-]. by eexists _, _, _.
Qed.

(** The wards that [get_water_by_ward] returns can be sorted again. *)
Lemma ward_summary_sortable (df : frame) (value_col : string) (top_n : Z)
    (f : frame) :
  DataProcessor.get_ward_summary (Some df) value_col top_n = Ok (Some f) →
  ∃ r, sort_values f "Value" true = Ok r.
Proof.
  intros H. destruct (frame_empty df) eqn:Hne.
  { unfold DataProcessor.get_ward_summary in H. by rewrite Hne in H. }
  rewrite get_ward_summary_eq in H by done.
  destruct (sorted_groups df WARD value_col [WARD; "Value"]) as [r|e] eqn:E;
    [|done].
  injection H as <-.
  apply sorted_groups_inv in E as (keys & sums & idx & Hidx & ->);
    [|discriminate].
  unfold sort_values, df_head. simpl.
  assert (Hc : comparable (cells (col_rows (slice_to top_n)
                                    (col_take idx sums))) = true).
  { apply (comparable_subseteq _ (cells sums)).
    - rewrite cells_col_rows by (intros; apply slice_to_fmap).
      rewrite cells_col_take.
      etrans; [apply slice_to_subseteq | apply take_at_subseteq].
    - unfold argsort in Hidx. by destruct (comparable (cells sums)). }
  destruct (argsort_ok true _ Hc) as [idx' ->]. by eexists.
Qed.

Lemma water_page_follows (s : store) :
  follows PagesComplete.WaterSanitationPage.render
    DashboardApp.get_water_sanitation_stats "water_sanitation" s.
Proof.
  unfold follows.
  destruct (DashboardApp.get_water_sanitation_stats s) as [[st|e] s1] eqn:Hr;
    [|unfold PagesComplete.WaterSanitationPage.render;
      by rewrite (bind_raise _ _ _ _ _ Hr)].
  unfold PagesComplete.WaterSanitationPage.render.
  rewrite (bind_ok _ _ _ _ _ Hr).
  destruct (water_sanitation_stats_inv s s1 st Hr)
    as [-> [[Hn ->]|[(df & Hs & Hne) Hc]]].
  - exists None. by split.
  - destruct (complete_nonempty _ _ _ Hc) as [_ ->].
    destruct (complete_gets _ _
                ["total_households"; "sewerage_pct"; "toilet_pct";
                 "public_toilets"] Hc) as [os Hos]; [keys_subset|].
    rewrite (bind_ok _ _ _ _ _ (lift_ok _ _ _ Hos)).
    destruct (grouping_total s) as (Hw & _ & _).
    destruct (Hw _ Hs) as [[bz Hbz] _].
    rewrite (bind_ok _ _ _ _ _ Hbz).
    assert (Hbw : ∃ bw bws,
              DashboardApp.get_water_by_ward s = (Ok bw, s)
              ∧ match bw with
                | None => Ok None
                | Some by_ward =>
                    r ← sort_values by_ward "Value" true; Ok (Some r)
                end = Ok bws).
    { unfold DashboardApp.get_water_by_ward.
      rewrite (bind_ok _ _ _ _ _ (dict_get_ok _ _ _ Hs)). rewrite Hne.
      unfold lift.
      destruct (get_ward_summary_total (Some df) PUBLIC_TOILETS 15)
        as [[f|] Hf]; rewrite Hf.
      - destruct (ward_summary_sortable _ _ _ _ Hf) as [r Hsort].
        exists (Some f), (Some r). split; [done|]. by rewrite Hsort.
      - by exists None, None. }
    destruct Hbw as (bw & bws & Hbw & Hsort).
    rewrite (bind_ok _ _ _ _ _ Hbw).
    rewrite (bind_ok _ _ _ _ _ (lift_ok _ _ _ Hsort)).
    destruct (complete_gets _ _
                ["total_households"; "sewerage_coverage"; "toilet_coverage";
                 "free_toilets_female"; "free_toilets_male";
                 "paid_toilets_female"; "paid_toilets_male";
                 "public_toilets"] Hc) as [os' Hos']; [keys_subset|].
    rewrite (bind_ok _ _ _ _ _ (lift_ok _ _ _ Hos')).
    eexists. split; [reflexivity|]. split; [done|].
    intros Hn. by destruct (not_no_data s _ df Hs Hne).
Qed.

(** X16.  The water and employment pages of [pages_complete.py] add no
    failure of their own to their summary: each returns whenever its
    summary returns, and reports "no data" exactly when the dataset is
    absent or has no row; it raises only what the summary raises.  For
    the water page this covers the two groupings it asks for and the
    second sort of the wards. *)
Theorem dashboard_pages_follow (s : store) :
  follows PagesComplete.WaterSanitationPage.render
    DashboardApp.get_water_sanitation_stats "water_sanitation" s
  ∧ follows PagesComplete.EmploymentPage.render
      DashboardApp.get_employment_stats "employment" s.
Proof.
  split; [apply water_page_follows|].
  eapply follows_entries;
    [intros st s1; apply employment_stats_inv | done | keys_subset].
Qed.

Lemma dashboard_pages_follow_witness :
  follows PagesComplete.EmploymentPage.render
    DashboardApp.get_employment_stats "employment"
    (<["employment" := Some employment_zero]> ∅).
Proof. apply dashboard_pages_follow. Defined.


(** ** The latest year of the crimes trend *)

Lemma last_zip {A B} (l : list A) (k : list B) (x : A) (y : B) :
  length l = length k → last l = Some x → last k = Some y →
  (x, y) ∈ zip l k.
Proof.
  intros Hlen Hx Hy. rewrite last_lookup in Hx. rewrite last_lookup in Hy.
  apply list_elem_of_lookup. exists (pred (length l)).
  rewrite lookup_zip_with, Hx. simpl. by rewrite Hlen, Hy.
Qed.

Lemma last_elem_of {A} (l : list A) (x : A) : last l = Some x → x ∈ l.
Proof.
  rewrite last_lookup. intros H. by eapply list_elem_of_lookup_2.
Qed.

(** In a sorted list everything is below the last element, or is it. *)
Lemma sorted_last {A} (R : A → A → Prop) (l : list A) (x y : A) :
  StronglySorted R l → last l = Some x → y ∈ l → y = x ∨ R y x.
Proof.
  induction 1 as [|a l Hs IH Ha]; intros Hl Hy; [done|].
  destruct l as [|b l].
  - injection Hl as <-. apply list_elem_of_singleton in Hy. by left.
  - change (last (b :: l) = Some x) in Hl.
    apply elem_of_cons in Hy as [->|Hy]; [|by apply IH].
    right. rewrite Forall_forall in Ha. by apply Ha, last_elem_of.
Qed.

Lemma row_leb_refl (asc : bool) (v : value) : row_leb asc v v = true.
Proof. by destruct (row_leb_total asc v v). Qed.

Lemma py_int_row_cell (df : frame) (v : value) :
  py_int (row_cell df v) = py_int v.
Proof.
  unfold row_cell.
  destruct (existsb _ df); [done|]. destruct (existsb _ df); [|done].
  destruct v as [|z| |]; try done. simpl. unfold Float.trunc. simpl.
  by rewrite Z.quot_1_r.
Qed.

(** The trend, with the lengths of its columns. *)
Lemma crimes_by_year_rows (df : frame) (yc cc : column) :
  frame_wf df →
  getitem df YEAR = Ok yc → getitem df CRIMES = Ok cc →
  comparable (cells yc) = true →
  ∃ yc' cc',
    crimes_by_year df = Ok (Some [(YEAR, yc'); (CRIMES, cc')])
    ∧ ascending (cells yc')
    ∧ length (cells yc') = length (cells yc)
    ∧ length (cells cc') = length (cells yc)
    ∧ zip (cells yc') (cells cc') ≡ₚ zip (cells yc) (cells cc).
Proof.
  intros Hwf Hy Hc Hcmp.
  assert (Hlen : length (cells yc) = length (cells cc))
    by apply (frame_wf_col_len df YEAR CRIMES yc cc Hwf Hy Hc).
  destruct (argsort_ok true _ Hcmp) as [idx Hidx].
  pose proof (argsort_Permutation _ _ _ Hidx) as Hp.
  exists (col_take idx yc), (col_take idx cc).
  split; [|split; [|split; [|split]]].
  - unfold crimes_by_year, select. simpl. rewrite Hy, Hc. simpl.
    unfold sort_values. simpl. by rewrite Hidx.
  - unfold ascending. rewrite cells_col_take. by apply argsort_sorted.
  - rewrite cells_col_take. by apply take_at_length.
  - rewrite cells_col_take, take_at_length; [done | by rewrite <- Hlen].
  - rewrite !cells_col_take, <- take_at_zip by done.
    apply take_at_Permutation. rewrite Hp.
    rewrite length_zip. by rewrite <- Hlen, Nat.min_id.
Qed.

Lemma last_nonempty {A} (l : list A) :
  length l ≠ 0%nat → ∃ x, last l = Some x.
Proof.
  intros H. destruct (last l) as [x|] eqn:E; [by exists x|].
  apply last_None in E. by subst.
Qed.

Lemma row_get_year (a b : value) :
  row_get [(YEAR, a); (CRIMES, b)] YEAR = Ok a.
Proof. done. Qed.

Lemma row_get_crimes (a b : value) :
  row_get [(YEAR, a); (CRIMES, b)] CRIMES = Ok b.
Proof. done. Qed.

(** The last row of the trend is a row of the table that the sort puts
    last. *)
Lemma crimes_trend_latest (df : frame) (yc cc : column) :
  frame_wf df → frame_empty df = false →
  getitem df YEAR = Ok yc → getitem df CRIMES = Ok cc →
  comparable (cells yc) = true →
  ∃ td y c,
    crimes_by_year df = Ok (Some td)
    ∧ frame_empty td = false
    ∧ iloc_last td = Ok [(YEAR, row_cell td y); (CRIMES, row_cell td c)]
    ∧ (y, c) ∈ zip (cells yc) (cells cc)
    ∧ ∀ y', y' ∈ cells yc → row_leb true y' y = true.
Proof.
  intros Hwf Hne Hy Hc Hcmp.
  destruct (crimes_by_year_rows df yc cc Hwf Hy Hc Hcmp)
    as (yc' & cc' & Hr & Hasc & Hly & Hlc & Hperm).
  assert (Hlen : length (cells yc) = length (cells cc))
    by apply (frame_wf_col_len df YEAR CRIMES yc cc Hwf Hy Hc).
  assert (Hn : length (cells yc) ≠ 0%nat).
  { pose proof (frame_wf_getitem_len df YEAR yc Hwf Hy) as H.
    unfold col_len in H. rewrite H.
    rewrite frame_empty_len in Hne. by apply Nat.eqb_neq in Hne. }
  destruct (last_nonempty (cells yc')) as [y Hlast_y]; [by rewrite Hly|].
  destruct (last_nonempty (cells cc')) as [c Hlast_c]; [by rewrite Hlc|].
  exists [(YEAR, yc'); (CRIMES, cc')], y, c.
  split; [exact Hr|]. split; [|split; [|split]].
  - simpl. unfold col_len. rewrite Hly. by apply Nat.eqb_neq.
  - unfold iloc_last. simpl frame_len. unfold col_len. rewrite Hly.
    apply Nat.eqb_neq in Hn as ->.
    unfold rmapM. simpl. by rewrite Hlast_y, Hlast_c.
  - rewrite <- Hperm. apply last_zip; [by rewrite Hly, Hlc | done | done].
  - intros y' Hy'.
    assert (Hin : y' ∈ cells yc').
    { rewrite <- (fst_zip (cells yc') (cells cc')) by (rewrite Hly, Hlc; lia).
      rewrite Hperm. rewrite fst_zip by lia. done. }
    destruct (sorted_last _ _ y y' Hasc Hlast_y Hin) as [->|H]; [|done].
    apply row_leb_refl.
Qed.

(** The steps of a body that has returned have all returned; what each
    has returned is kept. *)
Ltac bind_inv_eqn Hb :=
  cbv beta iota delta [mbind result_bind] in Hb;
  repeat (match type of Hb with
          | context [match ?r with Ok _ => _ | Raise _ => _ end] =>
              destruct r eqn:?; [|discriminate Hb]
          end;
          cbv beta iota delta [mbind result_bind] in Hb);
  injection Hb as <-.

(** What the sort puts last when no year is missing is the largest
    year; when a year is missing it is a row without a year. *)
Lemma sorted_last_year (yc : column) (y : value) :
  y ∈ cells yc →
  (∀ y', y' ∈ cells yc → row_leb true y' y = true) →
  (all_present yc →
   notna y = true
   ∧ ∀ y', y' ∈ cells yc → notna y' = true ∧ value_leb y' y = true)
  ∧ (¬ all_present yc → isna y = true).
Proof.
  intros Hy Hlast. split.
  - intros Hall. unfold all_present in Hall. rewrite Forall_forall in Hall.
    pose proof (Hall y Hy) as Hny. split; [done|].
    intros y' Hy'. pose proof (Hall y' Hy') as Hny'. split; [done|].
    specialize (Hlast y' Hy'). unfold row_leb in Hlast.
    unfold notna in Hny, Hny'.
    apply negb_true_iff in Hny, Hny'. by rewrite Hny, Hny' in Hlast.
  - intros Hn. destruct (isna y) eqn:E; [done|]. exfalso. apply Hn.
    apply Forall_forall. intros y' Hy'.
    specialize (Hlast y' Hy'). unfold row_leb in Hlast. rewrite E in Hlast.
    unfold notna. by destruct (isna y').
Qed.

(** On a column of integers the order of the cells is that of the
    integers. *)
Lemma latest_int (l : list Z) (y : value) :
  y ∈ cells (IntCol l) →
  (∀ y', y' ∈ cells (IntCol l) → row_leb true y' y = true) →
  ∃ z, y = VInt z ∧ ∀ z', z' ∈ l → (z' ≤ z)%Z.
Proof.
  simpl. intros Hy Hlast.
  apply list_elem_of_fmap in Hy as (z & -> & Hz).
  exists z. split; [done|]. intros z' Hz'.
  specialize (Hlast (VInt z')). unfold row_leb, value_leb in Hlast. simpl in Hlast.
  rewrite Zle_Qle. apply Qle_bool_iff. apply Hlast.
  apply list_elem_of_fmap. by exists z'.
Qed.

(** X17.  The "latest" crimes figure is that of the last row of the
    trend.  On a well-formed crimes table that is not empty and whose
    years can be compared, the trend of both classes ends with a row
    [(y, c)] of the table; the "Recent Crimes" figure of the two
    overviews is [int(c)], and so is that of the two crime pages, which
    show [y] next to it.  When no year is missing, [y] is the latest year:
    no year of the table is larger (for a column of integers: as
    integers).  When a year is missing, the rows without a year are
    sorted last and [y] is missing: the figure is that of a row without
    a year. *)
Theorem recent_crimes_of_latest_year (s : store) (df : frame)
    (yc cc : column) :
  s !! "crimes" = Some (Some df) →
  frame_wf df → frame_empty df = false →
  getitem df YEAR = Ok yc → getitem df CRIMES = Ok cc →
  comparable (cells yc) = true →
  ∃ td y c,
    DashboardApp.get_crimes_trend s = (Ok (Some td), s)
    ∧ DataHandler.get_crime_data s = (Ok (Some td), s)
    ∧ (y, c) ∈ zip (cells yc) (cells cc)
    ∧ (all_present yc → latest yc cc y c)
    ∧ (∀ l, yc = IntCol l →
         ∃ z, y = VInt z ∧ ∀ z', z' ∈ l → (z' ≤ z)%Z)
    ∧ (¬ all_present yc → isna y = true)
    ∧ crime_count (Some td) = (z ← py_int c; Ok (Some z))
    ∧ (∀ view s',
         Pages.CrimePage.render s = (Ok (Some view), s') →
         ∃ zy zc, py_int y = Ok zy ∧ py_int c = Ok zc
                  ∧ take 2 view = [OVal (VInt zy); OVal (VInt zc)])
    ∧ (∀ view s',
         PagesComplete.CrimesPage.render_metrics s = (Ok (Some view), s') →
         ∃ zc, py_int c = Ok zc
               ∧ take 2 view = [OVal (row_cell td y); OVal (VInt zc)]).
Proof.
  intros Hs Hwf Hne Hy Hc Hcmp.
  destruct (crimes_trend_latest df yc cc Hwf Hne Hy Hc Hcmp)
    as (td & y & c & Hr & Hne' & Hlast & Hrow & Hmax).
  assert (Hyin : y ∈ cells yc).
  { apply elem_of_zip_l in Hrow. exact Hrow. }
  destruct (sorted_last_year yc y Hyin Hmax) as [Hpresent Hmissing].
  destruct (get_crimes_trend_eq s df Hs Hne) as [H1 H2].
  rewrite Hr in H1, H2.
  exists td, y, c. split; [done|]. split; [done|]. split; [done|].
  split; [|split; [|split; [done|]]].
  { intros Hall. split; [done|]. by apply Hpresent. }
  { intros l ->. by apply latest_int. }
  split; [|split].
  - unfold crime_count. rewrite Hne', Hlast.
    cbv beta iota delta [mbind result_bind].
    by rewrite row_get_crimes, py_int_row_cell.
  - intros view s' Hv. unfold Pages.CrimePage.render in Hv.
    rewrite (bind_ok _ _ _ _ _ H2), Hne' in Hv. unfold lift in Hv.
    injection Hv as Hv _. rewrite Hlast in Hv.
    cbv beta iota delta [mbind result_bind] in Hv.
    rewrite row_get_year, row_get_crimes, !py_int_row_cell in Hv.
    bind_inv_eqn Hv. by eexists _, _.
  - intros view s' Hv.
    unfold PagesComplete.CrimesPage.render_metrics in Hv.
    rewrite (bind_ok _ _ _ _ _ H1), Hne' in Hv. unfold lift in Hv.
    injection Hv as Hv _. rewrite Hlast in Hv.
    cbv beta iota delta [mbind result_bind] in Hv.
    rewrite row_get_year, row_get_crimes, !py_int_row_cell in Hv.
    bind_inv_eqn Hv. by eexists.
Qed.

Lemma recent_crimes_of_latest_year_witness :
  ∃ td,
    DashboardApp.get_crimes_trend (<["crimes" := Some crimes_table]> ∅)
    = (Ok (Some td), <["crimes" := Some crimes_table]> ∅)
    ∧ crime_count (Some td) = Ok (Some 300%Z).
Proof.
  destruct (recent_crimes_of_latest_year
              (<["crimes" := Some crimes_table]> ∅) crimes_table
              (IntCol [2019; 2021; 2020]) (IntCol [100; 300; 200]))
    as (td & y & c & H1 & _ & Hrow & _ & Hint & _ & Hcount & _);
    try reflexivity.
  - exists 3%nat. repeat constructor.
  - exists td. split; [exact H1|]. rewrite Hcount.
    destruct (Hint _ eq_refl) as (z & -> & Hz).
    assert (H21 : (2021 ≤ z)%Z).
    { apply Hz. apply elem_of_cons. right. apply elem_of_cons. by left. }
    simpl in Hrow.
    apply elem_of_cons in Hrow as [Hrow|Hrow];
      [injection Hrow as -> ->; lia|].
    apply elem_of_cons in Hrow as [Hrow|Hrow];
      [by injection Hrow as -> ->|].
    apply elem_of_cons in Hrow as [Hrow|Hrow];
      [injection Hrow as -> ->; lia|].
    by apply elem_of_nil in Hrow.
Defined.

(** ** The overviews without data *)

Lemma record_count_no_data (s : store) (key : string) :
  no_data s key → record_count key s = (Ok 0%nat, s).
Proof.
  intros [Hs|(df & Hs & He)]; unfold record_count;
    rewrite (bind_ok _ _ _ _ _ (dict_get_ok _ _ _ Hs)); [done|].
  rewrite frame_empty_len in He. apply Nat.eqb_eq in He.
  by rewrite <- He.
Qed.

Lemma M_mapM_ok {A B} (f : A → M B) (g : A → B) (l : list A) (s : store) :
  Forall (fun a => f a s = (Ok (g a), s)) l →
  M_mapM f l s = (Ok (g <$> l), s).
Proof.
  induction 1 as [|a l Ha _ IH]; [done|]. simpl.
  rewrite (bind_ok _ _ _ _ _ Ha). by rewrite (bind_ok _ _ _ _ _ IH).
Qed.

(** X18.  The overview of [app.py] on a dashboard without data: when
    each of the five datasets is absent or has no row, [show_overview]
    raises nothing, leaves the tables alone, and shows 0 for every
    figure, "N/A" for the recent crimes and 0 records for every
    dataset. *)
Theorem overview_without_data (s : store) :
  Forall (no_data s) App.datasets →
  App.show_overview s = (Ok blank_overview, s).
Proof.
  intros H.
  apply Forall_cons in H as [Hw H]. apply Forall_cons in H as [He H].
  apply Forall_cons in H as [Hc H]. apply Forall_cons in H as [Hi H].
  apply Forall_cons in H as [Hm _].
  destruct (no_data_sentinel s)
    as (H1 & H2 & H3 & H4 & H5 & _).
  destruct (H1 Hw) as (Hws & _). destruct (H2 He) as (Hes & _).
  destruct (H3 Hc) as (Hcs & _). destruct (H4 Hi) as (His & _).
  destruct (H5 Hm) as (Hms & _).
  unfold App.show_overview.
  rewrite (bind_ok _ _ _ _ _ Hws), (bind_ok _ _ _ _ _ Hes),
    (bind_ok _ _ _ _ _ Hcs), (bind_ok _ _ _ _ _ His),
    (bind_ok _ _ _ _ _ Hms).
  rewrite (bind_ok _ _ s s None) by done.
  erewrite (bind_ok (M_mapM _ _)).
  2:{ apply (M_mapM_ok _ (fun kn : string * string => (kn.2, 0%nat))).
      repeat constructor; simpl;
        by erewrite bind_ok by (by apply record_count_no_data). }
  reflexivity.
Qed.

Lemma overview_without_data_witness :
  ∃ s, DashboardApp.init empty_os "data" = Ok s
       ∧ App.show_overview s = (Ok blank_overview, s).
Proof.
  eexists. split; [reflexivity|].
  apply overview_without_data.
  repeat constructor; by left.
Defined.

(** X19.  The overview of [main.py] on a dashboard without data: when
    each of the five datasets of [DataHandler] is absent or has no row,
    [show_overview] raises nothing, shows 0 for every figure and "N/A"
    for the recent crimes, lists every dataset with 0 records and as not
    available, and gives none of the quick insights. *)
Theorem main_overview_without_data (s : store) :
  Forall (no_data s) Main.dataset_names.*1 →
  Main.show_overview s = (Ok blank_main_overview, s).
Proof.
  intros H.
  apply Forall_cons in H as [Hw H]. apply Forall_cons in H as [He H].
  apply Forall_cons in H as [Hc H]. apply Forall_cons in H as [Hi H].
  apply Forall_cons in H as [Hm _].
  destruct (no_data_sentinel s)
    as (_ & H2 & H3 & _ & H5 & H6 & H7 & _).
  destruct (H2 He) as (_ & _ & Hes). destruct (H3 Hc) as (_ & Hcs).
  destruct (H5 Hm) as (_ & Hms).
  pose proof (H6 Hw) as Hws. pose proof (H7 Hi) as His.
  unfold Main.show_overview.
  rewrite (bind_ok _ _ _ _ _ Hws), (bind_ok _ _ _ _ _ Hes),
    (bind_ok _ _ _ _ _ Hcs), (bind_ok _ _ _ _ _ His),
    (bind_ok _ _ _ _ _ Hms).
  rewrite (bind_ok _ _ s s None) by done.
  erewrite (bind_ok (M_mapM _ _)).
  2:{ apply (M_mapM_ok _ (fun kn : string * string =>
                            {| Main.dataset := kn.2; Main.records := 0%nat;
                               Main.available := false |})).
      repeat constructor; simpl;
        by erewrite bind_ok by (by apply record_count_no_data). }
  reflexivity.
Qed.

Lemma main_overview_without_data_witness :
  ∃ s, DataHandler.init empty_os "data" = Ok s
       ∧ Main.show_overview s = (Ok blank_main_overview, s).
Proof.
  eexists. split; [reflexivity|].
  apply main_overview_without_data.
  repeat constructor; by left.
Defined.


(** ** The creator of the unified datasets *)

Section Creator.
Import UnifiedDatasetCreator.
Context (o : os) (x : excel) (dir : string).







End Creator.



(** X21.  What the dataset creator saves is what the dashboards load.
    [save_unified_datasets] writes into the directory 'unified' under the
    output directory (the datasets directory when none is given), which
    it returns; the files it has written are exactly the datasets whose
    [to_csv] succeeded, each under the name unified_<key>.csv.  For each
    of the five keys of [DataLoader] that name is the file name
    [DataLoader.load_all] looks for. *)
Theorem creator_saves_loader_files (o : os) (w : disk) (dir : string)
    (u : gmap string frame) (out : option string) (udir : string)
    (saved : list (string * frame)) :
  UnifiedDatasetCreator.save_unified_datasets o w dir u out
  = Ok (udir, saved) →
  udir = path_join o (default dir out) "unified"
  ∧ (∀ path df,
       (path, df) ∈ saved ↔
       ∃ k, u !! k = Some df
            ∧ path = path_join o udir (UnifiedDatasetCreator.unified_name k)
            ∧ to_csv w path df = Ok tt)
  ∧ Forall (fun kf =>
              kf.2 = UnifiedDatasetCreator.unified_name kf.1
              ∧ ∀ df, u !! kf.1 = Some df →
                  to_csv w (path_join o udir kf.2) df = Ok tt →
                  (path_join o udir kf.2, df) ∈ saved)
      DataLoader.files.
Proof.
  unfold UnifiedDatasetCreator.save_unified_datasets.
  destruct (makedirs w _); [|done]. simpl. intros [= <- <-].
  split; [done|].
  assert (Hsaved : ∀ path df,
    (path, df)
      ∈ omap (fun kd : string * frame =>
                match
                  to_csv w
                    (path_join o (path_join o (default dir out) "unified")
                       (UnifiedDatasetCreator.unified_name kd.1)) kd.2
                with
                | Ok _ => Some
                    (path_join o (path_join o (default dir out) "unified")
                       (UnifiedDatasetCreator.unified_name kd.1), kd.2)
                | Raise _ => None
                end) (map_to_list u)
    ↔ ∃ k, u !! k = Some df
           ∧ path = path_join o (path_join o (default dir out) "unified")
                      (UnifiedDatasetCreator.unified_name k)
           ∧ to_csv w path df = Ok tt).
  { intros path df. rewrite list_elem_of_omap. split.
    - intros ([k f] & Hin%elem_of_map_to_list & H). simpl in H.
      destruct (to_csv w _ f) as [[]|] eqn:E; [|done].
      injection H as <- <-. by exists k.
    - intros (k & Hk & -> & Hw). exists (k, df).
      split; [by apply elem_of_map_to_list|]. simpl. by rewrite Hw. }
  split; [exact Hsaved|].
  repeat constructor; simpl; intros df Hk Hw; apply Hsaved;
    eexists; (split; [exact Hk|]); by split.
Qed.

Lemma creator_saves_loader_files_witness :
  ∃ udir saved,
    UnifiedDatasetCreator.save_unified_datasets example_os any_disk "raw"
      (<["crimes" := crimes_table]> ∅) None = Ok (udir, saved)
    ∧ ("raw/unified/unified_crimes.csv", crimes_table) ∈ saved.
Proof.
  eexists _, _. split; [reflexivity|].
  destruct (creator_saves_loader_files example_os any_disk "raw"
              (<["crimes" := crimes_table]> ∅) None _ _ eq_refl)
    as (_ & H & _).
  apply H. exists "crimes". by repeat split.
Defined.


(** ** [indore_dashboard.py] *)

Section Indore.
Import IndoreDashboard.
Context (o : os) (x : excel).

Lemma load_fold (l : list (string * (string * file_type)))
    (d0 : gmap string frame) (e0 : list (string * exn)) :
  let r :=
    foldl (fun (acc : gmap string frame * list (string * exn))
               (kf : string * (string * file_type)) =>
             match read_file o x kf.2 with
             | Ok df => (<[kf.1 := df]> acc.1, acc.2)
             | Raise e => (acc.1, acc.2 ++ [(kf.2.1, e)])
             end) (d0, e0) l in
  r.2 = e0 ++ omap (load_error o x) l
  ∧ (∀ k, k ∉ l.*1 → r.1 !! k = d0 !! k)
  ∧ (NoDup l.*1 →
     Forall (fun kf => r.1 !! kf.1
                       = match loaded o x kf.2 with
                         | Some df => Some df
                         | None => d0 !! kf.1
                         end) l).
Proof.
  revert d0 e0. induction l as [|kf l IH]; intros d0 e0.
  { simpl. by rewrite app_nil_r. }
  simpl. unfold load_error at 1.
  destruct (read_file o x kf.2) as [df|e] eqn:E; simpl.
  - destruct (IH (<[kf.1 := df]> d0) e0) as (H1 & H2 & H3).
    split; [exact H1|]. split.
    + intros k [Hne Hk]%not_elem_of_cons.
      rewrite H2 by done. by rewrite lookup_insert_ne.
    + intros [Hk Hnd]%NoDup_cons. constructor.
      * rewrite H2 by done. rewrite lookup_insert_eq.
        unfold loaded. by rewrite E.
      * specialize (H3 Hnd). rewrite Forall_forall in H3.
        apply Forall_forall. intros kf' Hin. rewrite (H3 kf' Hin).
        destruct (loaded o x kf'.2); [done|].
        rewrite lookup_insert_ne; [done|]. intros Heq.
        apply Hk. rewrite Heq. apply list_elem_of_fmap. by exists kf'.
  - destruct (IH d0 (e0 ++ [(kf.2.1, e)])) as (H1 & H2 & H3).
    split; [by rewrite H1, <- app_assoc|]. split.
    + intros k [Hne Hk]%not_elem_of_cons. by apply H2.
    + intros [Hk Hnd]%NoDup_cons. constructor; [|by apply H3].
      rewrite H2 by done. unfold loaded. by rewrite E.
Qed.

End Indore.

Lemma omap_nil {A B} (f : A → option B) (l : list A) :
  omap f l = [] → Forall (fun a => f a = None) l.
Proof.
  induction l as [|a l IH]; [done|]. csimpl.
  destruct (f a) eqn:E; [done|]. intros H. constructor; auto.
Qed.

(** X22.  [load_data] of [indore_dashboard.py] never raises, and sorts
    its eight files into tables and errors: a file that can be read is
    stored under its key, a file that cannot is left out of the tables
    and recorded, with its exception, in the list of errors, in the order
    of the files.  So when the list of errors is empty -- the only case
    in which the script goes on -- all eight tables are there. *)
Theorem indore_load_data (o : os) (x : excel) :
  (IndoreDashboard.load_data o x).2
  = omap (load_error o x) IndoreDashboard.file_map
  ∧ Forall (fun kf => (IndoreDashboard.load_data o x).1 !! kf.1
                      = loaded o x kf.2) IndoreDashboard.file_map
  ∧ (∀ k, k ∉ IndoreDashboard.file_map.*1 →
          (IndoreDashboard.load_data o x).1 !! k = None)
  ∧ ((IndoreDashboard.load_data o x).2 = [] →
     Forall (fun kf => is_Some ((IndoreDashboard.load_data o x).1 !! kf.1))
       IndoreDashboard.file_map).
Proof.
  destruct (load_fold o x IndoreDashboard.file_map ∅ []) as (H1 & H2 & H3).
  fold (IndoreDashboard.load_data o x) in H1, H2, H3.
  assert (Hl : Forall (fun kf => (IndoreDashboard.load_data o x).1 !! kf.1
                                 = loaded o x kf.2)
                 IndoreDashboard.file_map).
  { eapply Forall_impl; [apply H3; compute_done|].
    intros kf H. simpl in H. rewrite H. by destruct (loaded o x kf.2). }
  split; [exact H1|]. split; [exact Hl|]. split.
  - intros k Hk. by rewrite H2.
  - intros He. rewrite H1 in He. apply omap_nil in He.
    rewrite Forall_forall in He, Hl. apply Forall_forall. intros kf Hin.
    rewrite (Hl kf Hin). specialize (He kf Hin).
    unfold load_error, loaded in *.
    by destruct (IndoreDashboard.read_file o x kf.2).
Qed.

(** X23.  The theme of [indore_dashboard.py], which starts as 'light'
    and changes only through [toggle_theme], is 'light' after an even
    number of toggles and 'dark' after an odd number; whatever the theme
    was, one toggle makes it one of the two, so that three toggles do what
    one does. *)
Theorem toggle_theme_alternates :
  (∀ n : nat,
     Nat.iter n IndoreDashboard.toggle_theme "light"
     = if Nat.even n then "light" else "dark")
  ∧ (∀ theme : string,
       IndoreDashboard.toggle_theme theme ∈ ["light"; "dark"]
       ∧ IndoreDashboard.toggle_theme
           (IndoreDashboard.toggle_theme
              (IndoreDashboard.toggle_theme theme))
         = IndoreDashboard.toggle_theme theme).
Proof.
  split.
  - induction n as [|n IH]; [done|].
    rewrite Nat.even_succ, <- Nat.negb_even. simpl. rewrite IH.
    by destruct (Nat.even n).
  - intros theme. unfold IndoreDashboard.toggle_theme.
    destruct (String.eqb theme "light"); split; try done.
    + right. by left.
    + by left.
Qed.


(** ** The two implementations side by side *)

Lemma row0_int (df : frame) (name : string) (z : Z) (l : list Z) :
  getitem df name = Ok (IntCol (z :: l)) → row0 df name = Ok (VInt z).
Proof. intros H. unfold row0. by rewrite H. Qed.

(** The unguarded rate on two integer cells raises nothing. *)
Lemma rate_returns (a b : Z) : ∃ v, DashboardApp.rate (VInt a) (VInt b) = Ok v.
Proof.
  unfold DashboardApp.rate, np_truediv, as_float.
  cbv beta iota delta [mbind result_bind py_mul as_float np_round].
  by eexists.
Qed.

Lemma pct_returns (a b : Z) (k : nat) : ∃ v, DataHandler.pct a b k = Ok v.
Proof.
  destruct (Z.lt_ge_cases 0 b) as [Hb|Hb].
  - destruct (pct_finite a b k Hb) as [r ->]. by eexists.
  - rewrite pct_guarded by done. by eexists.
Qed.

(** X24.  On an employment table of integers the two classes agree on
    the counts: [DashboardApp.get_employment_stats] and
    [DataHandler.get_employment_stats] both return, and both give the
    cells of the first row as labour force, employed and unemployed.
    The rates are left out: [DashboardApp] divides numpy scalars without
    a guard and rounds them as numpy does, [DataHandler] divides Python
    ints behind a guard and rounds as Python does. *)
Theorem employment_stats_agree (s : store) (df : frame) (u e n : Z)
    (us es ns : list Z) :
  s !! "employment" = Some (Some df) → frame_empty df = false →
  getitem df UNEMPLOYED = Ok (IntCol (u :: us)) →
  getitem df EMPLOYED = Ok (IntCol (e :: es)) →
  getitem df LABOUR_FORCE = Ok (IntCol (n :: ns)) →
  ∃ sta stb,
    DashboardApp.get_employment_stats s = (Ok sta, s)
    ∧ DataHandler.get_employment_stats s = (Ok stb, s)
    ∧ Forall (fun kz : string * Z =>
                sta !! kz.1 = Some (OVal (VInt kz.2))
                ∧ stb !! kz.1 = Some (OVal (VInt kz.2)))
        [("labour_force", n); ("employed", e); ("unemployed", u)].
Proof.
  intros Hs Hne Hu He Hn.
  destruct (rate_returns u n) as [ru Hru].
  destruct (rate_returns e n) as [re Hre].
  destruct (pct_returns u n 2) as [r Hr].
  eexists _, _. split; [|split].
  - unfold DashboardApp.get_employment_stats.
    rewrite (bind_ok _ _ _ _ _ (dict_get_ok _ _ _ Hs)). rewrite Hne.
    unfold lift.
    rewrite (row0_int _ _ _ _ Hu), (row0_int _ _ _ _ He),
      (row0_int _ _ _ _ Hn).
    cbv beta iota delta [mbind result_bind py_int].
    rewrite Hru, Hre. reflexivity.
  - unfold DataHandler.get_employment_stats.
    rewrite (bind_ok _ _ _ _ _ (dict_get_ok _ _ _ Hs)). rewrite Hne.
    unfold lift.
    rewrite (row0_int _ _ _ _ Hu), (row0_int _ _ _ _ He),
      (row0_int _ _ _ _ Hn).
    cbv beta iota delta [mbind result_bind py_int].
    rewrite Hr. reflexivity.
  - repeat constructor.
Qed.

Lemma employment_stats_agree_witness :
  ∃ sta stb,
    DashboardApp.get_employment_stats
      (<["employment" := Some employment_example]> ∅)
    = (Ok sta, <["employment" := Some employment_example]> ∅)
    ∧ DataHandler.get_employment_stats
        (<["employment" := Some employment_example]> ∅)
      = (Ok stb, <["employment" := Some employment_example]> ∅)
    ∧ Forall (fun kz : string * Z =>
                sta !! kz.1 = Some (OVal (VInt kz.2))
                ∧ stb !! kz.1 = Some (OVal (VInt kz.2)))
        [("labour_force", 1000); ("employed", 950); ("unemployed", 50)].
Proof.
  apply (employment_stats_agree
           (<["employment" := Some employment_example]> ∅)
           employment_example 50 950 1000 [] [] []);
    reflexivity.
Defined.

(** The entries of two summaries that hold the same sums. *)
Ltac same_sums Ha Hb :=
  bind_inv_eqn Ha;
  cbv beta iota delta [mbind result_bind] in Hb;
  repeat match goal with
         | E : int_sum ?d ?c = Ok _ |- _ => rewrite E in Hb; clear E
         end;
  bind_inv_eqn Hb.

(** X25.  The totals of the two classes are the same sums: on the same
    table, when [DashboardApp.get_water_sanitation_stats] and
    [DataHandler.get_water_stats] both return they have the same four
    totals, and so have [DashboardApp.get_intersections_summary] and
    [DataHandler.get_infrastructure_stats] their two. *)
Theorem totals_agree (sa sb : store) (df : frame) (sta stb : stats) :
  (sa !! "water_sanitation" = Some (Some df) →
   sb !! "water" = Some (Some df) →
   DashboardApp.get_water_sanitation_stats sa = (Ok sta, sa) →
   DataHandler.get_water_stats sb = (Ok stb, sb) →
   Forall (fun k => sta !! k = stb !! k)
     ["total_households"; "sewerage_coverage"; "toilet_coverage";
      "public_toilets"])
  ∧ (sa !! "intersections" = Some (Some df) →
     sb !! "infrastructure" = Some (Some df) →
     DashboardApp.get_intersections_summary sa = (Ok sta, sa) →
     DataHandler.get_infrastructure_stats sb = (Ok stb, sb) →
     Forall (fun k => sta !! k = stb !! k)
       ["total_intersections"; "signalized_intersections"]).
Proof.
  split; intros Hsa Hsb Ha Hb.
  - apply summary_inv in Ha as [_ [[Hn ->]|(d & Hd & Hne & Ha)]].
    { destruct Hn as [Hn|(d & Hn & He)]; rewrite Hsa in Hn; [done|].
      injection Hn as <-.
      apply summary_inv in Hb as [_ [[_ ->]|(d' & Hd' & Hne' & _)]];
        [by repeat constructor|].
      rewrite Hsb in Hd'. injection Hd' as <-. congruence. }
    rewrite Hsa in Hd. injection Hd as <-.
    apply summary_inv in Hb as [_ [[Hn _]|(d & Hd & _ & Hb)]].
    { destruct Hn as [Hn|(d & Hn & He)]; rewrite Hsb in Hn; [done|].
      injection Hn as <-. congruence. }
    rewrite Hsb in Hd. injection Hd as <-.
    same_sums Ha Hb. by repeat constructor.
  - apply summary_inv in Ha as [_ [[Hn ->]|(d & Hd & Hne & Ha)]].
    { destruct Hn as [Hn|(d & Hn & He)]; rewrite Hsa in Hn; [done|].
      injection Hn as <-.
      apply summary_inv in Hb as [_ [[_ ->]|(d' & Hd' & Hne' & _)]];
        [by repeat constructor|].
      rewrite Hsb in Hd'. injection Hd' as <-. congruence. }
    rewrite Hsa in Hd. injection Hd as <-.
    apply summary_inv in Hb as [_ [[Hn _]|(d & Hd & _ & Hb)]].
    { destruct Hn as [Hn|(d & Hn & He)]; rewrite Hsb in Hn; [done|].
      injection Hn as <-. congruence. }
    rewrite Hsb in Hd. injection Hd as <-.
    same_sums Ha Hb. by repeat constructor.
Qed.

Lemma totals_agree_witness :
  ∃ sta stb,
    DashboardApp.get_intersections_summary
      (<["intersections" := Some intersections_none]> ∅)
    = (Ok sta, <["intersections" := Some intersections_none]> ∅)
    ∧ DataHandler.get_infrastructure_stats
        (<["infrastructure" := Some intersections_none]> ∅)
      = (Ok stb, <["infrastructure" := Some intersections_none]> ∅)
    ∧ Forall (fun k => sta !! k = stb !! k)
        ["total_intersections"; "signalized_intersections"].
Proof.
  eexists; eexists.
  split; [reflexivity|]. split; [reflexivity|].
  apply (proj2 (totals_agree
                  (<["intersections" := Some intersections_none]> ∅)
                  (<["infrastructure" := Some intersections_none]> ∅)
                  intersections_none _ _)); reflexivity.
Defined.

(** ** A missing file, end to end *)

Lemma init_entries (o : os) (dir : string) (s : store) :
  (DashboardApp.init o dir = Ok s →
   Forall (fun kf => s !! kf.1 = Some (entry o dir kf.2)) DataLoader.files)
  ∧ (DataHandler.init o dir = Ok s →
     Forall (fun kf => s !! kf.1 = Some (entry o dir kf.2))
       DataHandler.files).
Proof.
  split; intros H.
  - unfold DashboardApp.init, DataLoader.load_all in H.
    rewrite load_loop_ok in H.
    assert (s = foldl (fun d kf => <[kf.1 := entry o dir kf.2]> d) ∅
                  DataLoader.files) as -> by congruence.
    apply load_loop_key, DataLoader_files_NoDup.
  - unfold DataHandler.init, DataHandler.load_data in H.
    rewrite load_loop_ok in H.
    assert (s = foldl (fun d kf => <[kf.1 := entry o dir kf.2]> d) ∅
                  DataHandler.files) as -> by congruence.
    apply load_loop_key, DataHandler_files_NoDup.
Qed.

Lemma absent_no_data (s : store) (key : string) (v : option frame) :
  s !! key = Some v → v = None → no_data s key.
Proof. intros H ->. by left. Qed.

(** X26.  A missing or unreadable file, end to end: on a dashboard as
    its constructor leaves it, every query on a dataset whose file does
    not exist or cannot be read returns its sentinel -- the empty mapping
    or [None] -- and leaves the tables alone, whatever the state of the
    other files. *)
Theorem missing_file_gives_sentinel (o : os) (dir : string) (s : store) :
  (DashboardApp.init o dir = Ok s →
   (entry o dir "unified_water_sanitation.csv" = None →
    DashboardApp.get_water_sanitation_stats s = (Ok ∅, s)
    ∧ DashboardApp.get_water_by_zone s = (Ok None, s)
    ∧ DashboardApp.get_water_by_ward s = (Ok None, s))
   ∧ (entry o dir "unified_environment.csv" = None →
      DashboardApp.get_environment_stats s = (Ok ∅, s)
      ∧ DashboardApp.get_environment_trend s = (Ok None, s))
   ∧ (entry o dir "unified_crimes.csv" = None →
      DashboardApp.get_crimes_trend s = (Ok None, s))
   ∧ (entry o dir "unified_intersections.csv" = None →
      DashboardApp.get_intersections_summary s = (Ok ∅, s)
      ∧ DashboardApp.get_intersections_by_zone s = (Ok None, s))
   ∧ (entry o dir "unified_employment.csv" = None →
      DashboardApp.get_employment_stats s = (Ok ∅, s)))
  ∧ (DataHandler.init o dir = Ok s →
     (entry o dir "unified_water_sanitation.csv" = None →
      DataHandler.get_water_stats s = (Ok ∅, s)
      ∧ ∀ value_col,
          DataHandler.get_zone_data "water" value_col s = (Ok None, s))
     ∧ (entry o dir "unified_environment.csv" = None →
        DataHandler.get_environment_stats s = (Ok ∅, s))
     ∧ (entry o dir "unified_crimes.csv" = None →
        DataHandler.get_crime_data s = (Ok None, s))
     ∧ (entry o dir "unified_intersections.csv" = None →
        DataHandler.get_infrastructure_stats s = (Ok ∅, s)
        ∧ ∀ value_col,
            DataHandler.get_zone_data "infrastructure" value_col s
            = (Ok None, s))
     ∧ (entry o dir "unified_employment.csv" = None →
        DataHandler.get_employment_stats s = (Ok ∅, s))).
Proof.
  destruct (no_data_sentinel s)
    as (H1 & H2 & H3 & H4 & H5 & H6 & H7 & H8).
  split; intros Hinit.
  - apply (proj1 (init_entries o dir s)) in Hinit.
    repeat (apply Forall_cons in Hinit as [? Hinit]). simpl in *.
    repeat split; intros;
      first [ by apply H1; eapply absent_no_data
            | by apply H2; eapply absent_no_data
            | by apply H3; eapply absent_no_data
            | by apply H4; eapply absent_no_data
            | by apply H5; eapply absent_no_data ].
  - apply (proj2 (init_entries o dir s)) in Hinit.
    repeat (apply Forall_cons in Hinit as [? Hinit]). simpl in *.
    repeat split; intros;
      first [ by apply H6; eapply absent_no_data
            | by apply H2; eapply absent_no_data
            | by apply H3; eapply absent_no_data
            | by apply H7; eapply absent_no_data
            | by apply H5; eapply absent_no_data
            | by apply H8; eapply absent_no_data ].
Qed.

Lemma missing_file_gives_sentinel_witness :
  ∃ s, DashboardApp.init example_os "data" = Ok s
       ∧ DashboardApp.get_water_sanitation_stats s = (Ok ∅, s)
       ∧ DashboardApp.get_employment_stats s = (Ok ∅, s).
Proof.
  eexists. split; [reflexivity|].
  destruct (proj1 (missing_file_gives_sentinel example_os "data" _) eq_refl)
    as (Hw & _ & _ & _ & Hm).
  split; [by apply Hw | by apply Hm].
Defined.


(** ** Percentages that a float can hold *)

Lemma calculate_coverage_finite (a b : Z) :
  small_int a →
  ∃ v, DataProcessor.calculate_coverage (VInt a) (VInt b) = Ok v
       ∧ finite_number v.
Proof.
  intros Ha. destruct (decide (b = 0)) as [->|Hb].
  - exists (VInt 0). split; [|done].
    apply calculate_coverage_guard. by left.
  - destruct (percent_range a b 2 Hb) as (r & Hr & Hlo & Hhi).
    exists (VFloat (Fin r)). split; [|by eapply small_int_range].
    rewrite (calculate_coverage_numbers _ _ (Float.of_Z a) (Float.of_Z b));
      try done; [|by apply Z.eqb_neq].
    by rewrite Hr.
Qed.

Lemma pct_finite_number (a b : Z) (k : nat) :
  small_int a → ∃ v, DataHandler.pct a b k = Ok v ∧ finite_number v.
Proof.
  intros Ha. destruct (Z.lt_ge_cases 0 b) as [Hb|Hb].
  - destruct (percent_range a b k) as (r & Hr & Hlo & Hhi); [lia|].
    exists (VFloat (Fin r)). split; [|by eapply small_int_range].
    by rewrite pct_ratio, Hr.
  - rewrite pct_guarded by done. by eexists.
Qed.

Ltac finite_entry :=
  eexists _, _; split; [reflexivity|]; split; [reflexivity|];
  let Ha := fresh "Ha" in
  intros Ha;
  match goal with
  | E : DataProcessor.calculate_coverage (VInt ?a) (VInt ?b) = Ok ?v
    |- finite_number ?v =>
      destruct (calculate_coverage_finite a b Ha) as (? & E' & ?);
      rewrite E in E'; by injection E' as <-
  | E : DataHandler.pct ?a ?b ?k = Ok ?v |- finite_number ?v =>
      destruct (pct_finite_number a b k Ha) as (? & E' & ?);
      rewrite E in E'; by injection E' as <-
  end.

(** X27.  The percentages of the water summaries, and every rate of
    [DataHandler], are numbers that a float can hold -- never NaN, never
    an infinity -- whenever the summary returns and is not empty and the
    count of which the percentage is taken (the entry of the summary
    next to it) is at most [10^300] in magnitude: they are computed from
    Python ints through a guard against a zero denominator, and a
    quotient by a non-zero int is no larger than its numerator.  (The
    employment rates of [DashboardApp] are not: they divide the cells of
    the row.) *)
Theorem percentages_finite (s s1 : store) (st : stats) :
  st ≠ ∅ →
  (DashboardApp.get_water_sanitation_stats s = (Ok st, s1) →
   finite_percentage st "sewerage_coverage" "sewerage_pct"
   ∧ finite_percentage st "toilet_coverage" "toilet_pct")
  ∧ (DataHandler.get_water_stats s = (Ok st, s1) →
     finite_percentage st "sewerage_coverage" "sewerage_pct"
     ∧ finite_percentage st "toilet_coverage" "toilet_pct")
  ∧ (DataHandler.get_infrastructure_stats s = (Ok st, s1) →
     finite_percentage st "signalized_intersections" "signalization_pct")
  ∧ (DataHandler.get_employment_stats s = (Ok st, s1) →
     finite_percentage st "unemployed" "unemployment_rate").
Proof.
  intros Hst.
  split; [|split; [|split]]; intros Hr;
    apply summary_inv in Hr as [_ [[_ ->]|(df & _ & _ & Hb)]]; try done;
    bind_inv_eqn Hb;
    repeat match goal with |- _ ∧ _ => split end; finite_entry.
Qed.

Lemma percentages_finite_witness :
  ∃ st,
    DataHandler.get_employment_stats
      (<["employment" := Some employment_example]> ∅)
    = (Ok st, <["employment" := Some employment_example]> ∅)
    ∧ finite_percentage st "unemployed" "unemployment_rate".
Proof.
  eexists. split; [reflexivity|].
  refine (proj2 (proj2 (proj2
            (percentages_finite
               (<["employment" := Some employment_example]> ∅)
               (<["employment" := Some employment_example]> ∅) _ _))) eq_refl).
  intros E. apply (f_equal (fun m : stats => m !! "labour_force")) in E.
  discriminate E.
Defined.

(** ** The two averages of NO2 *)

(** X28.  Both classes round the NO2 average to two decimals: on an
    environment table that has the columns either method reads, the two
    summaries give the same NO2 average, unless the column has no
    reading at all, where [DashboardApp] gives NaN and [DataHandler]
    gives 0. *)
Theorem no2_average_agrees (s : store) (env : frame)
    (c25 c10 cno2 cso2 co3 : column) :
  s !! "environment" = Some (Some env) → frame_empty env = false →
  getitem env PM25 = Ok c25 → getitem env PM10 = Ok c10 →
  getitem env NO2 = Ok cno2 → getitem env SO2 = Ok cso2 →
  getitem env O3 = Ok co3 →
  ∃ sta s1 stb,
    DashboardApp.get_environment_stats s = (Ok sta, s1)
    ∧ DataHandler.get_environment_stats s = (Ok stb, s)
    ∧ (is_Some (sta !! "no2_avg") ∧ stb !! "no2_avg" = sta !! "no2_avg"
       ∨ sta !! "no2_avg" = Some (OVal (VFloat NaN))
         ∧ stb !! "no2_avg" = Some (OVal (VInt 0))).
Proof.
  intros Hs Hne H25 H10 Hno2 Hso2 Ho3.
  eexists _, _, _. split; [by eapply dashboard_environment_stats|].
  split; [by eapply handler_environment_stats|].
  assert (Ha : (list_to_map
                  [("pm25_avg", avg c25 2); ("pm10_avg", avg c10 2);
                   ("no2_avg", avg cno2 2); ("so2_avg", avg cso2 2);
                   ("o3_avg", avg co3 2)] : stats) !! "no2_avg"
               = Some (avg cno2 2)) by done.
  assert (Hb : (list_to_map
                  [("pm25_avg", avg_or_0 c25 1);
                   ("pm10_avg", avg_or_0 c10 1);
                   ("no2_avg", avg_or_0 cno2 2)] : stats) !! "no2_avg"
               = Some (avg_or_0 cno2 2)) by done.
  rewrite Ha, Hb. unfold avg, avg_or_0.
  destruct (fmean (clean <$> cells cno2)) as [q| |b]; simpl; eauto.
Qed.

Lemma no2_average_agrees_witness :
  ∃ sta s1 stb,
    DashboardApp.get_environment_stats
      (<["environment" := Some env_example]> ∅) = (Ok sta, s1)
    ∧ DataHandler.get_environment_stats
        (<["environment" := Some env_example]> ∅)
      = (Ok stb, <["environment" := Some env_example]> ∅)
    ∧ (is_Some (sta !! "no2_avg") ∧ stb !! "no2_avg" = sta !! "no2_avg"
       ∨ sta !! "no2_avg" = Some (OVal (VFloat NaN))
         ∧ stb !! "no2_avg" = Some (OVal (VInt 0))).
Proof.
  by apply (no2_average_agrees (<["environment" := Some env_example]> ∅)
              env_example
              (ObjCol [VStr "10"; VStr "NA"; VStr "20"])
              (IntCol [40; 50; 60])
              (FloatCol [Fin (1 # 2); NaN; Fin 2])
              (ObjCol [VStr "3"; VStr "BDL"; VStr "4"])
              (FloatCol [NaN; NaN; NaN])).
Defined.

(** ** The overview is all or nothing *)

Lemma environment_stats_others (s : store) (key : string) :
  key ≠ "environment" →
  (DashboardApp.get_environment_stats s).2 !! key = s !! key.
Proof.
  intros Hkey. destruct (s !! "environment") as [[env|]|] eqn:Hs.
  - destruct (environment_stats_store s env Hs) as (env' & -> & _).
    by rewrite lookup_insert_ne.
  - unfold DashboardApp.get_environment_stats.
    by rewrite (bind_ok _ _ _ _ _ (dict_get_ok _ _ _ Hs)).
  - unfold DashboardApp.get_environment_stats, mbind, M_bind, dict_get.
    by rewrite Hs.
Qed.

Lemma query_elsewhere {A} (key : string) (m : M A) (s s' : store) :
  reads_only key m → read_only m → s' !! key = s !! key →
  m s' = ((m s).1, s').
Proof.
  intros Hr Hro H. rewrite (surjective_pairing (m s')).
  by rewrite (Hr s' s H), (Hro s').
Qed.

Lemma overview_queries_read :
  reads_only "crimes" DashboardApp.get_crimes_trend
  ∧ reads_only "intersections" DashboardApp.get_intersections_summary
  ∧ reads_only "employment" DashboardApp.get_employment_stats.
Proof.
  repeat split;
    apply reads_only_query; intros df; apply reads_nothing_lift.
Qed.

(** When the overview returns, each of its five queries has returned. *)
Lemma overview_returns (s s' : store) (ov : App.overview) :
  App.show_overview s = (Ok ov, s') →
  (∃ st, (DashboardApp.get_water_sanitation_stats s).1 = Ok st)
  ∧ (∃ st, (DashboardApp.get_environment_stats s).1 = Ok st)
  ∧ (∃ r, (DashboardApp.get_crimes_trend s).1 = Ok r)
  ∧ (∃ st, (DashboardApp.get_intersections_summary s).1 = Ok st)
  ∧ (∃ st, (DashboardApp.get_employment_stats s).1 = Ok st).
Proof.
  unfold App.show_overview. intros H.
  destruct queries_read_only as (Hro1 & Hro3 & Hro4 & Hro5 & _).
  destruct overview_queries_read as (Hr3 & Hr4 & Hr5).
  destruct (DashboardApp.get_water_sanitation_stats s) as [[st1|e] s1] eqn:E1;
    [|by rewrite (bind_raise _ _ _ _ _ E1) in H].
  rewrite (bind_ok _ _ _ _ _ E1) in H.
  assert (s1 = s) as -> by (by rewrite <- (Hro1 s), E1).
  split; [by eexists|].
  pose proof (environment_stats_others s) as Ho.
  destruct (DashboardApp.get_environment_stats s) as [[st2|e] s2] eqn:E2;
    [|by rewrite (bind_raise _ _ _ _ _ E2) in H].
  rewrite (bind_ok _ _ _ _ _ E2) in H. simpl in Ho.
  split; [by eexists|].
  pose proof (query_elsewhere _ _ s s2 Hr3 Hro3 (Ho "crimes" ltac:(done)))
    as E3.
  destruct (DashboardApp.get_crimes_trend s).1 as [r3|e] eqn:R3;
    [|by rewrite (bind_raise _ _ _ _ _ E3) in H].
  rewrite (bind_ok _ _ _ _ _ E3) in H.
  split; [by eexists|].
  pose proof (query_elsewhere _ _ s s2 Hr4 Hro4
                (Ho "intersections" ltac:(done))) as E4.
  destruct (DashboardApp.get_intersections_summary s).1 as [r4|e] eqn:R4;
    [|by rewrite (bind_raise _ _ _ _ _ E4) in H].
  rewrite (bind_ok _ _ _ _ _ E4) in H.
  split; [by eexists|].
  pose proof (query_elsewhere _ _ s s2 Hr5 Hro5
                (Ho "employment" ltac:(done))) as E5.
  destruct (DashboardApp.get_employment_stats s).1 as [r5|e] eqn:R5;
    [|by rewrite (bind_raise _ _ _ _ _ E5) in H].
  by eexists.
Qed.

(** X29.  The overview of [app.py] is all or nothing: when one of its
    five queries raises (on a table that lacks a column it reads, say),
    [show_overview] raises, and none of the figures of the other datasets
    is shown. *)
Theorem overview_all_or_nothing (s : store) :
  raises DashboardApp.get_water_sanitation_stats s
  ∨ raises DashboardApp.get_environment_stats s
  ∨ raises DashboardApp.get_crimes_trend s
  ∨ raises DashboardApp.get_intersections_summary s
  ∨ raises DashboardApp.get_employment_stats s →
  raises App.show_overview s.
Proof.
  intros H.
  destruct (App.show_overview s) as [[ov|e] s'] eqn:E; [|by exists e, s'].
  destruct (overview_returns s s' ov E)
    as ([? H1] & [? H2] & [? H3] & [? H4] & [? H5]).
  destruct H as [(e & s1 & H)|[(e & s1 & H)|[(e & s1 & H)|[(e & s1 & H)
                |(e & s1 & H)]]]];
    rewrite H in *; discriminate.
Qed.

Lemma overview_all_or_nothing_witness :
  raises App.show_overview (<["water_sanitation" := Some water_short]> ∅).
Proof.
  apply overview_all_or_nothing. left. by eexists _, _.
Defined.

